(** * MultiChat broker (server.c): a shallow embedding and its properties

    The broker is the parent process of server.c.  It owns the client
    table, the room table, the per-client appeal record and the room log
    files, and it serves one control message at a time.  The embedding
    keeps the C data layout (fixed-size character arrays, fixed-size
    tables) and threads the broker state explicitly; every system call
    that produces output becomes an event of the returned trace. *)

From Stdlib Require Import String Ascii ZArith List Lia Bool DecimalString.
From stdpp Require Import base gmap strings list.
Import ListNotations.

Local Open Scope Z_scope.

(** ** C strings *)

Module CStr.

Definition NUL : ascii := "000"%char.
Definition LF : ascii := "010"%char.
Definition CR : ascii := "013"%char.

Definition is_nul (c : ascii) : bool := Ascii.eqb c NUL.
Definition is_pipe (c : ascii) : bool := Ascii.eqb c "|"%char.
Definition is_space (c : ascii) : bool := Ascii.eqb c " "%char.
Definition is_lf (c : ascii) : bool := Ascii.eqb c LF.
(* the reject set "\r\n" of trim_newline *)
Definition is_crlf (c : ascii) : bool := Ascii.eqb c CR || Ascii.eqb c LF.

Definition strlen (s : string) : Z := Z.of_nat (String.length s).

(* s[strcspn(s, set)] = '\0' *)
Fixpoint cut_at (stop : ascii -> bool) (s : string) : string :=
  match s with
  | EmptyString => EmptyString
  | String c s' => if stop c then EmptyString else String c (cut_at stop s')
  end.

(* buf[n] = '\0' after read(): the C string held by the bytes read *)
Definition c_string (data : string) : string := cut_at is_nul data.

Definition trim_newline (s : string) : string := cut_at is_crlf s.

(* the first n characters: strncpy into a zeroed array of n+1 bytes,
   snprintf into an array of n+1 bytes *)
Fixpoint strn (n : Z) (s : string) : string :=
  match s with
  | EmptyString => EmptyString
  | String c s' => if 0 <? n then String c (strn (n - 1) s') else EmptyString
  end.

Fixpoint strdrop (n : Z) (s : string) : string :=
  match s with
  | EmptyString => EmptyString
  | String c s' => if 0 <? n then strdrop (n - 1) s' else s
  end.

Definition snprintf (size : Z) (formatted : string) : string :=
  strn (size - 1) formatted.

(* strtok_r: skip the leading delimiters, cut the token at the next one *)
Fixpoint skip_delims (delim : ascii -> bool) (s : string) : string :=
  match s with
  | EmptyString => EmptyString
  | String c s' => if delim c then skip_delims delim s' else s
  end.

Fixpoint span_token (delim : ascii -> bool) (s : string) : string * string :=
  match s with
  | EmptyString => (EmptyString, EmptyString)
  | String c s' =>
      if delim c then (EmptyString, s')
      else let '(tok, rest) := span_token delim s' in (String c tok, rest)
  end.

(* returns the token (None for NULL) and the new save pointer *)
Definition strtok_r (delim : ascii -> bool) (save : string)
  : option string * string :=
  match skip_delims delim save with
  | EmptyString => (None, EmptyString)
  | s => let '(tok, rest) := span_token delim s in (Some tok, rest)
  end.

(* sp = strchr(s, ' '); *sp = '\0'; the two halves s and sp + 1 *)
Fixpoint split_space (s : string) : option (string * string) :=
  match s with
  | EmptyString => None
  | String c s' =>
      if is_space c then Some (EmptyString, s')
      else match split_space s' with
           | Some (a, b) => Some (String c a, b)
           | None => None
           end
  end.

(* printf's %d on a non-negative int *)
Definition dec (n : nat) : string := NilEmpty.string_of_uint (Nat.to_uint n).

Definition nonempty (s : string) : bool :=
  match s with EmptyString => false | String _ _ => true end.

End CStr.
Import CStr.

(** ** Constants *)

Definition BUF : Z := 8192.
Definition MAX_CLIENTS : nat := 128.
Definition MAX_ROOMS : nat := 128.
Definition LOGDIR : string := "logs".
Definition ADMIN_PASSWORD : string := "admin123".

(** ** Data structures *)

Record client_t := mk_client {
  pid : Z;
  to_child_fd : Z;
  from_child_fd : Z;
  username : string;   (* char username[64] *)
  room : string;       (* char room[64] *)
  connected : bool;
  muted : bool;
  is_admin : bool
}.

(* a slot of the zero-initialised static table *)
Definition zero_client : client_t := mk_client 0 0 0 "" "" false false false.

Record server := mk_server {
  clients : list client_t;          (* client_t clients[MAX_CLIENTS] *)
  rooms : list string;              (* rooms[0 .. room_count-1] *)
  last_appeal_msg : list string;    (* char last_appeal_msg[MAX_CLIENTS][512] *)
  files : gmap string string        (* the log files, by the path given to open() *)
}.

Definition room_count (st : server) : nat := length (rooms st).

Definition slot (st : server) (i : nat) : client_t :=
  default zero_client (clients st !! i).

Definition appeal_of (st : server) (i : nat) : string :=
  default "" (last_appeal_msg st !! i).

Definition set_clients (cs : list client_t) (st : server) : server :=
  mk_server cs (rooms st) (last_appeal_msg st) (files st).
Definition set_rooms (rs : list string) (st : server) : server :=
  mk_server (clients st) rs (last_appeal_msg st) (files st).
Definition set_appeals (a : list string) (st : server) : server :=
  mk_server (clients st) (rooms st) a (files st).
Definition set_files (f : gmap string string) (st : server) : server :=
  mk_server (clients st) (rooms st) (last_appeal_msg st) f.

Definition with_name_room (u r : string) (c : client_t) : client_t :=
  mk_client (pid c) (to_child_fd c) (from_child_fd c) u r
            (connected c) (muted c) (is_admin c).
Definition with_connected (b : bool) (c : client_t) : client_t :=
  mk_client (pid c) (to_child_fd c) (from_child_fd c) (username c) (room c)
            b (muted c) (is_admin c).
Definition with_muted (b : bool) (c : client_t) : client_t :=
  mk_client (pid c) (to_child_fd c) (from_child_fd c) (username c) (room c)
            (connected c) b (is_admin c).
Definition with_admin (b : bool) (c : client_t) : client_t :=
  mk_client (pid c) (to_child_fd c) (from_child_fd c) (username c) (room c)
            (connected c) (muted c) b.

Definition update_slot (i : nat) (f : client_t -> client_t) (st : server) : server :=
  set_clients (alter f i (clients st)) st.

(** ** Output events *)

Inductive event :=
| Write (fd : Z) (data : string)
    (* write(fd, data, strlen(data)) *)
| WriteOverrun (fd : Z) (data : string) (beyond : Z)
    (* write(fd, buf, n) with n >= sizeof buf: the BUF bytes of the
       buffer, then [beyond] bytes from past its end *)
| Close (fd : Z)
| Printf (line : string).
    (* the broker's own stdout *)

(* vsnprintf into buf[BUF], then write(fd, buf, n) with n the untruncated
   length *)
Definition writef (fd : Z) (formatted : string) : event :=
  let n := strlen formatted in
  if n <? BUF then Write fd formatted
  else WriteOverrun fd (snprintf BUF formatted +:+ String NUL "") (n - BUF).

(* index of the first element satisfying p: the `for (i = 0; ...) if (p) return i;` loops *)
Fixpoint find_index {A} (p : A -> bool) (l : list A) : option nat :=
  match l with
  | [] => None
  | x :: l' => if p x then Some 0%nat else option_map S (find_index p l')
  end.

Definition find_free_slot (st : server) : option nat :=
  find_index (fun c => negb (connected c)) (clients st).

Definition find_client_by_name (name : string) (st : server) : option nat :=
  find_index (fun c => connected c && String.eqb (username c) name) (clients st).

(* what accept_and_spawn obtains from the system *)
Record spawn_env := mk_spawn {
  ns : Z;                          (* accept() *)
  pipes : option (Z * Z * Z * Z);  (* p2c[0], p2c[1], c2p[0], c2p[1]; None when pipe() fails *)
  child : option Z                 (* fork() in the parent; None when it fails *)
}.

(** ** Stand-ins for the environment, used by the examples *)

(* a filter that copies its input to its output, as ./filter does for a
   line without any listed word *)
Definition echo (input : string) : string := input.

(* a log directory in which every file can be opened *)
Definition writable (path : string) : bool := true.

(* a control message as the worker sends it: the text and a newline *)
Definition line (text : string) : string := text +:+ String LF "".

(* the k-th accepted connection: socket 100+k, pipes 10k+3 .. 10k+6 *)
Definition conn (k : Z) : spawn_env :=
  mk_spawn (100 + k) (Some (10 * k + 3, 10 * k + 4, 10 * k + 5, 10 * k + 6))
           (Some (1000 + k)).

(** ** The broker's operations *)

Section Broker.

(** The profanity filter is the external program ./filter: given the bytes
    put on its standard input, [filter_program] is what the broker's
    single read() of its standard output returns (empty when the pipes,
    the fork or the exec fail, or when the filter prints nothing). *)
Variable filter_program : string -> string.

(** Whether open(path, O_WRONLY | O_CREAT | O_APPEND) succeeds. *)
Variable open_append : string -> bool.

Definition run_filter_and_get_output (input : string) : string :=
  let out := strn (BUF - 1) (filter_program (input +:+ String LF "")) in
  if nonempty out then trim_newline (c_string out) else input.

Definition add_room_if_missing (r : string) (st : server) : server :=
  if negb (nonempty r) then st
  else if existsb (fun x => String.eqb x r) (rooms st) then st
  else if (room_count st <? MAX_ROOMS)%nat
       then set_rooms (rooms st ++ [strn 63 r]) st
       else st.

Definition log_path (room : string) : string :=
  snprintf 256 (LOGDIR +:+ "/" +:+ room +:+ ".log").

(* A file is identified by the path string passed to open(): two strings
   that the file system resolves to one file ("logs/x.log" and
   "logs/./x.log") are two keys here, so what is read back from a file is
   only related to what was written under the same path string. *)
Definition append_room_log (room msg : string) (st : server) : server :=
  let path := log_path room in
  if open_append path
  then set_files (<[path := default "" (files st !! path) +:+ msg +:+ String LF ""]> (files st)) st
  else st.

Definition broadcast_line (room from msg : string) : string :=
  snprintf BUF ("[" +:+ room +:+ "] " +:+ from +:+ ": " +:+ run_filter_and_get_output msg).

(* the clients a broadcast to room [r] is written to, in slot order *)
Definition audience (r : string) (st : server) : list client_t :=
  if String.eqb r "global"
  then List.filter (fun c => connected c) (clients st)
  else List.filter (fun c => connected c && String.eqb (room c) r) (clients st).

Definition broadcast_to_room (r from msg : string) (st : server)
  : server * list event :=
  let st1 := add_room_if_missing r st in
  let text := broadcast_line r from msg in
  let st2 := append_room_log r text st1 in
  (st2, map (fun c => writef (to_child_fd c) (text +:+ String LF "")) (audience r st2)).

Definition pm_line (from msg : string) : string :=
  "[PM] " +:+ from +:+ " -> you: " +:+ run_filter_and_get_output msg +:+ String LF "".

(* the events of a successful delivery; None when it returns false *)
Definition send_private (from to msg : string) (st : server) : option (list event) :=
  match find_client_by_name to st with
  | Some k => Some [writef (to_child_fd (slot st k)) (pm_line from msg)]
  | None => None
  end.

(** *** handle_parent_messages: one control message from slot [i] *)

Definition reply (st : server) (i : nat) (formatted : string) : event :=
  writef (to_child_fd (slot st i)) formatted.

Definition hang_up (i : nat) (st : server) : server * list event :=
  (update_slot i (with_connected false) st,
   [Close (from_child_fd (slot st i)); Close (to_child_fd (slot st i))]).

(* slots paired with their index, for loops whose body uses the index *)
Fixpoint indexed {A} (k : nat) (l : list A) : list (nat * A) :=
  match l with
  | [] => []
  | x :: l' => (k, x) :: indexed (S k) l'
  end.

Definition do_JOIN (st : server) (i : nat) (uname rname : string)
  : server * list event :=
  let st1 := update_slot i (with_name_room (strn 63 uname) (strn 63 rname)) st in
  let st2 := add_room_if_missing rname st1 in
  let welcome := reply st2 i ("Welcome " +:+ uname +:+ " to " +:+ rname +:+ String LF "") in
  let '(st3, out) := broadcast_to_room rname "server" "a new user has joined" st2 in
  (st3, welcome :: out).

Definition do_MSG (st : server) (i : nat) (uname rname message : string)
  : server * list event :=
  if muted (slot st i)
  then (st, [reply st i ("You are muted." +:+ String LF "")])
  else broadcast_to_room rname uname message st.

Definition do_PM (st : server) (i : nat) (from to message : string)
  : server * list event :=
  match send_private from to message st with
  | None => (st, [reply st i ("User " +:+ to +:+ " not found" +:+ String LF "")])
  | Some out => (st, out ++ [reply st i ("PM sent to " +:+ to +:+ String LF "")])
  end.

Definition appeal_line (from message : string) : string :=
  "[APPEAL] " +:+ from +:+ ": " +:+ message +:+ String LF "".

Definition or_else (s alt : string) : string := if nonempty s then s else alt.

Definition appeal_printf (from : string) (k : nat) (c : client_t) : string :=
  "Forwarded APPEAL from '" +:+ from +:+ "' to admin slot " +:+ dec k
    +:+ " (user='" +:+ or_else (username c) "(unnamed)"
    +:+ "', room='" +:+ or_else (room c) "(none)" +:+ "')" +:+ String LF "".

(* the connected admins, with their slot numbers *)
Definition admins_online (st : server) : list (nat * client_t) :=
  List.filter (fun kc => connected (snd kc) && is_admin (snd kc))
              (indexed 0 (clients st)).

Definition already_appealed (st : server) (sender_idx : option nat) (message : string) : bool :=
  match sender_idx with
  | Some s => nonempty (appeal_of st s) && String.eqb (appeal_of st s) message
  | None => false
  end.

Definition do_APPEAL (st : server) (i : nat) (from message : string)
  : server * list event :=
  let sender_idx := find_client_by_name from st in
  if already_appealed st sender_idx message
  then (st, [reply st i ("Your appeal was already sent to admins recently." +:+ String LF "")])
  else
    let st1 := match sender_idx with
               | Some s => set_appeals (<[s := strn 511 message]> (last_appeal_msg st)) st
               | None => st
               end in
    let admins := admins_online st1 in
    let forwards :=
      flat_map (fun kc => [writef (to_child_fd (snd kc)) (appeal_line from message);
                           Printf (appeal_printf from (fst kc) (snd kc))]) admins in
    let sent := length admins in
    (st1, forwards ++
          [if (sent =? 0)%nat
           then reply st1 i ("No admins currently online. Try again later." +:+ String LF "")
           else reply st1 i ("Your appeal was sent to " +:+ dec sent +:+ " admin(s)." +:+ String LF "")]).

(* while ((rn = read(fd, rbuf, 1024)) > 0) write(out, rbuf, rn): the chunks
   read, one per iteration; [fuel] bounds the number of iterations *)
Fixpoint read_loop (fuel : nat) (content : string) : list string :=
  match fuel with
  | O => []
  | S fuel' =>
      if nonempty content
      then strn 1024 content :: read_loop fuel' (strdrop 1024 content)
      else []
  end.

(* every iteration consumes a byte, so the length of the file is enough fuel *)
Definition read_file (content : string) : list string :=
  read_loop (String.length content) content.

Definition do_HISTORY (st : server) (i : nat) (rname : string)
  : server * list event :=
  match files st !! log_path rname with
  | None => (st, [reply st i ("No history for " +:+ rname +:+ String LF "")])
  | Some content => (st, map (Write (to_child_fd (slot st i))) (read_file content))
  end.

Definition do_ROOMS (st : server) (i : nat) : server * list event :=
  if (room_count st =? 0)%nat
  then (st, [reply st i ("No rooms" +:+ String LF "")])
  else (st, map (fun r => reply st i (r +:+ String LF "")) (rooms st)).

(* The events are the calls the branch issues.  The worker exits right
   after sending QUIT, so the write of "Goodbye" may find the pipe without
   a reader; what the kernel then does to the broker (SIGPIPE is not
   handled) is outside the model. *)
Definition do_QUIT (st : server) (i : nat) : server * list event :=
  let '(st1, closes) := hang_up i st in
  (st1, reply st i ("Goodbye" +:+ String LF "") :: closes).

(** *** The ADMIN command *)

Record admin_request := mk_admin {
  adm_username : string;
  adm_password : string;
  adm_word : option string;    (* action_word *)
  adm_args : option string;    (* action_args *)
  adm_save : string            (* the strtok_r save pointer after the three tokens *)
}.

(* None is the "Admin malformed" exit *)
Definition parse_admin (save : string) : option admin_request :=
  let '(uname, s1) := strtok_r is_pipe save in
  let '(third, s2) := strtok_r is_pipe s1 in
  let '(action, s3) := strtok_r is_pipe s2 in
  match uname, third with
  | Some uname, Some third =>
      let '(password, action_with_args) :=
        match action with
        | None => match split_space third with
                  | Some (p, a) => (p, Some a)
                  | None => (third, None)
                  end
        | Some a => (third, Some a)
        end in
      let '(word, args) :=
        match action_with_args with
        | Some awa => match split_space awa with
                      | Some (w, a) => (Some w, Some a)
                      | None => (Some awa, None)
                      end
        | None => (None, None)
        end in
      Some (mk_admin uname password word args s3)
  | _, _ => None
  end.

(* action_args ? action_args : strtok_r(NULL, "|", &save) *)
Definition admin_operand (rq : admin_request) : option string :=
  match adm_args rq with
  | Some a => Some a
  | None => fst (strtok_r is_pipe (adm_save rq))
  end.

Definition users_line (c : client_t) : string :=
  " - " +:+ username c +:+ " (room: " +:+ or_else (room c) "none" +:+ ")" +:+ String LF "".

Definition admin_action (st : server) (i : nat) (word : string) (rq : admin_request)
  : server * list event :=
  if String.eqb word "KICK" then
    match admin_operand rq with
    | None => (st, [reply st i ("KICK requires username" +:+ String LF "")])
    | Some target =>
        match find_client_by_name target st with
        | Some idx =>
            (update_slot idx (with_connected false) st,
             [reply st idx ("You have been kicked by admin" +:+ String LF "");
              Close (from_child_fd (slot st idx)); Close (to_child_fd (slot st idx))])
        | None => (st, [reply st i ("User not found" +:+ String LF "")])
        end
    end
  else if String.eqb word "MUTE" then
    match admin_operand rq with
    | None => (st, [reply st i ("MUTE requires username" +:+ String LF "")])
    | Some target =>
        match find_client_by_name target st with
        | Some idx =>
            (update_slot idx (with_muted true) st,
             [reply st idx ("You are muted by admin" +:+ String LF "")])
        | None => (st, [reply st i ("User not found" +:+ String LF "")])
        end
    end
  else if String.eqb word "UNMUTE" then
    match admin_operand rq with
    | None => (st, [reply st i ("UNMUTE requires username" +:+ String LF "")])
    | Some target =>
        match find_client_by_name target st with
        | Some idx =>
            (update_slot idx (with_muted false) st,
             [reply st idx ("You are unmuted by admin" +:+ String LF "")])
        | None => (st, [reply st i ("User not found" +:+ String LF "")])
        end
    end
  else if String.eqb word "BROADCAST" then
    broadcast_to_room "global" "admin" (default "" (admin_operand rq)) st
  else if String.eqb word "ROOMS" then
    if (room_count st =? 0)%nat
    then (st, [reply st i ("No rooms" +:+ String LF "")])
    else (st, reply st i ("Rooms (" +:+ dec (room_count st) +:+ "):" +:+ String LF "")
              :: map (fun r => reply st i (" - " +:+ r +:+ String LF "")) (rooms st))
  else if String.eqb word "USERS" then
    let active := length (List.filter (fun c => connected c) (clients st)) in
    (st, reply st i ("Active users: " +:+ dec active +:+ String LF "")
         :: map (fun c => reply st i (users_line c))
                (List.filter (fun c => connected c && nonempty (username c)) (clients st)))
  else (st, [reply st i ("Unknown admin action: " +:+ word +:+ String LF "")]).

Definition run_admin (st : server) (i : nat) (rq : admin_request)
  : server * list event :=
  if negb (String.eqb (adm_password rq) ADMIN_PASSWORD)
  then (st, [reply st i ("Admin auth failed" +:+ String LF "")])
  else
    let st1 := update_slot i (with_admin true) st in
    match adm_word rq with
    | None => (st1, [reply st1 i ("Admin: no action" +:+ String LF "")])
    | Some word => admin_action st1 i word rq
    end.

Definition do_ADMIN (st : server) (i : nat) (save : string) : server * list event :=
  match parse_admin save with
  | None => (st, [reply st i ("Admin malformed" +:+ String LF "")])
  | Some rq => run_admin st i rq
  end.

(** *** Dispatch *)

(* the body of the loop of handle_parent_messages for a connected, ready
   slot [i]; [data] is what read() returned, empty for n <= 0 *)
Definition serve_slot (st : server) (i : nat) (data : string) : server * list event :=
  if negb (nonempty data) then hang_up i st
  else
    let buf := trim_newline (c_string data) in
    match strtok_r is_pipe buf with
    | (None, _) => (st, [])
    | (Some cmd, save) =>
        if String.eqb cmd "JOIN" then
          let '(uname, s1) := strtok_r is_pipe save in
          let '(rname, _) := strtok_r is_pipe s1 in
          match uname, rname with
          | Some uname, Some rname => do_JOIN st i uname rname
          | _, _ => (st, [])
          end
        else if String.eqb cmd "MSG" then
          let '(uname, s1) := strtok_r is_pipe save in
          let '(rname, s2) := strtok_r is_pipe s1 in
          let '(message, _) := strtok_r is_pipe s2 in
          match uname, rname, message with
          | Some uname, Some rname, Some message => do_MSG st i uname rname message
          | _, _, _ => (st, [])
          end
        else if String.eqb cmd "PM" then
          let '(from, s1) := strtok_r is_pipe save in
          let '(to, s2) := strtok_r is_pipe s1 in
          let '(message, _) := strtok_r is_pipe s2 in
          match from, to, message with
          | Some from, Some to, Some message => do_PM st i from to message
          | _, _, _ => (st, [])
          end
        else if String.eqb cmd "APPEAL" then
          let '(from, s1) := strtok_r is_pipe save in
          let '(message, _) := strtok_r is_lf s1 in
          match from, message with
          | Some from, Some message => do_APPEAL st i from message
          | _, _ => (st, [])
          end
        else if String.eqb cmd "HISTORY" then
          match strtok_r is_pipe save with
          | (Some rname, _) => do_HISTORY st i rname
          | (None, _) => (st, [])
          end
        else if String.eqb cmd "ROOMS" then do_ROOMS st i
        else if String.eqb cmd "QUIT" then do_QUIT st i
        else if String.eqb cmd "ADMIN" then do_ADMIN st i save
        else (st, [reply st i ("Unknown command: " +:+ cmd +:+ String LF "")])
    end.

(* the loop over the slots; [ready i] is the data read from slot i when
   its descriptor is set in rfds *)
Fixpoint serve_all (ready : nat -> option string) (slots : list nat) (st : server)
  : server * list event :=
  match slots with
  | [] => (st, [])
  | i :: rest =>
      if connected (slot st i) then
        match ready i with
        | Some data =>
            let '(st1, out1) := serve_slot st i data in
            let '(st2, out2) := serve_all ready rest st1 in
            (st2, out1 ++ out2)
        | None => serve_all ready rest st
        end
      else serve_all ready rest st
  end.

Definition handle_parent_messages (st : server) (ready : nat -> option string)
  : server * list event :=
  serve_all ready (seq 0 MAX_CLIENTS) st.

(** *** accept_and_spawn, parent side *)

Definition accept_and_spawn (st : server) (e : spawn_env) : server * list event :=
  if ns e <? 0 then (st, [])
  else
    match find_free_slot st with
    | None => (st, [Write (ns e) ("Server full" +:+ String LF ""); Close (ns e)])
    | Some free =>
        match pipes e, child e with
        | Some (p2c0, p2c1, c2p0, c2p1), Some cpid =>
            (update_slot free
               (fun c => mk_client cpid p2c1 c2p0 "" "" true false (is_admin c)) st,
             [Close p2c0; Close c2p1;
              writef p2c1 ("Welcome to MultiChat! Use /nick, /join, /pm, /rooms" +:+ String LF "");
              Close (ns e)])
        | _, _ => (st, [Close (ns e)])
        end
    end.

(** *** main: the state before the first select() *)

Definition boot (disk : gmap string string) : server :=
  mk_server (replicate MAX_CLIENTS zero_client) [] (replicate MAX_CLIENTS "") disk.

Definition init_server (disk : gmap string string) : server :=
  add_room_if_missing "lobby" (boot disk).

(* the states of the main loop *)
Inductive reachable (disk : gmap string string) : server -> Prop :=
| reach_init : reachable disk (init_server disk)
| reach_accept st e :
    reachable disk st -> reachable disk (fst (accept_and_spawn st e))
| reach_serve st i data :
    reachable disk st -> (i < MAX_CLIENTS)%nat -> connected (slot st i) = true ->
    reachable disk (fst (serve_slot st i data)).

(** *** Control messages as parsed commands

    [decode] is the tokenisation that [serve_slot] performs, kept apart from
    the actions; [serve_slot_decode] below shows that serving a slot is
    executing the decoded command. *)

Inductive command :=
| Hangup                                   (* read() returned n <= 0 *)
| Dropped                                  (* a missing field: continue *)
| Join (uname rname : string)
| Msg (uname rname message : string)
| Pm (from to message : string)
| Appeal (from message : string)
| History (rname : string)
| Rooms
| Quit
| Admin (save : string)
| Unknown (cmd : string).

Definition decode (data : string) : command :=
  if negb (nonempty data) then Hangup
  else
    match strtok_r is_pipe (trim_newline (c_string data)) with
    | (None, _) => Dropped
    | (Some cmd, save) =>
        if String.eqb cmd "JOIN" then
          let '(uname, s1) := strtok_r is_pipe save in
          let '(rname, _) := strtok_r is_pipe s1 in
          match uname, rname with
          | Some uname, Some rname => Join uname rname
          | _, _ => Dropped
          end
        else if String.eqb cmd "MSG" then
          let '(uname, s1) := strtok_r is_pipe save in
          let '(rname, s2) := strtok_r is_pipe s1 in
          let '(message, _) := strtok_r is_pipe s2 in
          match uname, rname, message with
          | Some uname, Some rname, Some message => Msg uname rname message
          | _, _, _ => Dropped
          end
        else if String.eqb cmd "PM" then
          let '(from, s1) := strtok_r is_pipe save in
          let '(to, s2) := strtok_r is_pipe s1 in
          let '(message, _) := strtok_r is_pipe s2 in
          match from, to, message with
          | Some from, Some to, Some message => Pm from to message
          | _, _, _ => Dropped
          end
        else if String.eqb cmd "APPEAL" then
          let '(from, s1) := strtok_r is_pipe save in
          let '(message, _) := strtok_r is_lf s1 in
          match from, message with
          | Some from, Some message => Appeal from message
          | _, _ => Dropped
          end
        else if String.eqb cmd "HISTORY" then
          match strtok_r is_pipe save with
          | (Some rname, _) => History rname
          | (None, _) => Dropped
          end
        else if String.eqb cmd "ROOMS" then Rooms
        else if String.eqb cmd "QUIT" then Quit
        else if String.eqb cmd "ADMIN" then Admin save
        else Unknown cmd
    end.

Definition execute (st : server) (i : nat) (c : command) : server * list event :=
  match c with
  | Hangup => hang_up i st
  | Dropped => (st, [])
  | Join uname rname => do_JOIN st i uname rname
  | Msg uname rname message => do_MSG st i uname rname message
  | Pm from to message => do_PM st i from to message
  | Appeal from message => do_APPEAL st i from message
  | History rname => do_HISTORY st i rname
  | Rooms => do_ROOMS st i
  | Quit => do_QUIT st i
  | Admin save => do_ADMIN st i save
  | Unknown cmd => (st, [reply st i ("Unknown command: " +:+ cmd +:+ String LF "")])
  end.

(* the table sizes fixed by the static arrays *)
Definition well_formed (st : server) : Prop :=
  length (clients st) = MAX_CLIENTS /\ length (last_appeal_msg st) = MAX_CLIENTS.

Definition connected_count (st : server) : nat :=
  length (List.filter (fun c => connected c) (clients st)).

(* slot k is the first connected slot whose display name is [name] *)
Definition first_named (name : string) (st : server) (k : nat) : Prop :=
  (exists c, clients st !! k = Some c /\ connected c = true /\ username c = name) /\
  (forall j c, (j < k)%nat -> clients st !! j = Some c ->
               connected c = true -> username c <> name).

Definition nobody_named (name : string) (st : server) : Prop :=
  forall j c, clients st !! j = Some c -> connected c = true -> username c <> name.

(* the room table of [st'] is that of [st] with names added at the end,
   none when the table was already full *)
Definition rooms_ext (st st' : server) : Prop :=
  exists extra, rooms st' = rooms st ++ extra /\
                ((MAX_ROOMS <= room_count st)%nat -> extra = []).

(* clients[i] after the two strncpy of the JOIN branch *)
Definition joined (i : nat) (uname rname : string) (st : server) : server :=
  update_slot i (with_name_room (strn 63 uname) (strn 63 rname)) st.

(** *** Room logs *)

(* a run of append_room_log calls, oldest first *)
Definition append_entries (entries : list (string * string)) (st : server) : server :=
  fold_left (fun s e => append_room_log (fst e) (snd e) s) entries st.

(* the messages of [entries] that went to the log file of room [r] *)
Definition logged_in (r : string) (entries : list (string * string)) : list string :=
  map snd (List.filter (fun e => String.eqb (log_path (fst e)) (log_path r)) entries).

(* the bytes written for a list of messages: each followed by a newline *)
Fixpoint log_text (msgs : list string) : string :=
  match msgs with
  | [] => ""
  | m :: rest => m +:+ String LF "" +:+ log_text rest
  end.

(* the byte stream made by successive write() calls *)
Fixpoint join (chunks : list string) : string :=
  match chunks with
  | [] => ""
  | c :: rest => c +:+ join rest
  end.

(** *** Appeals *)

(* what the forwarding loop of the APPEAL branch emits for the given admins *)
Definition appeal_forwards (from message : string) (admins : list (nat * client_t))
  : list event :=
  flat_map (fun kc => [writef (to_child_fd (snd kc)) (appeal_line from message);
                       Printf (appeal_printf from (fst kc) (snd kc))]) admins.

(* the reply that closes a forwarded appeal *)
Definition appeal_receipt (st : server) (i : nat) (sent : nat) : event :=
  if (sent =? 0)%nat
  then reply st i ("No admins currently online. Try again later." +:+ String LF "")
  else reply st i ("Your appeal was sent to " +:+ dec sent +:+ " admin(s)." +:+ String LF "").

Definition appeal_refusal (st : server) (i : nat) : event :=
  reply st i ("Your appeal was already sent to admins recently." +:+ String LF "").

(** *** Authenticated admin requests *)

(* [data] is an ADMIN control message that carries the right password, the
   action word [word] and the operand [operand] *)
Definition admin_command (data word operand : string) : Prop :=
  exists save rq,
    decode data = Admin save /\ parse_admin save = Some rq /\
    adm_password rq = ADMIN_PASSWORD /\ adm_word rq = Some word /\
    admin_operand rq = Some operand.

(** *** The two wire forms of the ADMIN payload *)

Fixpoint free_of (bad : ascii -> bool) (s : string) : bool :=
  match s with
  | EmptyString => true
  | String c s' => negb (bad c) && free_of bad s'
  end.

(* characters that end the line or the C string *)
Definition ends_line (c : ascii) : bool := is_crlf c || is_nul c.

(* a non-empty field without pipe or line end; it may contain spaces *)
Definition is_field (s : string) : Prop :=
  nonempty s = true /\ free_of (fun c => is_pipe c || ends_line c) s = true.

(* a field without spaces *)
Definition is_word (s : string) : Prop :=
  is_field s /\ free_of is_space s = true.

Definition pipe_form (name password action args : string) : string :=
  name +:+ "|" +:+ password +:+ "|" +:+ action +:+ "|" +:+ args.

Definition hybrid_form (name password action args : string) : string :=
  name +:+ "|" +:+ password +:+ " " +:+ action +:+ " " +:+ args.

(* the same two forms for an action without arguments *)
Definition pipe_form0 (name password action : string) : string :=
  name +:+ "|" +:+ password +:+ "|" +:+ action.

Definition hybrid_form0 (name password action : string) : string :=
  name +:+ "|" +:+ password +:+ " " +:+ action.

(* the control message the worker sends for a payload *)
Definition admin_wire (payload : string) : string :=
  "ADMIN|" +:+ payload +:+ String LF "".

(* the tuple the action dispatch works with *)
Definition admin_tuple (rq : admin_request)
  : string * string * option string * option string :=
  (adm_username rq, adm_password rq, adm_word rq, admin_operand rq).

(** *** Runs of the main loop, for the examples *)

(* serve the given (slot, data) reads in order *)
Definition run (st : server) (steps : list (nat * string)) : server :=
  fold_left (fun s step => fst (serve_slot s (fst step) (snd step))) steps st.

(* every read of the run comes from a connected slot of the table *)
Fixpoint valid_run (st : server) (steps : list (nat * string)) : bool :=
  match steps with
  | [] => true
  | (i, data) :: rest =>
      (i <? MAX_CLIENTS)%nat && connected (slot st i)
      && valid_run (fst (serve_slot st i data)) rest
  end.

(* the broker after main's initialisation and [n] accepted connections *)
Definition accepted (n : nat) (disk : gmap string string) : server :=
  fold_left (fun s k => fst (accept_and_spawn s (conn (Z.of_nat k))))
            (seq 0 n) (init_server disk).

(* two clients; the second authenticates as admin without an action *)
Definition admin_and_guest : server :=
  run (accepted 2 ∅) [(1%nat, line "ADMIN|unnamed|admin123")].

(* two clients named bob in the lobby, and a third client *)
Definition two_bobs : server :=
  run (accepted 3 ∅) [(0%nat, line "JOIN|bob|lobby"); (1%nat, line "JOIN|bob|lobby")].

(* one client that has joined rooms r1 .. r127: with "lobby" the table is full *)
Definition many_rooms : list (nat * string) :=
  map (fun k => (0%nat, line ("JOIN|bob|r" +:+ dec k))) (seq 1 127).

Definition full_rooms : server := run (accepted 1 ∅) many_rooms.

(** ** The session worker: the child side of accept_and_spawn *)

(* the two local buffers of the child: char username[64], char room[64] *)
Record worker := mk_worker {
  w_username : string;
  w_room : string
}.

(* char username[64] = "unnamed"; char room[64] = "lobby"; *)
Definition worker_start : worker := mk_worker "unnamed" "lobby".

Inductive worker_out :=
| ToBroker (data : string)    (* write(writefd, data, strlen(data)) *)
| ToSocket (data : string).   (* write(sock, data, n) *)

(* strncmp(buf, p, strlen(p)) == 0 *)
Definition starts_with (p buf : string) : bool := String.prefix p buf.

(* the chat text sent for a line that is not a command: at most
   BUF - 128 - 1 bytes of it *)
Definition msg_trunc (buf : string) : string :=
  if BUF - 128 <=? strlen buf then strn (BUF - 128 - 1) buf else buf.

(* the body of `if (FD_ISSET(sock, &st))`: [data] is what read(sock) returned,
   empty for n <= 0; the last component is false when the loop is left *)
Definition worker_socket (w : worker) (data : string) : worker * list worker_out * bool :=
  if negb (nonempty data) then (w, [ToBroker ("QUIT|" +:+ String LF "")], false)
  else
    let buf := trim_newline (c_string data) in
    if starts_with "/" buf then
      if starts_with "/nick " buf then
        let w' := mk_worker (strn 63 (strdrop 6 buf)) (w_room w) in
        (w', [ToBroker (snprintf BUF ("JOIN|" +:+ w_username w' +:+ "|" +:+ w_room w'
                                        +:+ String LF ""))], true)
      else if starts_with "/join " buf then
        let w' := mk_worker (w_username w) (strn 63 (strdrop 6 buf)) in
        (w', [ToBroker (snprintf BUF ("JOIN|" +:+ w_username w' +:+ "|" +:+ w_room w'
                                        +:+ String LF ""))], true)
      else if String.eqb buf "/rooms" then
        (w, [ToBroker ("ROOMS|" +:+ String LF "")], true)
      else if String.eqb buf "/history" then
        (w, [ToBroker (snprintf BUF ("HISTORY|" +:+ w_room w +:+ String LF ""))], true)
      else if starts_with "/pm " buf then
        match split_space (strdrop 4 buf) with
        | None =>
            (* write(sock, "Usage: /pm <user> <msg>\n", 25): the 24 characters
               and the terminating NUL *)
            (w, [ToSocket ("Usage: /pm <user> <msg>" +:+ String LF (String NUL ""))], true)
        | Some (to, msg) =>
            (w, [ToBroker (snprintf BUF ("PM|" +:+ w_username w +:+ "|" +:+ to +:+ "|"
                                           +:+ msg +:+ String LF ""))], true)
        end
      else if starts_with "/appeal " buf then
        (w, [ToBroker (snprintf BUF ("APPEAL|" +:+ w_username w +:+ "|" +:+ strdrop 8 buf
                                       +:+ String LF ""))], true)
      else if starts_with "/admin " buf then
        (w, [ToBroker (snprintf BUF ("ADMIN|" +:+ w_username w +:+ "|" +:+ strdrop 7 buf
                                       +:+ String LF ""))], true)
      else if String.eqb buf "/quit" then
        (w, [ToBroker ("QUIT|" +:+ String LF "")], false)
      else (w, [ToSocket ("Unknown command" +:+ String LF "")], true)
    else
      (w, [ToBroker (snprintf BUF ("MSG|" +:+ w_username w +:+ "|" +:+ w_room w +:+ "|"
                                     +:+ msg_trunc buf +:+ String LF ""))], true).

(* one iteration of the child's loop: first the pipe from the broker, whose
   data is relayed verbatim, then the socket; None when the descriptor is
   not ready *)
Definition worker_iteration (w : worker) (pipe_in sock_in : option string)
  : worker * list worker_out * bool :=
  let serve_socket :=
    match sock_in with
    | Some data => worker_socket w data
    | None => (w, [], true)
    end in
  match pipe_in with
  | None => serve_socket
  | Some relayed =>
      if negb (nonempty relayed) then (w, [], false)
      else let '(w', out, go) := serve_socket in (w', ToSocket relayed :: out, go)
  end.

(* the control messages among the outputs *)
Definition to_broker (out : list worker_out) : list string :=
  flat_map (fun o => match o with ToBroker d => [d] | ToSocket _ => [] end) out.

(* the worker after the given socket reads *)
Definition worker_after (w : worker) (reads : list string) : worker :=
  fold_left (fun v data => fst (fst (worker_socket v data))) reads w.

(** ** The plain client: the keyboard side of client.c *)

Inductive client_step :=
| ClientOverrun                              (* strcat writes past inbuf[BUF] *)
| ClientSend (bytes : string) (stop : bool). (* write(sock, ...); stop: break *)

(* fgets, trim_newline, strcat(inbuf, "\n"), write, and the test for /quit *)
Definition client_line (typed : string) : client_step :=
  let text := trim_newline (c_string typed) in
  if BUF - 1 <=? strlen text then ClientOverrun
  else ClientSend (text +:+ String LF "") (starts_with "/quit" (text +:+ String LF "")).

(** ** The admin client: the command line of admin_client.c *)

(* isspace() in the C locale *)
Definition isspace (c : ascii) : bool :=
  is_space c || Ascii.eqb c "009" || Ascii.eqb c LF || Ascii.eqb c "011"
  || Ascii.eqb c "012" || Ascii.eqb c CR.

(* tolower() in the C locale *)
Definition tolower (c : ascii) : ascii :=
  let n := N_of_ascii c in
  if ((65 <=? n) && (n <=? 90))%N then ascii_of_N (n + 32) else c.

Fixpoint lowercase (s : string) : string :=
  match s with
  | EmptyString => EmptyString
  | String c s' => String (tolower c) (lowercase s')
  end.

(* strcasecmp(a, b) == 0 *)
Definition strcasecmp_eq (a b : string) : bool :=
  String.eqb (lowercase a) (lowercase b).

Inductive admin_step :=
| AdminIgnored                  (* an empty line: the prompt again *)
| AdminExit                     (* quit or exit: leave the loop *)
| AdminTooLong                  (* "Command too long" on stderr, nothing sent *)
| AdminSend (bytes : string).   (* write(sock, sendbuf, strlen(sendbuf)) *)

(* char action[256], char args[BUF] after the split at the first space *)
Definition admin_split (cmdline : string) : string * string :=
  match split_space cmdline with
  | Some (act, rest) => (strn 255 act, strn (BUF - 1) (skip_delims is_space rest))
  | None => (strn 255 cmdline, "")
  end.

(* the handling of one line read by fgets; [pwd] is the password read at
   start-up *)
Definition admin_line (pwd typed : string) : admin_step :=
  let cmdline := skip_delims isspace (trim_newline (c_string typed)) in
  if negb (nonempty cmdline) then AdminIgnored
  else if strcasecmp_eq cmdline "quit" || strcasecmp_eq cmdline "exit" then AdminExit
  else
    let '(act, args) := admin_split cmdline in
    let formatted :=
      if nonempty args
      then "/admin " +:+ pwd +:+ "|" +:+ act +:+ "|" +:+ args +:+ String LF ""
      else "/admin " +:+ pwd +:+ "|" +:+ act +:+ String LF "" in
    if BUF <=? strlen formatted then AdminTooLong else AdminSend formatted.

(** ** Bounds of the fixed-size tables *)

Definition name_fits (s : string) : Prop := strlen s <= 63.

(* every string of the state fits the array that holds it *)
Definition within_bounds (st : server) : Prop :=
  (room_count st <= MAX_ROOMS)%nat /\
  Forall (fun r => nonempty r = true /\ name_fits r) (rooms st) /\
  Forall (fun c => name_fits (username c) /\ name_fits (room c)) (clients st) /\
  Forall (fun a => strlen a <= 511) (last_appeal_msg st).

(* every file of [f] is still in [f'], with its old contents first *)
Definition files_grow (f f' : gmap string string) : Prop :=
  forall path old, f !! path = Some old ->
    exists more, f' !! path = Some (old +:+ more).

(* a room name of 64 bytes *)
Definition long_name : string :=
  "a-room-name-that-is-longer-than-the-sixty-three-bytes-of-the-ary".

(* a pass in which slots 0 and 2 have data waiting *)
Definition two_ready (d0 d2 : string) (k : nat) : option string :=
  match k with
  | 0%nat => Some d0
  | 2%nat => Some d2
  | _ => None
  end.

(* three clients, the third one named carol *)
Definition carol_joined : server :=
  run (accepted 3 ∅) [(2%nat, line "JOIN|carol|lobby")].

(* the admin of [admin_and_guest] has disconnected: its pipe reports end of
   file *)
Definition admin_left : server :=
  run admin_and_guest [(1%nat, "")].

(* the first bob of [two_bobs] has been muted by the third client *)
Definition bob_muted : server :=
  run two_bobs [(2%nat, line "ADMIN|unnamed|admin123 MUTE bob")].

(* a log directory that already holds a lobby log *)
Definition old_disk : gmap string string :=
  {[ "logs/lobby.log" := line "[lobby] ann: yesterday" ]}.

Definition second_day : server :=
  run (accepted 1 old_disk) [(0%nat, line "JOIN|ann|lobby")].

(** ** Properties *)

(** *** Strings *)

Lemma strn_all n s : strlen s <= n -> strn n s = s.
Proof.
  revert n. induction s as [|c s IH]; intros n H; simpl; [done|].
  unfold strlen in H. simpl in H.
  destruct (0 <? n) eqn:E; [|apply Z.ltb_ge in E; lia].
  f_equal. apply IH. unfold strlen. lia.
Qed.

Lemma strn_strdrop n s : strn n s +:+ strdrop n s = s.
Proof.
  revert n. induction s as [|c s IH]; intros n; simpl; [done|].
  destruct (0 <? n); [|done]. change (String c (strn (n - 1) s +:+ strdrop (n - 1) s) = String c s).
  f_equal. apply IH.
Qed.

Lemma strdrop_length n s :
  0 < n -> nonempty s = true ->
  (String.length (strdrop n s) < String.length s)%nat.
Proof.
  revert n. induction s as [|c s IH]; intros n Hn Hs; [done|].
  simpl. destruct (0 <? n) eqn:E; [|apply Z.ltb_ge in E; lia].
  destruct s as [|c' s'].
  - simpl. lia.
  - destruct (Z.eq_dec n 1) as [->|Hne].
    + simpl. lia.
    + specialize (IH (n - 1) ltac:(lia) eq_refl). lia.
Qed.

Lemma strlen_app a b : strlen (a +:+ b) = strlen a + strlen b.
Proof.
  unfold strlen. induction a as [|c a IH]; [done|].
  change (String c a +:+ b) with (String c (a +:+ b)).
  cbn [String.length]. lia.
Qed.

Lemma writef_short fd s : strlen s < BUF -> writef fd s = Write fd s.
Proof. intros H. unfold writef. by apply Z.ltb_lt in H as ->. Qed.

(** *** The search loops *)

Lemma find_index_Some {A} (p : A -> bool) (l : list A) (k : nat) :
  find_index p l = Some k <->
  (exists x, l !! k = Some x /\ p x = true) /\
  (forall j y, (j < k)%nat -> l !! j = Some y -> p y = false).
Proof.
  revert k. induction l as [|x l IH]; intros k; simpl.
  - split; [done|]. intros [[y [Hy _]] _]. done.
  - destruct (p x) eqn:Hp.
    + split.
      * intros [= <-]. split; [by exists x|]. intros j y Hj. lia.
      * intros [[y [Hy Hpy]] Hfirst]. destruct k as [|k]; [done|].
        specialize (Hfirst 0%nat x ltac:(lia) eq_refl). congruence.
    + destruct (find_index p l) as [m|]; simpl.
      * split.
        -- intros [= <-]. destruct (IH m) as [[Hex Hfirst] _]; [done|].
           split; [done|].
           intros [|j] y Hj Hy; simpl in Hy; [congruence|].
           apply (Hfirst j); [lia|done].
        -- intros [[y [Hy Hpy]] Hfirst]. destruct k as [|k].
           { simpl in Hy. congruence. }
           f_equal. assert (Some m = Some k) as Hk; [|congruence].
           apply IH. split; [by exists y|].
           intros j z Hj Hz. apply (Hfirst (S j)); [lia|done].
      * split; [done|]. intros [[y [Hy Hpy]] Hfirst]. destruct k as [|k].
        { simpl in Hy. congruence. }
        assert (@None nat = Some k) as Hk; [|done].
        apply IH. split; [by exists y|].
        intros j z Hj Hz. apply (Hfirst (S j)); [lia|done].
Qed.

Lemma find_index_None {A} (p : A -> bool) (l : list A) :
  find_index p l = None <-> (forall j y, l !! j = Some y -> p y = false).
Proof.
  induction l as [|x l IH]; simpl.
  - split; [by intros _ j y|done].
  - destruct (p x) eqn:Hp.
    + split; [done|]. intros H. specialize (H 0%nat x eq_refl). congruence.
    + destruct (find_index p l) as [m|]; simpl.
      * split; [done|]. intros H.
        assert (Some m = @None nat); [|done]. apply IH.
        intros j y Hy. apply (H (S j)). done.
      * split; [|done]. intros _ [|j] y Hy; simpl in Hy; [congruence|].
        destruct IH as [IH _]. by apply (IH eq_refl j).
Qed.

Lemma find_index_lt {A} (p : A -> bool) (l : list A) (k : nat) :
  find_index p l = Some k -> (k < length l)%nat.
Proof.
  intros [[x [Hx _]] _]%find_index_Some. by apply lookup_lt_Some in Hx.
Qed.

Lemma find_index_alter {A} (p : A -> bool) (f : A -> A) (i : nat) (l : list A) :
  (forall x, p (f x) = p x) ->
  find_index p (alter f i l) = find_index p l.
Proof.
  intros Hf. revert i. induction l as [|x l IH]; intros [|i]; simpl; try done.
  - by rewrite Hf.
  - specialize (IH i). unfold alter in IH. by rewrite IH.
Qed.

(** *** Serving a slot is executing the decoded command *)

Lemma serve_slot_decode st i data :
  serve_slot st i data = execute st i (decode data).
Proof.
  unfold serve_slot, decode.
  destruct (negb (nonempty data)); [done|].
  destruct (strtok_r is_pipe (trim_newline (c_string data))) as [[cmd|] save]; [|done].
  repeat (match goal with
          | |- context [if String.eqb ?a ?b then _ else _] => destruct (String.eqb a b)
          end; simpl; try done);
    repeat (match goal with
            | |- context [strtok_r ?d ?x] => destruct (strtok_r d x) as [[?|] ?]
            end; simpl; try done).
Qed.

(** *** The room table only grows, and not beyond MAX_ROOMS *)

Lemma rooms_ext_refl st st' : rooms st' = rooms st -> rooms_ext st st'.
Proof. intros H. exists []. by rewrite H, app_nil_r. Qed.

Lemma rooms_ext_trans st1 st2 st3 :
  rooms_ext st1 st2 -> rooms_ext st2 st3 -> rooms_ext st1 st3.
Proof.
  intros [e1 [H1 C1]] [e2 [H2 C2]]. exists (e1 ++ e2). split.
  - by rewrite H2, H1, app_assoc.
  - intros Hfull. rewrite (C1 Hfull) in *. rewrite app_nil_r in H1.
    rewrite C2; [done|]. unfold room_count in *. by rewrite H1.
Qed.

Lemma add_room_ext r st : rooms_ext st (add_room_if_missing r st).
Proof.
  unfold add_room_if_missing.
  destruct (negb (nonempty r)); [by apply rooms_ext_refl|].
  destruct (existsb _ _); [by apply rooms_ext_refl|].
  destruct (room_count st <? MAX_ROOMS)%nat eqn:E; [|by apply rooms_ext_refl].
  exists [strn 63 r]. split; [done|]. apply Nat.ltb_lt in E. lia.
Qed.

Lemma add_room_clients r st : clients (add_room_if_missing r st) = clients st.
Proof. unfold add_room_if_missing. by repeat case_match. Qed.

Lemma add_room_appeals r st :
  last_appeal_msg (add_room_if_missing r st) = last_appeal_msg st.
Proof. unfold add_room_if_missing. by repeat case_match. Qed.

Lemma add_room_files r st : files (add_room_if_missing r st) = files st.
Proof. unfold add_room_if_missing. by repeat case_match. Qed.

Lemma append_log_clients r m st : clients (append_room_log r m st) = clients st.
Proof. unfold append_room_log. by case_match. Qed.

Lemma append_log_rooms r m st : rooms (append_room_log r m st) = rooms st.
Proof. unfold append_room_log. by case_match. Qed.

Lemma append_log_appeals r m st :
  last_appeal_msg (append_room_log r m st) = last_appeal_msg st.
Proof. unfold append_room_log. by case_match. Qed.

Lemma broadcast_state r from msg st :
  fst (broadcast_to_room r from msg st)
  = append_room_log r (broadcast_line r from msg) (add_room_if_missing r st).
Proof. done. Qed.

Lemma broadcast_clients r from msg st :
  clients (fst (broadcast_to_room r from msg st)) = clients st.
Proof. by rewrite broadcast_state, append_log_clients, add_room_clients. Qed.

Lemma broadcast_appeals r from msg st :
  last_appeal_msg (fst (broadcast_to_room r from msg st)) = last_appeal_msg st.
Proof. by rewrite broadcast_state, append_log_appeals, add_room_appeals. Qed.

Lemma broadcast_ext r from msg st : rooms_ext st (fst (broadcast_to_room r from msg st)).
Proof.
  eapply rooms_ext_trans; [apply (add_room_ext r)|].
  apply rooms_ext_refl. by rewrite broadcast_state, append_log_rooms.
Qed.

Lemma admin_action_ext st i word rq : rooms_ext st (fst (admin_action st i word rq)).
Proof.
  unfold admin_action.
  repeat (case_match; simpl; try by apply rooms_ext_refl).
  apply broadcast_ext.
Qed.

Lemma do_ADMIN_ext st i save : rooms_ext st (fst (do_ADMIN st i save)).
Proof.
  unfold do_ADMIN, run_admin.
  repeat (case_match; simpl; try by apply rooms_ext_refl).
  eapply rooms_ext_trans; [|apply admin_action_ext]. by apply rooms_ext_refl.
Qed.

Lemma do_JOIN_state st i uname rname :
  fst (do_JOIN st i uname rname)
  = fst (broadcast_to_room rname "server" "a new user has joined"
           (add_room_if_missing rname (joined i uname rname st))).
Proof. done. Qed.

Lemma do_JOIN_ext st i uname rname : rooms_ext st (fst (do_JOIN st i uname rname)).
Proof.
  rewrite do_JOIN_state.
  eapply rooms_ext_trans; [|apply broadcast_ext].
  eapply rooms_ext_trans; [|apply add_room_ext]. by apply rooms_ext_refl.
Qed.

Lemma execute_ext st i c : rooms_ext st (fst (execute st i c)).
Proof.
  destruct c; simpl; try (by apply rooms_ext_refl).
  - apply do_JOIN_ext.
  - unfold do_MSG. case_match; [by apply rooms_ext_refl|apply broadcast_ext].
  - unfold do_PM. case_match; by apply rooms_ext_refl.
  - unfold do_APPEAL. repeat (case_match; simpl; try by apply rooms_ext_refl).
  - unfold do_HISTORY. case_match; by apply rooms_ext_refl.
  - unfold do_ROOMS. case_match; by apply rooms_ext_refl.
  - apply do_ADMIN_ext.
Qed.

Lemma accept_rooms st e : rooms (fst (accept_and_spawn st e)) = rooms st.
Proof. unfold accept_and_spawn. by repeat case_match. Qed.

(** *** Slots *)

Lemma slot_lookup st i c : clients st !! i = Some c -> slot st i = c.
Proof. unfold slot. by intros ->. Qed.

Lemma slot_update_same st i f :
  (i < length (clients st))%nat -> slot (update_slot i f st) i = f (slot st i).
Proof.
  intros Hi. unfold slot, update_slot. simpl. rewrite list_lookup_alter_eq.
  destruct (lookup_lt_is_Some_2 _ _ Hi) as [c ->]. done.
Qed.

Lemma slot_update_other st i j f : i <> j -> slot (update_slot i f st) j = slot st j.
Proof.
  intros Hne. unfold slot, update_slot. simpl. by rewrite list_lookup_alter_ne.
Qed.

Lemma slot_update_field {B} (g : client_t -> B) st i j f :
  (forall c, g (f c) = g c) -> g (slot (update_slot i f st) j) = g (slot st j).
Proof.
  intros Hg. unfold slot, update_slot. simpl.
  destruct (decide (i = j)) as [->|Hne].
  - rewrite list_lookup_alter_eq. destruct (clients st !! j); simpl; [apply Hg|done].
  - by rewrite list_lookup_alter_ne.
Qed.

Lemma filter_all {A} (p : A -> bool) (l : list A) :
  length (List.filter p l) = length l -> forall j y, l !! j = Some y -> p y = true.
Proof.
  induction l as [|x l IH]; intros H j y Hy; [done|].
  simpl in H. pose proof (List.filter_length_le p l) as Hle.
  destruct (p x) eqn:Hp; simpl in H; [|lia].
  destruct j as [|j]; simpl in Hy; [congruence|].
  apply (IH ltac:(lia) j y Hy).
Qed.

Lemma filter_none_dropped {A} (p : A -> bool) (l : list A) :
  (forall j y, l !! j = Some y -> p y = true) -> List.filter p l = l.
Proof.
  induction l as [|x l IH]; intros H; [done|]. simpl.
  rewrite (H 0%nat x eq_refl). f_equal. apply IH.
  intros j y Hy. by apply (H (S j)).
Qed.

(** *** Table sizes are invariant *)

Lemma update_slot_wf i f st : well_formed st -> well_formed (update_slot i f st).
Proof. intros [H1 H2]. split; simpl; [by rewrite length_alter|done]. Qed.

Lemma add_room_wf r st : well_formed st -> well_formed (add_room_if_missing r st).
Proof.
  intros [H1 H2]. split; [by rewrite add_room_clients|by rewrite add_room_appeals].
Qed.

Lemma broadcast_wf r from msg st :
  well_formed st -> well_formed (fst (broadcast_to_room r from msg st)).
Proof.
  intros [H1 H2]. split; [by rewrite broadcast_clients|by rewrite broadcast_appeals].
Qed.

Lemma admin_action_wf st i word rq :
  well_formed st -> well_formed (fst (admin_action st i word rq)).
Proof.
  intros H. unfold admin_action.
  repeat (case_match; simpl; try done; try (by apply update_slot_wf)).
  by apply broadcast_wf.
Qed.

Lemma execute_wf st i c : well_formed st -> well_formed (fst (execute st i c)).
Proof.
  intros H. destruct c; cbn [execute]; try done.
  - by apply update_slot_wf.
  - rewrite do_JOIN_state. by apply broadcast_wf, add_room_wf, update_slot_wf.
  - unfold do_MSG. case_match; [done|by apply broadcast_wf].
  - unfold do_PM. by case_match.
  - destruct H as [Hcl Hap].
    unfold do_APPEAL. repeat (case_match; simpl; try done).
    split; simpl; [done|by rewrite length_insert].
  - unfold do_HISTORY. by case_match.
  - unfold do_ROOMS. by case_match.
  - by apply update_slot_wf.
  - unfold do_ADMIN, run_admin. repeat (case_match; simpl; try done).
    + by apply admin_action_wf, update_slot_wf.
    + by apply update_slot_wf.
Qed.

Lemma accept_wf st e : well_formed st -> well_formed (fst (accept_and_spawn st e)).
Proof.
  intros H. unfold accept_and_spawn.
  repeat (case_match; simpl; try done). by apply update_slot_wf.
Qed.

Lemma init_wf disk : well_formed (init_server disk).
Proof. apply add_room_wf. split; cbn [boot clients last_appeal_msg]; apply length_replicate. Qed.

Lemma reachable_wf disk st : reachable disk st -> well_formed st.
Proof.
  induction 1 as [|st e _ IH|st i data _ IH Hi Hc].
  - apply init_wf.
  - by apply accept_wf.
  - rewrite serve_slot_decode. by apply execute_wf.
Qed.

Lemma reachable_rooms disk st :
  reachable disk st -> exists extra, rooms st = "lobby" :: extra.
Proof.
  induction 1 as [|st e _ [x IH]|st i data _ [x IH] Hi Hc].
  - by exists [].
  - exists x. by rewrite accept_rooms.
  - rewrite serve_slot_decode.
    destruct (execute_ext st i (decode data)) as [extra [-> _]].
    exists (x ++ extra). by rewrite IH.
Qed.

(** *** The room table *)

Lemma add_room_full r st :
  (MAX_ROOMS <= room_count st)%nat -> add_room_if_missing r st = st.
Proof.
  intros H. unfold add_room_if_missing.
  destruct (negb (nonempty r)); [done|]. destruct (existsb _ _); [done|].
  destruct (room_count st <? MAX_ROOMS)%nat eqn:E; [|done].
  apply Nat.ltb_lt in E. lia.
Qed.

Lemma audience_clients r st st' : clients st' = clients st -> audience r st' = audience r st.
Proof. intros H. unfold audience. by rewrite H. Qed.

(** C10: in every state reachable from startup the room table starts with
    "lobby", registered by main before the first accept; the room count is
    therefore never zero and the ROOMS command always takes its listing
    branch, never the "No rooms" one (the same holds for the admin ROOMS
    action). *)
Theorem lobby_always_registered disk st :
  reachable disk st ->
  rooms (init_server disk) = ["lobby"] /\
  In "lobby" (rooms st) /\
  room_count st <> 0%nat /\
  (forall i data, decode data = Rooms ->
     serve_slot st i data
     = (st, map (fun r => reply st i (r +:+ String LF "")) (rooms st))) /\
  (forall i rq,
     admin_action st i "ROOMS" rq
     = (st, reply st i ("Rooms (" +:+ dec (room_count st) +:+ "):" +:+ String LF "")
            :: map (fun r => reply st i (" - " +:+ r +:+ String LF "")) (rooms st))).
Proof.
  intros [extra Hrooms]%reachable_rooms.
  assert (room_count st <> 0%nat) as Hne by (unfold room_count; by rewrite Hrooms).
  split; [done|]. split; [rewrite Hrooms; by left|]. split; [done|]. split.
  - intros i data Hd. rewrite serve_slot_decode, Hd. cbn [execute]. unfold do_ROOMS.
    by apply Nat.eqb_neq in Hne as ->.
  - intros i rq. unfold admin_action. cbn [String.eqb Ascii.eqb Bool.eqb].
    by apply Nat.eqb_neq in Hne as ->.
Qed.

(** C9 (as the code has it): once the room table holds MAX_ROOMS names it
    never changes again, whatever message is served or connection accepted;
    a new room name is silently left unregistered.  No rejection is sent
    and the operation goes on: JOIN still renames and moves the session,
    welcomes it, and logs and delivers the join notice. *)
Theorem full_room_table_is_frozen st :
  room_count st = MAX_ROOMS ->
  (forall r, add_room_if_missing r st = st) /\
  (forall i data, rooms (fst (serve_slot st i data)) = rooms st) /\
  (forall e, rooms (fst (accept_and_spawn st e)) = rooms st) /\
  (forall i uname rname,
     let st1 := joined i uname rname st in
     let notice := broadcast_line rname "server" "a new user has joined" in
     do_JOIN st i uname rname
     = (append_room_log rname notice st1,
        reply st1 i ("Welcome " +:+ uname +:+ " to " +:+ rname +:+ String LF "")
        :: map (fun c => writef (to_child_fd c) (notice +:+ String LF ""))
               (audience rname st1))).
Proof.
  intros Hfull. split; [|split; [|split]].
  - intros r. apply add_room_full. lia.
  - intros i data. rewrite serve_slot_decode.
    destruct (execute_ext st i (decode data)) as [extra [-> Hcap]].
    rewrite Hcap; [by rewrite app_nil_r|lia].
  - apply accept_rooms.
  - intros i uname rname st1 notice.
    assert (forall r, add_room_if_missing r st1 = st1) as Hadd.
    { intros r. apply add_room_full. unfold room_count, st1, joined. simpl.
      unfold room_count in Hfull. lia. }
    unfold do_JOIN, broadcast_to_room. fold (joined i uname rname st). fold st1.
    rewrite !Hadd. fold notice. cbn zeta. f_equal. f_equal. f_equal.
    apply audience_clients, append_log_clients.
Qed.

(** *** The session registry *)

(** C5: with every one of the MAX_CLIENTS slots connected, accept_and_spawn
    answers "Server full" on the new socket, closes it, and leaves the
    registry as it was, so the connected count stays MAX_CLIENTS; otherwise
    find_free_slot returns the first slot that is not connected, and that
    slot receives the new session. *)
Theorem registry_capacity st e :
  well_formed st -> 0 <= ns e ->
  (connected_count st = MAX_CLIENTS ->
     accept_and_spawn st e
     = (st, [Write (ns e) ("Server full" +:+ String LF ""); Close (ns e)]) /\
     connected_count (fst (accept_and_spawn st e)) = MAX_CLIENTS) /\
  (connected_count st <> MAX_CLIENTS ->
     exists k, find_free_slot st = Some k /\
       (k < MAX_CLIENTS)%nat /\
       connected (slot st k) = false /\
       (forall j, (j < k)%nat -> connected (slot st j) = true) /\
       (forall p2c0 p2c1 c2p0 c2p1 cpid,
          pipes e = Some (p2c0, p2c1, c2p0, c2p1) -> child e = Some cpid ->
          let st' := fst (accept_and_spawn st e) in
          slot st' k = mk_client cpid p2c1 c2p0 "" "" true false (is_admin (slot st k)) /\
          (forall j, j <> k -> slot st' j = slot st j))).
Proof.
  intros [Hlen _] Hns.
  assert ((ns e <? 0) = false) as Hnsb by (apply Z.ltb_ge; lia).
  split.
  - intros Hcount.
    assert (find_free_slot st = None) as Hnone.
    { apply find_index_None. intros j y Hy.
      unfold connected_count in Hcount. rewrite <- Hlen in Hcount.
      by rewrite (filter_all _ _ Hcount j y Hy). }
    unfold accept_and_spawn. rewrite Hnsb, Hnone. done.
  - intros Hcount.
    destruct (find_free_slot st) as [k|] eqn:Hfree.
    + exists k. pose proof Hfree as Hspec. unfold find_free_slot in Hspec.
      pose proof (find_index_lt _ _ _ Hspec) as Hk.
      apply find_index_Some in Hspec as [[c [Hc Hpc]] Hfirst].
      split; [done|]. split; [lia|]. split.
      { rewrite (slot_lookup _ _ _ Hc). by destruct (connected c). }
      split.
      { intros j Hj. destruct (lookup_lt_is_Some_2 (clients st) j ltac:(lia)) as [y Hy].
        rewrite (slot_lookup _ _ _ Hy). specialize (Hfirst j y Hj Hy).
        by destruct (connected y). }
      intros p2c0 p2c1 c2p0 c2p1 cpid Hp Hf st'.
      unfold st', accept_and_spawn. rewrite Hnsb, Hfree, Hp, Hf. cbn [fst].
      split; [by rewrite slot_update_same|].
      intros j Hj. by rewrite slot_update_other.
    + exfalso. apply Hcount. unfold find_free_slot in Hfree.
      unfold connected_count. rewrite <- Hlen. f_equal.
      apply filter_none_dropped. intros j y Hy.
      pose proof (proj1 (find_index_None _ _) Hfree j y Hy) as Hp.
      simpl in Hp. by destruct (connected y).
Qed.

(** *** Name lookup *)

Lemma find_client_by_name_Some name st k :
  find_client_by_name name st = Some k <-> first_named name st k.
Proof.
  unfold find_client_by_name, first_named. rewrite find_index_Some. split.
  - intros [[c [Hc Hp]] Hfirst]. apply andb_true_iff in Hp as [Hcon Hname].
    apply String.eqb_eq in Hname. split; [by exists c|].
    intros j y Hj Hy Hcy Hny. specialize (Hfirst j y Hj Hy). simpl in Hfirst.
    rewrite Hcy, Hny, String.eqb_refl in Hfirst. done.
  - intros [[c [Hc [Hcon Hname]]] Hfirst]. split.
    + exists c. split; [done|]. by rewrite Hcon, Hname, String.eqb_refl.
    + intros j y Hj Hy. specialize (Hfirst j y Hj Hy).
      destruct (connected y); [|done]. simpl.
      apply String.eqb_neq. by apply Hfirst.
Qed.

Lemma find_client_by_name_None name st :
  find_client_by_name name st = None <-> nobody_named name st.
Proof.
  unfold find_client_by_name, nobody_named. rewrite find_index_None. split.
  - intros H j c Hc Hcon Hname. specialize (H j c Hc). simpl in H.
    rewrite Hcon, Hname, String.eqb_refl in H. done.
  - intros H j y Hy. specialize (H j y Hy).
    destruct (connected y); [|done]. simpl. apply String.eqb_neq. by apply H.
Qed.

Lemma find_client_update name st i f :
  (forall c, connected (f c) = connected c) ->
  (forall c, username (f c) = username c) ->
  find_client_by_name name (update_slot i f st) = find_client_by_name name st.
Proof.
  intros H1 H2. unfold find_client_by_name, update_slot. simpl.
  apply find_index_alter. intros c. by rewrite H1, H2.
Qed.

Lemma filter_map_alter {A B} (p : A -> bool) (g : A -> B) (f : A -> A) i (l : list A) :
  (forall x, p (f x) = p x) -> (forall x, g (f x) = g x) ->
  map g (List.filter p (alter f i l)) = map g (List.filter p l).
Proof.
  intros Hp Hg. revert i. induction l as [|x l IH]; intros [|i]; simpl; try done.
  - rewrite Hp. destruct (p x); simpl; [by rewrite Hg|done].
  - specialize (IH i). unfold alter in IH. destruct (p x); simpl; by rewrite IH.
Qed.

(** *** Administrator authentication *)

Lemma admin_action_is_admin st i word rq j :
  is_admin (slot (fst (admin_action st i word rq)) j) = is_admin (slot st j).
Proof.
  unfold admin_action.
  repeat (case_match; simpl; try done; try (by apply (slot_update_field is_admin))).
  unfold slot. by rewrite append_log_clients, add_room_clients.
Qed.

(** C1: an ADMIN command whose password differs from ADMIN_PASSWORD changes
    nothing in the broker state and is answered by "Admin auth failed" alone
    (and one without a password by "Admin malformed" alone); one whose
    password is ADMIN_PASSWORD leaves the requesting slot with is_admin set,
    also when no action word follows, in which case the grant is the only
    change. *)
Theorem admin_authentication st i data save :
  (i < length (clients st))%nat ->
  decode data = Admin save ->
  match parse_admin save with
  | None =>
      serve_slot st i data = (st, [reply st i ("Admin malformed" +:+ String LF "")])
  | Some rq =>
      (adm_password rq <> ADMIN_PASSWORD ->
         serve_slot st i data = (st, [reply st i ("Admin auth failed" +:+ String LF "")])) /\
      (adm_password rq = ADMIN_PASSWORD ->
         is_admin (slot (fst (serve_slot st i data)) i) = true /\
         (adm_word rq = None ->
            serve_slot st i data
            = (update_slot i (with_admin true) st,
               [reply st i ("Admin: no action" +:+ String LF "")])))
  end.
Proof.
  intros Hi Hd. rewrite serve_slot_decode, Hd. cbn [execute]. unfold do_ADMIN.
  destruct (parse_admin save) as [rq|]; [|done]. unfold run_admin. split.
  - intros Hne. apply String.eqb_neq in Hne. by rewrite Hne.
  - intros Heq. rewrite Heq, String.eqb_refl. cbn [negb]. split.
    + destruct (adm_word rq) as [word|]; cbn [fst].
      * rewrite admin_action_is_admin. by rewrite slot_update_same.
      * by rewrite slot_update_same.
    + intros ->. f_equal. f_equal. unfold reply. f_equal.
      by apply (slot_update_field to_child_fd).
Qed.

(** *** Broadcast *)

(** C4: a broadcast to "global" is written, once each and in slot order, to
    every connected client whatever its room; a broadcast to any other room
    is written to the connected clients whose room is that room and to no
    one else.  The admin BROADCAST action, once authenticated, is the
    "global" broadcast from "admin": the line is "[global] admin: " followed
    by the filtered text. *)
Theorem broadcast_fan_out st r from msg :
  let deliver text := fun c => writef (to_child_fd c) (text +:+ String LF "") in
  snd (broadcast_to_room "global" from msg st)
  = map (deliver (broadcast_line "global" from msg))
        (List.filter (fun c => connected c) (clients st)) /\
  (r <> "global" ->
   snd (broadcast_to_room r from msg st)
   = map (deliver (broadcast_line r from msg))
         (List.filter (fun c => connected c && String.eqb (room c) r) (clients st))) /\
  (forall i data save rq,
     decode data = Admin save -> parse_admin save = Some rq ->
     adm_password rq = ADMIN_PASSWORD -> adm_word rq = Some "BROADCAST" ->
     let text := default "" (admin_operand rq) in
     snd (serve_slot st i data)
     = map (deliver (broadcast_line "global" "admin" text))
           (List.filter (fun c => connected c) (clients st)) /\
     (strlen ("[global] admin: " +:+ run_filter_and_get_output text) < BUF - 1 ->
      snd (serve_slot st i data)
      = map (fun c => Write (to_child_fd c)
                        ("[global] admin: " +:+ run_filter_and_get_output text +:+ String LF ""))
            (List.filter (fun c => connected c) (clients st)))).
Proof.
  intros deliver.
  assert (forall s, snd (broadcast_to_room "global" from msg s)
            = map (deliver (broadcast_line "global" from msg))
                  (List.filter (fun c => connected c) (clients s))) as Hglobal.
  { intros s. unfold broadcast_to_room. cbn [snd]. unfold audience.
    cbn [String.eqb Ascii.eqb Bool.eqb].
    by rewrite append_log_clients, add_room_clients. }
  split; [apply Hglobal|]. split.
  - intros Hr. unfold broadcast_to_room. cbn [snd]. unfold audience.
    apply String.eqb_neq in Hr. rewrite Hr.
    by rewrite append_log_clients, add_room_clients.
  - intros i data save rq Hd Hp Hpw Hw text.
    assert (snd (serve_slot st i data)
            = map (deliver (broadcast_line "global" "admin" text))
                  (List.filter (fun c => connected c) (clients st))) as Hout.
    { rewrite serve_slot_decode, Hd. cbn [execute]. unfold do_ADMIN. rewrite Hp.
      unfold run_admin. rewrite Hpw, String.eqb_refl, Hw. cbn [negb].
      unfold admin_action. cbn [String.eqb Ascii.eqb Bool.eqb].
      fold text. unfold broadcast_to_room. cbn [snd]. unfold audience.
      cbn [String.eqb Ascii.eqb Bool.eqb].
      rewrite append_log_clients, add_room_clients. unfold update_slot.
      cbn [clients set_clients].
      unfold deliver.
      by apply (filter_map_alter (fun c => connected c)
                  (fun c => writef (to_child_fd c) _)). }
    split; [done|]. intros Hshort. rewrite Hout. apply map_ext. intros c.
    unfold deliver, broadcast_line, snprintf.
    change ("[" +:+ "global" +:+ "] " +:+ "admin" +:+ ": " +:+ run_filter_and_get_output text)
      with ("[global] admin: " +:+ run_filter_and_get_output text).
    rewrite strn_all by lia.
    apply writef_short. revert Hshort.
    rewrite !strlen_app. unfold BUF. change (strlen (String LF "")) with 1. lia.
Qed.

(** *** Private messages *)

(** C8: PM(from, to, text) goes to the first connected client whose display
    name is [to], and to it alone, as the line "[PM] from -> you: " followed
    by the filtered text, and the requester is told "PM sent to"; when no
    connected client bears that name the requester is told "User ... not
    found" and nothing else is written.  The state is unchanged either
    way. *)
Theorem private_message_routing st i data from to text :
  decode data = Pm from to text ->
  match find_client_by_name to st with
  | Some k =>
      first_named to st k /\
      serve_slot st i data
      = (st, [writef (to_child_fd (slot st k))
                ("[PM] " +:+ from +:+ " -> you: "
                   +:+ run_filter_and_get_output text +:+ String LF "");
              reply st i ("PM sent to " +:+ to +:+ String LF "")])
  | None =>
      nobody_named to st /\
      serve_slot st i data
      = (st, [reply st i ("User " +:+ to +:+ " not found" +:+ String LF "")])
  end.
Proof.
  intros Hd. rewrite serve_slot_decode, Hd. cbn [execute].
  unfold do_PM, send_private.
  destruct (find_client_by_name to st) as [k|] eqn:Hk.
  - split; [by apply find_client_by_name_Some|done].
  - split; [by apply find_client_by_name_None|done].
Qed.

(** *** History *)

Lemma append_assoc (a b c : string) : (a +:+ b) +:+ c = a +:+ (b +:+ c).
Proof.
  induction a as [|x a IH]; [done|].
  change (String x ((a +:+ b) +:+ c) = String x (a +:+ (b +:+ c))). by rewrite IH.
Qed.

Lemma append_nil_r (a : string) : a +:+ "" = a.
Proof.
  induction a as [|x a IH]; [done|].
  change (String x (a +:+ "") = String x a). by rewrite IH.
Qed.

Lemma read_loop_join fuel content :
  (String.length content <= fuel)%nat -> join (read_loop fuel content) = content.
Proof.
  revert content. induction fuel as [|fuel IH]; intros content Hlen.
  - destruct content; [done|]. simpl in Hlen. lia.
  - cbn [read_loop]. destruct (nonempty content) eqn:Hne.
    + cbn [join]. rewrite IH; [apply strn_strdrop|].
      pose proof (strdrop_length 1024 content ltac:(lia) Hne). lia.
    + by destruct content.
Qed.

Lemma read_file_join content : join (read_file content) = content.
Proof. by apply read_loop_join. Qed.

Lemma append_entries_file r entries st :
  open_append (log_path r) = true ->
  files (append_entries entries st) !! log_path r
  = match logged_in r entries with
    | [] => files st !! log_path r
    | msgs => Some (default "" (files st !! log_path r) +:+ log_text msgs)
    end.
Proof.
  intros Hopen. revert st. induction entries as [|[r' m] entries IH]; intros st.
  - done.
  - cbn [append_entries fold_left fst snd]. fold (append_entries entries (append_room_log r' m st)).
    rewrite IH. unfold logged_in. cbn [List.filter fst snd].
    destruct (String.eqb (log_path r') (log_path r)) eqn:Hsame.
    + apply String.eqb_eq in Hsame. cbn [map snd].
      fold (logged_in r entries).
      unfold append_room_log. rewrite Hsame, Hopen. cbn [files set_files].
      rewrite lookup_insert_eq. cbn [default].
      destruct (logged_in r entries) as [|m' ms].
      * cbn [log_text]. unfold id. by rewrite append_nil_r.
      * f_equal. unfold id. change (log_text (m :: m' :: ms))
          with (m +:+ String LF "" +:+ log_text (m' :: ms)).
        by rewrite !append_assoc.
    + apply String.eqb_neq in Hsame. fold (logged_in r entries).
      unfold append_room_log. destruct (open_append (log_path r')); [|done].
      cbn [files set_files]. by rewrite lookup_insert_ne.
Qed.

Lemma append_entries_clients entries st :
  clients (append_entries entries st) = clients st.
Proof.
  revert st. induction entries as [|e entries IH]; intros st; [done|].
  cbn [append_entries fold_left]. fold (append_entries entries (append_room_log e.1 e.2 st)).
  by rewrite IH, append_log_clients.
Qed.

Lemma logged_in_same r msgs : logged_in r (map (pair r) msgs) = msgs.
Proof.
  unfold logged_in. induction msgs as [|m msgs IH]; [done|].
  cbn [map List.filter fst]. rewrite String.eqb_refl. cbn [map snd]. by rewrite IH.
Qed.

(** C7: starting without a log file for room R, after appending the
    messages M1..Mk to the log of R a HISTORY request for R writes to the
    requester, as successive chunks, exactly the bytes logged: each message
    followed by its newline, in append order, and the broker state is
    unchanged; when nothing was appended the requester is told
    "No history for R" and nothing else happens. *)
Theorem history_round_trip st i r msgs data :
  open_append (log_path r) = true ->
  files st !! log_path r = None ->
  decode data = History r ->
  let st' := append_entries (map (pair r) msgs) st in
  match msgs with
  | [] =>
      serve_slot st' i data
      = (st', [reply st' i ("No history for " +:+ r +:+ String LF "")])
  | _ =>
      exists chunks,
        serve_slot st' i data = (st', map (Write (to_child_fd (slot st' i))) chunks) /\
        join chunks = log_text msgs
  end.
Proof.
  intros Hopen Hnone Hd st'.
  rewrite serve_slot_decode, Hd. cbn [execute]. unfold do_HISTORY.
  unfold st'. rewrite (append_entries_file r _ st Hopen), logged_in_same, Hnone.
  destruct msgs as [|m ms]; [done|].
  cbn [default]. eexists. split; [reflexivity|]. by rewrite read_file_join.
Qed.

(** *** Appeals *)

Lemma indexed_In {A} (l : list A) n k (x : A) :
  In (k, x) (indexed n l) <-> (n <= k)%nat /\ l !! (k - n)%nat = Some x.
Proof.
  revert n. induction l as [|y l IH]; intros n; cbn [indexed In].
  - split; [done|]. by intros [_ H].
  - rewrite IH. split.
    + intros [[= -> ->]|[Hle Hx]].
      * split; [lia|]. by rewrite Nat.sub_diag.
      * split; [lia|]. by replace (k - n)%nat with (S (k - S n)) by lia.
    + intros [Hle Hx]. destruct (decide (k = n)) as [->|Hne].
      * left. rewrite Nat.sub_diag in Hx. cbn in Hx. congruence.
      * right. split; [lia|].
        by replace (k - n)%nat with (S (k - S n)) in Hx by lia.
Qed.

Lemma admins_online_In st k c :
  In (k, c) (admins_online st)
  <-> clients st !! k = Some c /\ connected c = true /\ is_admin c = true.
Proof.
  unfold admins_online. rewrite List.filter_In, indexed_In, Nat.sub_0_r.
  cbn [snd]. rewrite andb_true_iff. split.
  - by intros [[_ H] [? ?]].
  - intros [H [? ?]]. split; [split; [lia|done]|done].
Qed.

(** X24: the APPEAL record is kept for the slot that the name [from]
    resolves to, the first connected client bearing that display name.
    When [from] resolves to a slot s and the text fits the 511 bytes of the
    record: an appeal whose text differs from the record of s is forwarded
    as "[APPEAL] from: text" to every connected client with is_admin set,
    the record of s becomes that text, and the requester is told how many
    admins were reached ("No admins currently online" for none); an appeal
    whose text equals the record is only refused.  Either way the record
    then holds the text, so sending the same APPEAL again is answered by
    the refusal alone and changes nothing. *)
Theorem appeal_dedup_for_resolved_sender st i data from message s :
  well_formed st ->
  decode data = Appeal from message ->
  find_client_by_name from st = Some s ->
  message <> "" -> strlen message <= 511 ->
  let st1 := fst (serve_slot st i data) in
  (appeal_of st s <> message ->
     serve_slot st i data
     = (set_appeals (<[s := message]> (last_appeal_msg st)) st,
        appeal_forwards from message (admins_online st)
        ++ [appeal_receipt st i (length (admins_online st))])) /\
  (appeal_of st s = message ->
     serve_slot st i data = (st, [appeal_refusal st i])) /\
  appeal_of st1 s = message /\
  serve_slot st1 i data = (st1, [appeal_refusal st1 i]) /\
  (forall k c, In (k, c) (admins_online st)
               <-> clients st !! k = Some c /\ connected c = true /\ is_admin c = true).
Proof.
  intros [Hcl Hap] Hd Hs Hne Hlen st1.
  assert (nonempty message = true) as Hnonempty by (by destruct message).
  assert (forall s0, find_client_by_name from s0 = Some s ->
            appeal_of s0 s = message ->
            serve_slot s0 i data = (s0, [appeal_refusal s0 i])) as Hrefuse.
  { intros s0 Hs0 Hrec. rewrite serve_slot_decode, Hd. cbn [execute].
    unfold do_APPEAL. rewrite Hs0. cbn [already_appealed].
    by rewrite Hrec, Hnonempty, String.eqb_refl. }
  assert (appeal_of st s <> message ->
     serve_slot st i data
     = (set_appeals (<[s := message]> (last_appeal_msg st)) st,
        appeal_forwards from message (admins_online st)
        ++ [appeal_receipt st i (length (admins_online st))])) as Hforward.
  { intros Hrec. rewrite serve_slot_decode, Hd. cbn [execute].
    unfold do_APPEAL. rewrite Hs. cbn [already_appealed].
    apply String.eqb_neq in Hrec. rewrite Hrec, andb_false_r.
    by rewrite strn_all. }
  split; [done|]. split; [by apply Hrefuse|].
  assert (s < length (last_appeal_msg st))%nat as Hslot.
  { rewrite Hap, <- Hcl. by apply find_index_lt in Hs. }
  destruct (decide (appeal_of st s = message)) as [Hrec|Hrec].
  - unfold st1. rewrite (Hrefuse st Hs Hrec). cbn [fst].
    split; [done|]. split; [by apply Hrefuse|]. apply admins_online_In.
  - unfold st1. rewrite (Hforward Hrec). cbn [fst].
    assert (appeal_of (set_appeals (<[s:=message]> (last_appeal_msg st)) st) s = message)
      as Hnow.
    { unfold appeal_of. cbn [last_appeal_msg set_appeals].
      by rewrite list_lookup_insert_eq. }
    split; [done|]. split; [by apply Hrefuse|]. apply admins_online_In.
Qed.

Lemma receipt_is_not_refusal st i n : appeal_receipt st i n <> appeal_refusal st i.
Proof.
  unfold appeal_receipt, appeal_refusal, reply, writef.
  change (strlen ("Your appeal was already sent to admins recently." +:+ String LF "") <? BUF)
    with true. cbn iota.
  destruct (n =? 0)%nat.
  - by vm_compute.
  - destruct (_ <? BUF); [|done]. by intros [= ?].
Qed.

(** C2 (where the code departs from it): the appeal record is looked up by
    the name carried in the message, not by the requesting slot.  When that
    name is borne by no connected client (as for a session that has not
    sent JOIN, whose worker uses the name "unnamed"), no record is read or
    written: the APPEAL is forwarded to every connected admin and answered
    by the receipt, the state is unchanged, and the same APPEAL sent again
    is forwarded again with the same receipt, which is never the
    "already sent" refusal. *)
Theorem appeal_from_unresolved_name_is_forwarded_again st i data from message :
  decode data = Appeal from message ->
  find_client_by_name from st = None ->
  let out := appeal_forwards from message (admins_online st)
             ++ [appeal_receipt st i (length (admins_online st))] in
  serve_slot st i data = (st, out) /\
  serve_slot (fst (serve_slot st i data)) i data = (st, out) /\
  (forall k c, In (k, c) (admins_online st) ->
               In (writef (to_child_fd c) (appeal_line from message)) out) /\
  appeal_receipt st i (length (admins_online st)) <> appeal_refusal st i.
Proof.
  intros Hd Hs out.
  assert (serve_slot st i data = (st, out)) as Hserve.
  { rewrite serve_slot_decode, Hd. cbn [execute]. unfold do_APPEAL. by rewrite Hs. }
  split; [done|]. split; [by rewrite Hserve|]. split; [|apply receipt_is_not_refusal].
  intros k c Hin. apply in_or_app. left. unfold appeal_forwards.
  apply in_flat_map. exists (k, c). split; [done|]. by left.
Qed.

(** *** Muting *)

Lemma serve_admin_mute st a data u j (b : bool) :
  admin_command data (if b then "MUTE" else "UNMUTE") u ->
  find_client_by_name u st = Some j ->
  fst (serve_slot st a data)
  = update_slot j (with_muted b) (update_slot a (with_admin true) st).
Proof.
  intros (save & rq & Hd & Hp & Hpw & Hw & Hop) Hj.
  rewrite serve_slot_decode, Hd. cbn [execute]. unfold do_ADMIN. rewrite Hp.
  unfold run_admin. rewrite Hpw, String.eqb_refl, Hw. cbn [negb].
  unfold admin_action. rewrite Hop, find_client_update, Hj by done.
  by destruct b.
Qed.

Lemma muted_after st a j (b : bool) :
  (j < length (clients st))%nat ->
  muted (slot (update_slot j (with_muted b) (update_slot a (with_admin true) st)) j) = b.
Proof.
  intros Hj. rewrite slot_update_same; [done|].
  unfold update_slot. cbn [clients set_clients]. by rewrite length_alter.
Qed.

Lemma find_client_after_mute st a j (b : bool) name :
  find_client_by_name name
    (update_slot j (with_muted b) (update_slot a (with_admin true) st))
  = find_client_by_name name st.
Proof. by rewrite !find_client_update. Qed.

(** C3 (as the code has it): MUTE and UNMUTE act on the first connected
    client that bears the given display name.  For that client j: after an
    authenticated MUTE of its name, a MSG read from slot j changes no state
    (no log append, nothing written to any other client) and is answered
    to slot j by "You are muted." alone; after a following authenticated
    UNMUTE of the same name, a MSG from slot j is filtered, appended to the
    room log and written to the audience of the room.  Every other slot,
    whatever its display name, is not affected by the MUTE nor by the
    UNMUTE: its muted flag is as before, after the MUTE the whole slot is
    as before unless it is the admin's own (which gains the admin grant),
    and if it was not muted its MSG is still logged and written to the
    audience of the room. *)
Theorem mute_then_unmute_first_named st a a' j u dmute dunmute dmsg uname rname text :
  find_client_by_name u st = Some j ->
  admin_command dmute "MUTE" u ->
  admin_command dunmute "UNMUTE" u ->
  decode dmsg = Msg uname rname text ->
  let st1 := fst (serve_slot st a dmute) in
  let st2 := fst (serve_slot st1 a' dunmute) in
  let line := "[" +:+ rname +:+ "] " +:+ uname +:+ ": " +:+ run_filter_and_get_output text in
  muted (slot st1 j) = true /\
  serve_slot st1 j dmsg = (st1, [reply st1 j ("You are muted." +:+ String LF "")]) /\
  muted (slot st2 j) = false /\
  serve_slot st2 j dmsg
  = (append_room_log rname (snprintf BUF line) (add_room_if_missing rname st2),
     map (fun c => writef (to_child_fd c) (snprintf BUF line +:+ String LF ""))
         (audience rname st2)) /\
  (forall k, k <> j -> muted (slot st1 k) = muted (slot st k)) /\
  (forall k, k <> j -> muted (slot st2 k) = muted (slot st1 k)) /\
  (forall k, k <> j -> k <> a -> slot st1 k = slot st k) /\
  (forall k, k <> j -> muted (slot st k) = false ->
     serve_slot st1 k dmsg
     = (append_room_log rname (snprintf BUF line) (add_room_if_missing rname st1),
        map (fun c => writef (to_child_fd c) (snprintf BUF line +:+ String LF ""))
            (audience rname st1))).
Proof.
  intros Hj Hmute Hunmute Hmsg st1 st2 line.
  pose proof (find_index_lt _ _ _ Hj) as Hlt.
  assert (st1 = update_slot j (with_muted true) (update_slot a (with_admin true) st))
    as Hst1 by (by apply (serve_admin_mute st a dmute u j true)).
  assert (find_client_by_name u st1 = Some j) as Hj1
    by (by rewrite Hst1, find_client_after_mute).
  assert (length (clients st1) = length (clients st)) as Hlen1.
  { rewrite Hst1. unfold update_slot. cbn [clients set_clients].
    by rewrite !length_alter. }
  assert (st2 = update_slot j (with_muted false) (update_slot a' (with_admin true) st1))
    as Hst2 by (by apply (serve_admin_mute st1 a' dunmute u j false)).
  assert (muted (slot st1 j) = true) as Hm1 by (rewrite Hst1; by apply muted_after).
  assert (muted (slot st2 j) = false) as Hm2
    by (rewrite Hst2; apply muted_after; by rewrite Hlen1).
  assert (forall k, k <> j -> muted (slot st1 k) = muted (slot st k)) as Hothers.
  { intros k Hk. rewrite Hst1, slot_update_other by done.
    by apply (slot_update_field muted). }
  assert (forall s0 k, muted (slot s0 k) = false ->
            serve_slot s0 k dmsg
            = (append_room_log rname (snprintf BUF line) (add_room_if_missing rname s0),
               map (fun c => writef (to_child_fd c) (snprintf BUF line +:+ String LF ""))
                   (audience rname s0))) as Hdelivered.
  { intros s0 k Hk. rewrite serve_slot_decode, Hmsg. cbn [execute]. unfold do_MSG.
    rewrite Hk. unfold broadcast_to_room. f_equal. f_equal.
    apply audience_clients. by rewrite append_log_clients, add_room_clients. }
  split; [done|]. split.
  { rewrite serve_slot_decode, Hmsg. cbn [execute]. unfold do_MSG. by rewrite Hm1. }
  split; [done|]. split; [by apply Hdelivered|]. split; [done|]. split.
  { intros k Hk. rewrite Hst2, slot_update_other by done.
    by apply (slot_update_field muted). }
  split.
  - intros k Hk Ha. by rewrite Hst1, !slot_update_other.
  - intros k Hk Hfree. apply Hdelivered. by rewrite Hothers.
Qed.

(** *** The ADMIN payload parser *)

Lemma free_of_app bad a b : free_of bad (a +:+ b) = free_of bad a && free_of bad b.
Proof.
  induction a as [|c a IH]; [done|].
  change (String c a +:+ b) with (String c (a +:+ b)). cbn [free_of].
  by rewrite IH, andb_assoc.
Qed.

Lemma free_of_weaken (bad bad' : ascii -> bool) s :
  (forall c, bad' c = true -> bad c = true) ->
  free_of bad s = true -> free_of bad' s = true.
Proof.
  intros Hsub. induction s as [|c s IH]; [done|]. cbn [free_of].
  rewrite !andb_true_iff, !negb_true_iff. intros [Hc Hs]. split; [|by apply IH].
  destruct (bad' c) eqn:E; [|done]. apply Hsub in E. congruence.
Qed.

Lemma cut_at_free stop a : free_of stop a = true -> cut_at stop a = a.
Proof.
  induction a as [|c a IH]; [done|]. cbn [free_of cut_at].
  rewrite andb_true_iff, negb_true_iff. intros [-> Ha]. by rewrite IH.
Qed.

Lemma cut_at_stop stop a c rest :
  free_of stop a = true -> stop c = true -> cut_at stop (a +:+ String c rest) = a.
Proof.
  intros Ha Hc. induction a as [|x a IH].
  - change ("" +:+ String c rest) with (String c rest). cbn [cut_at]. by rewrite Hc.
  - change (String x a +:+ String c rest) with (String x (a +:+ String c rest)).
    cbn [free_of cut_at] in *. apply andb_true_iff in Ha as [Hx Ha].
    apply negb_true_iff in Hx. rewrite Hx. by rewrite IH.
Qed.

Lemma span_token_stop d t c rest :
  free_of d t = true -> d c = true ->
  span_token d (t +:+ String c rest) = (t, rest).
Proof.
  intros Ht Hc. induction t as [|x t IH].
  - change ("" +:+ String c rest) with (String c rest). cbn [span_token]. by rewrite Hc.
  - change (String x t +:+ String c rest) with (String x (t +:+ String c rest)).
    cbn [free_of span_token] in *. apply andb_true_iff in Ht as [Hx Ht].
    apply negb_true_iff in Hx. rewrite Hx. by rewrite IH.
Qed.

Lemma span_token_end d t : free_of d t = true -> span_token d t = (t, "").
Proof.
  induction t as [|x t IH]; [done|]. cbn [free_of span_token].
  rewrite andb_true_iff, negb_true_iff. intros [-> Ht]. by rewrite IH.
Qed.

Lemma strtok_r_stop d t c rest :
  nonempty t = true -> free_of d t = true -> d c = true ->
  strtok_r d (t +:+ String c rest) = (Some t, rest).
Proof.
  intros Hne Ht Hc. destruct t as [|x t]; [done|].
  pose proof (span_token_stop d (String x t) c rest Ht Hc) as Hspan.
  change (String x t +:+ String c rest) with (String x (t +:+ String c rest)) in *.
  unfold strtok_r. cbn [skip_delims]. cbn [free_of] in Ht.
  apply andb_true_iff in Ht as [Hx _]. apply negb_true_iff in Hx. rewrite Hx.
  by rewrite Hspan.
Qed.

Lemma strtok_r_end d t :
  nonempty t = true -> free_of d t = true -> strtok_r d t = (Some t, "").
Proof.
  intros Hne Ht. destruct t as [|x t]; [done|].
  pose proof (span_token_end d (String x t) Ht) as Hspan.
  unfold strtok_r. cbn [skip_delims]. cbn [free_of] in Ht.
  apply andb_true_iff in Ht as [Hx _]. apply negb_true_iff in Hx. rewrite Hx.
  by rewrite Hspan.
Qed.

Lemma split_space_stop w rest :
  free_of is_space w = true -> split_space (w +:+ String " " rest) = Some (w, rest).
Proof.
  intros Hw. induction w as [|x w IH]; [done|].
  change (String x w +:+ String " " rest) with (String x (w +:+ String " " rest)).
  cbn [free_of split_space] in *. apply andb_true_iff in Hw as [Hx Hw].
  apply negb_true_iff in Hx. rewrite Hx. by rewrite IH.
Qed.

Lemma split_space_none w : free_of is_space w = true -> split_space w = None.
Proof.
  induction w as [|x w IH]; [done|]. cbn [free_of split_space].
  rewrite andb_true_iff, negb_true_iff. intros [-> Hw]. by rewrite IH.
Qed.

Lemma field_no_pipe s : is_field s -> free_of is_pipe s = true.
Proof.
  intros [_ H]. revert H. apply free_of_weaken. by intros c ->.
Qed.

Lemma field_no_line_end s : is_field s -> free_of ends_line s = true.
Proof.
  intros [_ H]. revert H. apply free_of_weaken. intros c ->. apply orb_true_r.
Qed.

Lemma decode_admin_wire payload :
  free_of ends_line payload = true -> decode (admin_wire payload) = Admin payload.
Proof.
  intros Hfree. unfold decode, admin_wire.
  change (negb (nonempty ("ADMIN|" +:+ payload +:+ String LF ""))) with false.
  cbn iota.
  assert (trim_newline (c_string ("ADMIN|" +:+ payload +:+ String LF ""))
          = "ADMIN|" +:+ payload) as ->.
  { unfold c_string. rewrite cut_at_free.
    - rewrite <- append_assoc. unfold trim_newline. apply cut_at_stop; [|done].
      rewrite free_of_app. apply andb_true_iff. split; [done|].
      revert Hfree. apply free_of_weaken. intros c. unfold ends_line. by intros ->.
    - rewrite !free_of_app. rewrite !andb_true_iff. split; [done|]. split; [|done].
      revert Hfree. apply free_of_weaken. intros c. unfold ends_line. intros ->.
      apply orb_true_r. }
  assert (strtok_r is_pipe ("ADMIN|" +:+ payload) = (Some "ADMIN", payload)) as ->.
  { by apply (strtok_r_stop is_pipe "ADMIN" "|" payload). }
  done.
Qed.

Lemma run_admin_tuple st i rq rq' :
  admin_tuple rq = admin_tuple rq' -> run_admin st i rq = run_admin st i rq'.
Proof.
  unfold admin_tuple. intros [= Hu Hp Hw Ho].
  unfold run_admin, admin_action. by rewrite Hp, Hw, Ho.
Qed.

Lemma append_char c rest : String c "" +:+ rest = String c rest.
Proof. done. Qed.

Lemma parse_pipe_form name pw action args :
  is_field name -> is_field pw -> is_word action ->
  parse_admin (pipe_form name pw action args)
  = Some (mk_admin name pw (Some action) None args).
Proof.
  intros Hn Hp [Ha Has]. unfold parse_admin, pipe_form. rewrite !append_char.
  rewrite (strtok_r_stop is_pipe name) by (try apply field_no_pipe; by try apply Hn).
  rewrite (strtok_r_stop is_pipe pw) by (try apply field_no_pipe; by try apply Hp).
  rewrite (strtok_r_stop is_pipe action) by (try apply field_no_pipe; by try apply Ha).
  by rewrite (split_space_none action).
Qed.

Lemma parse_pipe_form0 name pw action :
  is_field name -> is_field pw -> is_word action ->
  parse_admin (pipe_form0 name pw action)
  = Some (mk_admin name pw (Some action) None "").
Proof.
  intros Hn Hp [Ha Has]. unfold parse_admin, pipe_form0. rewrite !append_char.
  rewrite (strtok_r_stop is_pipe name) by (try apply field_no_pipe; by try apply Hn).
  rewrite (strtok_r_stop is_pipe pw) by (try apply field_no_pipe; by try apply Hp).
  rewrite (strtok_r_end is_pipe action) by (try apply field_no_pipe; by try apply Ha).
  by rewrite (split_space_none action).
Qed.

Lemma third_field pw rest :
  is_field pw -> free_of is_pipe rest = true ->
  strtok_r is_pipe (pw +:+ String " " rest) = (Some (pw +:+ String " " rest), "").
Proof.
  intros [Hne Hp] Hrest. apply strtok_r_end.
  - by destruct pw.
  - rewrite free_of_app. apply andb_true_iff. split; [by apply field_no_pipe|].
    cbn [free_of]. by rewrite Hrest.
Qed.

Lemma parse_hybrid_form name pw action args :
  is_field name -> is_word pw -> is_word action -> is_field args ->
  parse_admin (hybrid_form name pw action args)
  = Some (mk_admin name pw (Some action) (Some args) "").
Proof.
  intros Hn [Hp Hps] [Ha Has] Hargs. unfold parse_admin, hybrid_form.
  rewrite !append_char.
  rewrite (strtok_r_stop is_pipe name) by (try apply field_no_pipe; by try apply Hn).
  rewrite third_field; [|done|].
  - change (strtok_r is_pipe "") with (@None string, "").
    rewrite (split_space_stop pw) by done.
    by rewrite (split_space_stop action).
  - rewrite free_of_app. apply andb_true_iff. split; [by apply field_no_pipe|].
    cbn [free_of]. by rewrite (field_no_pipe args).
Qed.

Lemma parse_hybrid_form0 name pw action :
  is_field name -> is_word pw -> is_word action ->
  parse_admin (hybrid_form0 name pw action)
  = Some (mk_admin name pw (Some action) None "").
Proof.
  intros Hn [Hp Hps] [Ha Has]. unfold parse_admin, hybrid_form0.
  rewrite !append_char.
  rewrite (strtok_r_stop is_pipe name) by (try apply field_no_pipe; by try apply Hn).
  rewrite third_field; [|done|by apply field_no_pipe].
  change (strtok_r is_pipe "") with (@None string, "").
  rewrite (split_space_stop pw) by done.
  by rewrite (split_space_none action).
Qed.

Lemma do_ADMIN_tuple st i save save' rq rq' :
  parse_admin save = Some rq -> parse_admin save' = Some rq' ->
  admin_tuple rq = admin_tuple rq' ->
  do_ADMIN st i save = do_ADMIN st i save'.
Proof.
  intros H H' Ht. unfold do_ADMIN. rewrite H, H'. by apply run_admin_tuple.
Qed.

(** C6 (as the code has it): for a name, password, action and argument
    string that are non-empty and contain no pipe, line end or NUL, with no
    space in the password and in the action, the pipe-delimited payload
    name|password|ACTION|args and the hybrid payload
    name|password ACTION args parse to the same name, password, action word
    and operand, and the broker serves the two control messages
    identically; so do the two forms of an action without arguments. *)
Theorem admin_wire_forms_agree st i name pw action args :
  is_field name -> is_word pw -> is_word action -> is_field args ->
  (exists rq rq',
     decode (admin_wire (pipe_form name pw action args))
       = Admin (pipe_form name pw action args) /\
     decode (admin_wire (hybrid_form name pw action args))
       = Admin (hybrid_form name pw action args) /\
     parse_admin (pipe_form name pw action args) = Some rq /\
     parse_admin (hybrid_form name pw action args) = Some rq' /\
     admin_tuple rq = (name, pw, Some action, Some args) /\
     admin_tuple rq' = (name, pw, Some action, Some args)) /\
  serve_slot st i (admin_wire (pipe_form name pw action args))
    = serve_slot st i (admin_wire (hybrid_form name pw action args)) /\
  serve_slot st i (admin_wire (pipe_form0 name pw action))
    = serve_slot st i (admin_wire (hybrid_form0 name pw action)).
Proof.
  intros Hn Hp Ha Hargs.
  pose proof (field_no_line_end _ Hn) as Ln.
  pose proof (field_no_line_end _ (proj1 Hp)) as Lp.
  pose proof (field_no_line_end _ (proj1 Ha)) as La.
  pose proof (field_no_line_end _ Hargs) as Largs.
  assert (decode (admin_wire (pipe_form name pw action args))
          = Admin (pipe_form name pw action args)) as D1.
  { apply decode_admin_wire. unfold pipe_form. rewrite !free_of_app.
    by rewrite Ln, Lp, La, Largs. }
  assert (decode (admin_wire (hybrid_form name pw action args))
          = Admin (hybrid_form name pw action args)) as D2.
  { apply decode_admin_wire. unfold hybrid_form. rewrite !free_of_app.
    by rewrite Ln, Lp, La, Largs. }
  assert (decode (admin_wire (pipe_form0 name pw action))
          = Admin (pipe_form0 name pw action)) as D3.
  { apply decode_admin_wire. unfold pipe_form0. rewrite !free_of_app.
    by rewrite Ln, Lp, La. }
  assert (decode (admin_wire (hybrid_form0 name pw action))
          = Admin (hybrid_form0 name pw action)) as D4.
  { apply decode_admin_wire. unfold hybrid_form0. rewrite !free_of_app.
    by rewrite Ln, Lp, La. }
  pose proof (parse_pipe_form name pw action args Hn (proj1 Hp) Ha) as P1.
  pose proof (parse_hybrid_form name pw action args Hn Hp Ha Hargs) as P2.
  pose proof (parse_pipe_form0 name pw action Hn (proj1 Hp) Ha) as P3.
  pose proof (parse_hybrid_form0 name pw action Hn Hp Ha) as P4.
  assert (admin_tuple (mk_admin name pw (Some action) None args)
          = (name, pw, Some action, Some args)) as T1.
  { unfold admin_tuple, admin_operand. cbn [adm_username adm_password adm_word adm_args adm_save].
    rewrite (strtok_r_end is_pipe args); [done|apply Hargs|by apply field_no_pipe]. }
  split; [|split].
  - eexists _, _. repeat split; try eassumption. done.
  - rewrite !serve_slot_decode, D1, D2. cbn [execute].
    apply (do_ADMIN_tuple _ _ _ _ _ _ P1 P2). by rewrite T1.
  - rewrite !serve_slot_decode, D3, D4. cbn [execute].
    by apply (do_ADMIN_tuple _ _ _ _ _ _ P3 P4).
Qed.

(** *** Runs *)

Lemma accepted_reachable n disk : reachable disk (accepted n disk).
Proof.
  unfold accepted. generalize (seq 0 n). intros ks.
  assert (forall st, reachable disk st ->
            reachable disk (fold_left
              (fun s k => fst (accept_and_spawn s (conn (Z.of_nat k)))) ks st)) as H.
  { induction ks as [|k ks IH]; intros st Hst; [done|].
    cbn [fold_left]. apply IH. by constructor. }
  apply H. constructor.
Qed.

Lemma run_reachable disk st steps :
  reachable disk st -> valid_run st steps = true -> reachable disk (run st steps).
Proof.
  revert st. induction steps as [|[i data] steps IH]; intros st Hst Hv; [done|].
  cbn [valid_run] in Hv. apply andb_true_iff in Hv as [Hv Hrest].
  apply andb_true_iff in Hv as [Hi Hc]. apply Nat.ltb_lt in Hi.
  cbn [run fold_left fst snd]. apply IH; [|done]. by constructor.
Qed.

(* one pass of handle_parent_messages is a sequence of such steps *)
Lemma serve_all_reachable disk ready slots st :
  Forall (fun i => (i < MAX_CLIENTS)%nat) slots ->
  reachable disk st -> reachable disk (fst (serve_all ready slots st)).
Proof.
  intros Hslots. revert st. induction Hslots as [|i slots Hi _ IH]; intros st Hst; [done|].
  cbn [serve_all]. destruct (connected (slot st i)) eqn:Hc; [|by apply IH].
  destruct (ready i) as [data|]; [|by apply IH].
  pose proof (reach_serve disk st i data Hst Hi Hc) as Hnext.
  destruct (serve_slot st i data) as [st1 out1]. cbn [fst] in Hnext.
  specialize (IH st1 Hnext).
  by destruct (serve_all ready slots st1) as [st2 out2].
Qed.

Lemma handle_parent_messages_reachable disk ready st :
  reachable disk st -> reachable disk (fst (handle_parent_messages st ready)).
Proof.
  apply serve_all_reachable. apply Forall_forall. intros i Hi.
  apply elem_of_seq in Hi. lia.
Qed.

(** *** What the tokeniser hands to the dispatch *)

Lemma free_of_cut_at stop bad s :
  (forall c, bad c = true -> stop c = true) -> free_of bad (cut_at stop s) = true.
Proof.
  intros Hsub. induction s as [|c s IH]; [done|]. cbn [cut_at].
  destruct (stop c) eqn:Hc; [done|]. cbn [free_of]. rewrite IH, andb_true_r.
  destruct (bad c) eqn:Hb; [|done]. apply Hsub in Hb. congruence.
Qed.

Lemma free_of_cut_at_keeps stop bad s :
  free_of bad s = true -> free_of bad (cut_at stop s) = true.
Proof.
  induction s as [|c s IH]; [done|]. cbn [cut_at free_of].
  rewrite andb_true_iff. intros [Hc Hs]. destruct (stop c); [done|].
  cbn [free_of]. by rewrite Hc, IH.
Qed.

Lemma buffer_is_one_line data : free_of ends_line (trim_newline (c_string data)) = true.
Proof.
  unfold trim_newline, c_string.
  assert (free_of is_nul (cut_at is_crlf (cut_at is_nul data)) = true) as Hnul.
  { apply free_of_cut_at_keeps. by apply free_of_cut_at. }
  assert (free_of is_crlf (cut_at is_crlf (cut_at is_nul data)) = true) as Hcr.
  { by apply free_of_cut_at. }
  revert Hnul Hcr. generalize (cut_at is_crlf (cut_at is_nul data)). intros s.
  induction s as [|c s IH]; [done|]. cbn [free_of]. unfold ends_line.
  rewrite !andb_true_iff, !negb_true_iff. intros [Hn Hs] [Hc Hs'].
  rewrite Hn, Hc. split; [done|]. by apply IH.
Qed.

Lemma free_of_skip_delims d bad s :
  free_of bad s = true -> free_of bad (skip_delims d s) = true.
Proof.
  induction s as [|c s IH]; [done|]. cbn [skip_delims]. intros H.
  destruct (d c); [|done]. apply IH. cbn [free_of] in H.
  by apply andb_true_iff in H as [_ H].
Qed.

Lemma span_token_spec d bad s tok rest :
  free_of bad s = true -> span_token d s = (tok, rest) ->
  free_of d tok = true /\ free_of bad tok = true /\ free_of bad rest = true.
Proof.
  revert tok rest. induction s as [|c s IH]; intros tok rest Hs Hspan.
  - by injection Hspan as <- <-.
  - cbn [span_token] in Hspan. cbn [free_of] in Hs.
    apply andb_true_iff in Hs as [Hc Hs]. destruct (d c) eqn:Hd.
    + by injection Hspan as <- <-.
    + destruct (span_token d s) as [t r] eqn:E. injection Hspan as <- <-.
      destruct (IH t r Hs eq_refl) as (H1 & H2 & H3).
      cbn [free_of]. by rewrite Hd, Hc, H1, H2.
Qed.

Lemma strtok_r_spec d bad s tok rest :
  free_of bad s = true -> strtok_r d s = (Some tok, rest) ->
  nonempty tok = true /\ free_of d tok = true /\
  free_of bad tok = true /\ free_of bad rest = true.
Proof.
  intros Hs. unfold strtok_r.
  pose proof (free_of_skip_delims d bad s Hs) as Hskip.
  assert (match skip_delims d s with
          | EmptyString => True
          | String c _ => d c = false
          end) as Hhead.
  { clear. induction s as [|c s IH]; [done|]. cbn [skip_delims].
    destruct (d c) eqn:E; [done|]. by rewrite E. }
  destruct (skip_delims d s) as [|c s'] eqn:E; [done|].
  destruct (span_token d (String c s')) as [t r] eqn:Hspan. intros [= <- <-].
  destruct (span_token_spec d bad _ _ _ Hskip Hspan) as (H1 & H2 & H3).
  split; [|done]. cbn [span_token] in Hspan. rewrite Hhead in Hspan.
  destruct (span_token d s'). by injection Hspan as <- <-.
Qed.

Lemma strtok_r_none d s rest : strtok_r d s = (None, rest) -> rest = "".
Proof.
  unfold strtok_r. destruct (skip_delims d s); [by intros [= <-]|].
  by destruct (span_token d _).
Qed.

Lemma strtok_r_field s tok rest :
  free_of ends_line s = true -> strtok_r is_pipe s = (Some tok, rest) ->
  is_field tok /\ free_of ends_line rest = true.
Proof.
  intros Hs Htok.
  destruct (strtok_r_spec is_pipe ends_line s tok rest Hs Htok) as (H1 & H2 & H3 & H4).
  split; [|done]. split; [done|].
  clear -H2 H3. induction tok as [|c t IH]; [done|]. cbn [free_of] in *.
  apply andb_true_iff in H2 as [Hp H2]. apply andb_true_iff in H3 as [He H3].
  apply negb_true_iff in Hp, He. rewrite Hp, He. by apply IH.
Qed.

(** X1: whatever bytes a worker pipe delivers, every field of the decoded
    command is non-empty and free of pipe, CR, LF and NUL; the text of an
    APPEAL is non-empty and free of CR, LF and NUL (it may contain pipes),
    and the payload handed to the ADMIN parser is a single line. *)
Theorem decoded_fields_are_clean data :
  match decode data with
  | Join uname rname => is_field uname /\ is_field rname
  | Msg uname rname message => is_field uname /\ is_field rname /\ is_field message
  | Pm from to message => is_field from /\ is_field to /\ is_field message
  | Appeal from message =>
      is_field from /\ nonempty message = true /\ free_of ends_line message = true
  | History rname => is_field rname
  | Admin save => free_of ends_line save = true
  | Unknown cmd => is_field cmd
  | Hangup | Dropped | Rooms | Quit => True
  end.
Proof.
  unfold decode. destruct (negb (nonempty data)); [done|].
  pose proof (buffer_is_one_line data) as Hbuf.
  destruct (strtok_r is_pipe (trim_newline (c_string data))) as [[cmd|] save] eqn:E0;
    [|done].
  destruct (strtok_r_field _ _ _ Hbuf E0) as [Hcmd Hsave].
  repeat (match goal with
          | |- context [if String.eqb ?a ?b then _ else _] => destruct (String.eqb a b)
          end);
  repeat (match goal with
          | H : free_of ends_line ?x = true |- context [strtok_r is_pipe ?x] =>
              let E := fresh "E" in
              destruct (strtok_r is_pipe x) as [[?|] ?] eqn:E;
              [destruct (strtok_r_field _ _ _ H E) as [? ?]
              |apply strtok_r_none in E; subst]
          end); try done.
  destruct (strtok_r is_lf s0) as [[message|] ?] eqn:Elf; [|done].
  by destruct (strtok_r_spec is_lf ends_line _ _ _ H0 Elf) as (? & _ & ? & _).
Qed.

(** *** The fixed-size arrays are never overrun *)

Lemma strlen_nonneg s : 0 <= strlen s.
Proof. unfold strlen. lia. Qed.

Lemma strlen_strn n s : 0 <= n -> strlen (strn n s) <= n.
Proof.
  revert n. induction s as [|c s IH]; intros n Hn; cbn [strn]; [by unfold strlen; simpl|].
  destruct (0 <? n) eqn:E; [|by unfold strlen; simpl].
  apply Z.ltb_lt in E. specialize (IH (n - 1) ltac:(lia)).
  unfold strlen in *. cbn [String.length]. lia.
Qed.

Lemma nonempty_strn n s : 0 < n -> nonempty (strn n s) = nonempty s.
Proof.
  intros Hn. destruct s as [|c s]; [done|]. cbn [strn].
  by apply Z.ltb_lt in Hn as ->.
Qed.

Lemma within_bounds_same st st' :
  clients st' = clients st -> rooms st' = rooms st ->
  last_appeal_msg st' = last_appeal_msg st ->
  within_bounds st -> within_bounds st'.
Proof.
  unfold within_bounds, room_count. by intros -> -> ->.
Qed.

Lemma within_bounds_update i f st :
  (forall c, name_fits (username c) /\ name_fits (room c) ->
             name_fits (username (f c)) /\ name_fits (room (f c))) ->
  within_bounds st -> within_bounds (update_slot i f st).
Proof.
  intros Hf (Hn & Hr & Hc & Ha). repeat split; try done.
  cbn [clients update_slot set_clients]. apply Forall_alter; [done|].
  intros c _. apply Hf.
Qed.

Lemma within_bounds_add_room r st :
  within_bounds st -> within_bounds (add_room_if_missing r st).
Proof.
  intros (Hn & Hr & Hc & Ha). unfold add_room_if_missing.
  destruct (negb (nonempty r)) eqn:Hne; [done|].
  destruct (existsb _ _); [done|].
  destruct (room_count st <? MAX_ROOMS)%nat eqn:E; [|done].
  apply Nat.ltb_lt in E. unfold within_bounds, room_count in *.
  cbn [rooms clients last_appeal_msg set_rooms]. rewrite length_app. cbn [length].
  split; [lia|]. split; [|done]. apply Forall_app. split; [done|].
  constructor; [|done]. split.
  - rewrite nonempty_strn by lia. by apply negb_false_iff in Hne.
  - by apply strlen_strn.
Qed.

Lemma within_bounds_broadcast r from msg st :
  within_bounds st -> within_bounds (fst (broadcast_to_room r from msg st)).
Proof.
  intros H. apply (within_bounds_same (add_room_if_missing r st)).
  - by rewrite broadcast_clients, add_room_clients.
  - by rewrite broadcast_state, append_log_rooms.
  - by rewrite broadcast_appeals, add_room_appeals.
  - by apply within_bounds_add_room.
Qed.

Lemma within_bounds_admin_action st i word rq :
  within_bounds st -> within_bounds (fst (admin_action st i word rq)).
Proof.
  intros H. unfold admin_action.
  repeat (case_match; cbn [fst]; try done;
          try (by apply within_bounds_update)).
  by apply within_bounds_broadcast.
Qed.

Lemma within_bounds_execute st i c :
  within_bounds st -> within_bounds (fst (execute st i c)).
Proof.
  intros H. destruct c; cbn [execute]; try done.
  - by apply within_bounds_update.
  - rewrite do_JOIN_state. apply within_bounds_broadcast, within_bounds_add_room.
    apply within_bounds_update; [|done]. intros c _. cbn.
    split; by apply strlen_strn.
  - unfold do_MSG. case_match; [done|by apply within_bounds_broadcast].
  - unfold do_PM. by case_match.
  - destruct H as (Hn & Hr & Hc & Ha).
    unfold do_APPEAL. repeat (case_match; cbn [fst]; try done).
    repeat split; try done. cbn [last_appeal_msg set_appeals].
    apply Forall_insert; [done|]. by apply strlen_strn.
  - unfold do_HISTORY. by case_match.
  - unfold do_ROOMS. by case_match.
  - by apply within_bounds_update.
  - unfold do_ADMIN, run_admin. repeat (case_match; cbn [fst]; try done).
    + by apply within_bounds_admin_action, within_bounds_update.
    + by apply within_bounds_update.
Qed.

Lemma within_bounds_accept st e :
  within_bounds st -> within_bounds (fst (accept_and_spawn st e)).
Proof.
  intros H. unfold accept_and_spawn.
  repeat (case_match; cbn [fst]; try done).
  apply within_bounds_update; [|done]. intros c _. by cbn.
Qed.

Lemma within_bounds_init disk : within_bounds (init_server disk).
Proof.
  apply within_bounds_add_room. unfold within_bounds, room_count.
  cbn [boot rooms clients last_appeal_msg length].
  split; [unfold MAX_ROOMS; lia|]. split; [constructor|]. split.
  - by apply Forall_replicate.
  - by apply Forall_replicate.
Qed.

Lemma reachable_within_bounds disk st : reachable disk st -> within_bounds st.
Proof.
  induction 1 as [|st e _ IH|st i data _ IH Hi Hc].
  - apply within_bounds_init.
  - by apply within_bounds_accept.
  - rewrite serve_slot_decode. by apply within_bounds_execute.
Qed.

(** X2: in every state reachable from startup the room table holds at most
    MAX_ROOMS names, each non-empty and of at most 63 bytes; every client's
    name and room are of at most 63 bytes, and every appeal record of at
    most 511 bytes.  Serving any bytes from any slot and accepting any
    connection keep it so: no message, however long, overruns a table or
    an array. *)
Theorem tables_stay_within_bounds disk st :
  reachable disk st ->
  within_bounds st /\
  (forall i data, within_bounds (fst (serve_slot st i data))) /\
  (forall e, within_bounds (fst (accept_and_spawn st e))).
Proof.
  intros Hreach. pose proof (reachable_within_bounds disk st Hreach) as Hb.
  split; [done|]. split.
  - intros i data. rewrite serve_slot_decode. by apply within_bounds_execute.
  - intros e. by apply within_bounds_accept.
Qed.

Lemma long_room_has_no_audience st r :
  within_bounds st -> 63 < strlen r -> audience r st = [].
Proof.
  intros (_ & _ & Hc & _) Hlong. unfold audience.
  destruct (String.eqb r "global") eqn:Hg.
  { apply String.eqb_eq in Hg. subst r. by vm_compute in Hlong. }
  induction Hc as [|c cs [_ Hroom] _ IH]; [done|]. cbn [List.filter].
  destruct (String.eqb (room c) r) eqn:E.
  - apply String.eqb_eq in E. unfold name_fits in Hroom. rewrite E in Hroom. lia.
  - by rewrite andb_false_r.
Qed.

(** X3: in a reachable state a broadcast to a room whose name is longer
    than 63 bytes is written to nobody, since no client's room field can
    hold that name; a JOIN to such a room is answered by the welcome
    alone, and the joiner itself is left in the room of the first 63
    bytes. *)
Theorem long_room_name_reaches_nobody disk st r :
  reachable disk st -> 63 < strlen r ->
  (forall from msg, snd (broadcast_to_room r from msg st) = []) /\
  (forall i data uname, decode data = Join uname r ->
     snd (serve_slot st i data)
     = [reply st i ("Welcome " +:+ uname +:+ " to " +:+ r +:+ String LF "")] /\
     ((i < length (clients st))%nat ->
      room (slot (fst (serve_slot st i data)) i) = strn 63 r)).
Proof.
  intros Hreach Hlong. pose proof (reachable_within_bounds disk st Hreach) as Hb.
  split.
  - intros from msg. unfold broadcast_to_room. cbn [snd].
    rewrite (audience_clients r st)
      by (by rewrite append_log_clients, add_room_clients).
    by rewrite long_room_has_no_audience.
  - intros i data uname Hd. rewrite serve_slot_decode, Hd. cbn [execute]. split.
    + unfold do_JOIN, broadcast_to_room. cbn [snd]. fold (joined i uname r st).
      rewrite (audience_clients r (joined i uname r st))
        by (by rewrite append_log_clients, !add_room_clients).
      rewrite long_room_has_no_audience; [|by apply within_bounds_update;
        [intros c _; cbn; split; by apply strlen_strn|]|done].
      cbn [map]. f_equal. unfold reply. f_equal.
      transitivity (to_child_fd (slot (joined i uname r st) i)).
      * unfold slot. by rewrite add_room_clients.
      * by apply (slot_update_field to_child_fd).
    + intros Hi. rewrite do_JOIN_state. unfold slot.
      rewrite broadcast_clients, add_room_clients.
      fold (slot (joined i uname r st) i). unfold joined.
      by rewrite slot_update_same.
Qed.

(** *** JOIN *)

Lemma do_JOIN_clients st i uname rname :
  clients (fst (do_JOIN st i uname rname))
  = alter (with_name_room (strn 63 uname) (strn 63 rname)) i (clients st).
Proof. by rewrite do_JOIN_state, broadcast_clients, add_room_clients. Qed.

Lemma do_JOIN_appeals st i uname rname :
  last_appeal_msg (fst (do_JOIN st i uname rname)) = last_appeal_msg st.
Proof. by rewrite do_JOIN_state, broadcast_appeals, add_room_appeals. Qed.

Lemma slot_of_clients st st' i : clients st' = clients st -> slot st' i = slot st i.
Proof. unfold slot. by intros ->. Qed.

(** X4: a JOIN read from slot i overwrites the name and the room of slot i
    with the first 63 bytes of its two fields and touches no other field
    and no other slot; of two JOINs in a row only the second one shows
    (last write wins), and the appeal records are untouched. *)
Theorem join_is_last_write_wins st i d1 d2 u1 r1 u2 r2 :
  (i < length (clients st))%nat ->
  decode d1 = Join u1 r1 -> decode d2 = Join u2 r2 ->
  let st1 := fst (serve_slot st i d1) in
  let st2 := fst (serve_slot st1 i d2) in
  slot st1 i = with_name_room (strn 63 u1) (strn 63 r1) (slot st i) /\
  slot st2 i = with_name_room (strn 63 u2) (strn 63 r2) (slot st i) /\
  (forall j, j <> i -> slot st2 j = slot st j) /\
  last_appeal_msg st2 = last_appeal_msg st.
Proof.
  intros Hi H1 H2 st1 st2.
  assert (clients st1 = alter (with_name_room (strn 63 u1) (strn 63 r1)) i (clients st))
    as C1 by (unfold st1; by rewrite serve_slot_decode, H1; apply do_JOIN_clients).
  assert (clients st2 = alter (with_name_room (strn 63 u2) (strn 63 r2)) i (clients st1))
    as C2 by (unfold st2; by rewrite serve_slot_decode, H2; apply do_JOIN_clients).
  assert (slot st1 i = with_name_room (strn 63 u1) (strn 63 r1) (slot st i)) as S1.
  { unfold slot. rewrite C1, list_lookup_alter_eq.
    by destruct (lookup_lt_is_Some_2 _ _ Hi) as [c ->]. }
  split; [done|]. split; [|split].
  - unfold slot at 1. rewrite C2, list_lookup_alter_eq.
    assert (i < length (clients st1))%nat as Hi1 by (by rewrite C1, length_alter).
    destruct (lookup_lt_is_Some_2 _ _ Hi1) as [c Hc]. rewrite Hc. cbn.
    apply slot_lookup in Hc. rewrite S1 in Hc. by subst c.
  - intros j Hj. unfold slot. by rewrite C2, C1, !list_lookup_alter_ne.
  - unfold st2, st1. rewrite !serve_slot_decode, H1, H2. cbn [execute].
    by rewrite !do_JOIN_appeals.
Qed.

(** *** The admin flag *)

Lemma is_admin_update st i f j :
  (forall c, is_admin c = true -> is_admin (f c) = true) ->
  is_admin (slot st j) = true -> is_admin (slot (update_slot i f st) j) = true.
Proof.
  intros Hf. unfold slot, update_slot. cbn [clients set_clients].
  destruct (decide (i = j)) as [->|Hne].
  - rewrite list_lookup_alter_eq. destruct (clients st !! j); cbn; [apply Hf|done].
  - by rewrite list_lookup_alter_ne.
Qed.

Lemma is_admin_execute st i c j :
  is_admin (slot st j) = true -> is_admin (slot (fst (execute st i c)) j) = true.
Proof.
  intros H. destruct c; cbn [execute]; try done.
  - by apply is_admin_update.
  - rewrite (slot_of_clients (joined i uname rname st));
      [by apply is_admin_update|].
    by rewrite do_JOIN_clients.
  - unfold do_MSG. case_match; [done|].
    by rewrite (slot_of_clients st) by apply broadcast_clients.
  - unfold do_PM. by case_match.
  - unfold do_APPEAL. by repeat (case_match; cbn [fst]; try done).
  - unfold do_HISTORY. by case_match.
  - unfold do_ROOMS. by case_match.
  - by apply is_admin_update.
  - unfold do_ADMIN, run_admin. repeat (case_match; cbn [fst]; try done).
    + rewrite admin_action_is_admin. by apply is_admin_update.
    + by apply is_admin_update.
Qed.

(** X5: the is_admin flag of a slot is never cleared: no control message
    and no accept resets it, not even the QUIT or KICK that frees the slot.
    So when accept_and_spawn fills a free slot whose flag is set, the new,
    nameless client is an admin without having sent any password, and
    receives the appeals. *)
Theorem admin_flag_is_never_cleared st j :
  is_admin (slot st j) = true ->
  (forall i data, is_admin (slot (fst (serve_slot st i data)) j) = true) /\
  (forall e, is_admin (slot (fst (accept_and_spawn st e)) j) = true) /\
  (forall e p2c0 p2c1 c2p0 c2p1 cpid,
     0 <= ns e -> pipes e = Some (p2c0, p2c1, c2p0, c2p1) -> child e = Some cpid ->
     find_free_slot st = Some j ->
     slot (fst (accept_and_spawn st e)) j = mk_client cpid p2c1 c2p0 "" "" true false true /\
     In (j, slot (fst (accept_and_spawn st e)) j)
        (admins_online (fst (accept_and_spawn st e)))).
Proof.
  intros Hadm. split; [|split].
  - intros i data. rewrite serve_slot_decode. by apply is_admin_execute.
  - intros e. unfold accept_and_spawn. repeat (case_match; cbn [fst]; try done).
    by apply is_admin_update.
  - intros e p2c0 p2c1 c2p0 c2p1 cpid Hns Hp Hc Hfree.
    assert ((ns e <? 0) = false) as Hnsb by (apply Z.ltb_ge; lia).
    unfold accept_and_spawn. rewrite Hnsb, Hfree, Hp, Hc. cbn [fst].
    pose proof (find_index_lt _ _ _ Hfree) as Hj.
    assert (slot (update_slot j
              (fun c => mk_client cpid p2c1 c2p0 "" "" true false (is_admin c)) st) j
            = mk_client cpid p2c1 c2p0 "" "" true false true) as Hslot.
    { rewrite slot_update_same by done. by rewrite Hadm. }
    split; [done|]. apply admins_online_In. rewrite Hslot. split; [|done].
    cbn [clients update_slot set_clients]. rewrite list_lookup_alter_eq.
    destruct (lookup_lt_is_Some_2 _ _ Hj) as [c Hc']. rewrite Hc'. cbn.
    apply slot_lookup in Hc'. subst c. by rewrite Hadm.
Qed.

(** *** Leaving: QUIT, a closed pipe, KICK *)

Lemma count_alter_off {A} (p : A -> bool) (f : A -> A) i (l : list A) x :
  l !! i = Some x -> p x = true -> p (f x) = false ->
  length (List.filter p l) = S (length (List.filter p (alter f i l))).
Proof.
  revert i. induction l as [|y l IH]; intros [|i] Hx Hp Hf; try done.
  - injection Hx as ->. cbn. by rewrite Hp, Hf.
  - simpl in Hx. specialize (IH i Hx Hp Hf). unfold alter in IH. simpl.
    destruct (p y); simpl; by rewrite IH.
Qed.

Lemma count_alter_on {A} (p : A -> bool) (f : A -> A) i (l : list A) x :
  l !! i = Some x -> p x = false -> p (f x) = true ->
  length (List.filter p (alter f i l)) = S (length (List.filter p l)).
Proof.
  revert i. induction l as [|y l IH]; intros [|i] Hx Hp Hf; try done.
  - injection Hx as ->. cbn. by rewrite Hp, Hf.
  - simpl in Hx. specialize (IH i Hx Hp Hf). unfold alter in IH. simpl.
    destruct (p y); simpl; by rewrite IH.
Qed.

Lemma find_index_le {A} (p : A -> bool) (l : list A) i x :
  l !! i = Some x -> p x = true -> exists k, find_index p l = Some k /\ (k <= i)%nat.
Proof.
  intros Hx Hp. destruct (find_index p l) as [k|] eqn:E.
  - exists k. split; [done|]. apply find_index_Some in E as [_ Hfirst].
    destruct (decide (k <= i)%nat) as [|Hgt]; [done|].
    specialize (Hfirst i x ltac:(lia) Hx). congruence.
  - pose proof (proj1 (find_index_None p l) E i x Hx). congruence.
Qed.

(** X6: when the pipe of a connected slot i reports end of file (its
    worker has exited), both descriptors of the slot are closed and nothing
    is written, the slot alone becomes free, the connected count drops by
    one, and the next accept finds a free slot at an index not above i;
    rooms, logs and appeal records stay as they are. *)
Theorem end_of_file_frees_the_slot st i data :
  decode data = Hangup ->
  (i < length (clients st))%nat -> connected (slot st i) = true ->
  let st' := fst (serve_slot st i data) in
  serve_slot st i data
  = (update_slot i (with_connected false) st,
     [Close (from_child_fd (slot st i)); Close (to_child_fd (slot st i))]) /\
  connected (slot st' i) = false /\
  (forall j, j <> i -> slot st' j = slot st j) /\
  rooms st' = rooms st /\ files st' = files st /\
  last_appeal_msg st' = last_appeal_msg st /\
  connected_count st = S (connected_count st') /\
  (exists k, find_free_slot st' = Some k /\ (k <= i)%nat).
Proof.
  intros Hd Hi Hc st'.
  assert (serve_slot st i data
          = (update_slot i (with_connected false) st,
             [Close (from_child_fd (slot st i)); Close (to_child_fd (slot st i))]))
    as Hserve by (by rewrite serve_slot_decode, Hd).
  destruct (lookup_lt_is_Some_2 _ _ Hi) as [c Hlook].
  pose proof (slot_lookup _ _ _ Hlook) as Hslot. rewrite Hslot in Hc.
  split; [done|]. unfold st'. rewrite Hserve. cbn [fst].
  split; [by rewrite slot_update_same|]. split.
  { intros j Hj. by rewrite slot_update_other. }
  do 3 (split; [done|]). split.
  - unfold connected_count. cbn [clients update_slot set_clients].
    by apply (count_alter_off _ _ _ _ c).
  - unfold find_free_slot. cbn [clients update_slot set_clients].
    apply (find_index_le _ _ i (with_connected false c)); [|done].
    by rewrite list_lookup_alter_eq, Hlook.
Qed.

(** X7: an authenticated KICK of a name disconnects the first connected
    client bearing it: that client is told "You have been kicked by
    admin", both its descriptors are closed and its slot is freed, so the
    name no longer resolves to that slot; when no connected client bears
    the name the requester is told "User not found" and only its own
    admin grant changes the state. *)
Theorem kick_disconnects_first_named st a data u :
  admin_command data "KICK" u ->
  let st' := fst (serve_slot st a data) in
  match find_client_by_name u st with
  | Some j =>
      serve_slot st a data
      = (update_slot j (with_connected false) (update_slot a (with_admin true) st),
         [writef (to_child_fd (slot st j)) ("You have been kicked by admin" +:+ String LF "");
          Close (from_child_fd (slot st j)); Close (to_child_fd (slot st j))]) /\
      connected (slot st' j) = false /\
      find_client_by_name u st' <> Some j
  | None =>
      serve_slot st a data
      = (update_slot a (with_admin true) st, [reply st a ("User not found" +:+ String LF "")])
  end.
Proof.
  intros (save & rq & Hd & Hp & Hpw & Hw & Hop) st'.
  assert (serve_slot st a data
          = admin_action (update_slot a (with_admin true) st) a "KICK" rq) as Hserve.
  { rewrite serve_slot_decode, Hd. cbn [execute]. unfold do_ADMIN. rewrite Hp.
    unfold run_admin. by rewrite Hpw, String.eqb_refl, Hw. }
  unfold st'. rewrite Hserve. unfold admin_action.
  change (String.eqb "KICK" "KICK") with true. cbn iota.
  rewrite Hop, find_client_update by done.
  destruct (find_client_by_name u st) as [j|] eqn:Hj.
  - pose proof (find_index_lt _ _ _ Hj) as Hlt.
    assert (forall g : client_t -> Z,
              (forall c, g (with_admin true c) = g c) ->
              g (slot (update_slot a (with_admin true) st) j) = g (slot st j)) as Hfd.
    { intros g Hg. by apply (slot_update_field g). }
    split.
    { unfold reply. by rewrite !Hfd. }
    cbn [fst].
    assert (connected (slot (update_slot j (with_connected false)
                               (update_slot a (with_admin true) st)) j) = false) as Hoff.
    { rewrite slot_update_same; [done|].
      cbn [clients update_slot set_clients]. by rewrite length_alter. }
    split; [done|]. intros Hstill.
    apply find_client_by_name_Some in Hstill as [[c [Hc [Hcon _]]] _].
    apply slot_lookup in Hc. rewrite Hc in Hoff. congruence.
  - f_equal. f_equal. unfold reply. f_equal. by apply (slot_update_field to_child_fd).
Qed.

(** *** What a message can change *)

Lemma files_update_slot i f st : files (update_slot i f st) = files st.
Proof. done. Qed.

(** X8: private messages, appeals, history and room listings, unknown
    commands and dropped messages never touch a log file or the room
    table; PM, HISTORY, ROOMS, unknown and dropped messages leave the whole
    broker state as it was, and a MSG from a muted slot does too. *)
Theorem only_room_traffic_is_logged st i data :
  let st' := fst (serve_slot st i data) in
  match decode data with
  | Pm _ _ _ | History _ | Rooms | Unknown _ | Dropped => st' = st
  | Appeal _ _ =>
      files st' = files st /\ rooms st' = rooms st /\ clients st' = clients st
  | Quit | Hangup =>
      files st' = files st /\ rooms st' = rooms st /\
      last_appeal_msg st' = last_appeal_msg st
  | Msg _ _ _ => muted (slot st i) = true -> st' = st
  | Join _ _ | Admin _ => True
  end.
Proof.
  intros st'. unfold st'. rewrite serve_slot_decode.
  destruct (decode data); cbn [execute]; try done.
  - unfold do_MSG. by intros ->.
  - unfold do_PM. by case_match.
  - unfold do_APPEAL. by repeat (case_match; cbn [fst]).
  - unfold do_HISTORY. by case_match.
  - unfold do_ROOMS. by case_match.
Qed.

(** *** The log files *)

Lemma files_grow_refl f : files_grow f f.
Proof. intros path old H. exists "". by rewrite append_nil_r. Qed.

Lemma files_grow_trans f1 f2 f3 : files_grow f1 f2 -> files_grow f2 f3 -> files_grow f1 f3.
Proof.
  intros H12 H23 path old H. destruct (H12 path old H) as [m1 H1].
  destruct (H23 path _ H1) as [m2 H2]. exists (m1 +:+ m2). by rewrite <- append_assoc.
Qed.

Lemma files_grow_append r m st : files_grow (files st) (files (append_room_log r m st)).
Proof.
  unfold append_room_log. destruct (open_append (log_path r)); [|apply files_grow_refl].
  cbn [files set_files]. intros path old H.
  destruct (decide (log_path r = path)) as [<-|Hne].
  - rewrite lookup_insert_eq, H. by eexists.
  - rewrite lookup_insert_ne by done. exists "". by rewrite append_nil_r.
Qed.

Lemma files_grow_broadcast r from msg st :
  files_grow (files st) (files (fst (broadcast_to_room r from msg st))).
Proof.
  rewrite broadcast_state. rewrite <- (add_room_files r st) at 1. apply files_grow_append.
Qed.

Lemma files_grow_execute st i c : files_grow (files st) (files (fst (execute st i c))).
Proof.
  destruct c; cbn [execute]; try apply files_grow_refl.
  - rewrite do_JOIN_state.
    eapply files_grow_trans; [|apply files_grow_broadcast].
    rewrite add_room_files. apply files_grow_refl.
  - unfold do_MSG. case_match; [apply files_grow_refl|apply files_grow_broadcast].
  - unfold do_PM. case_match; apply files_grow_refl.
  - unfold do_APPEAL. repeat (case_match; cbn [fst]); apply files_grow_refl.
  - unfold do_HISTORY. case_match; apply files_grow_refl.
  - unfold do_ROOMS. case_match; apply files_grow_refl.
  - unfold do_ADMIN, run_admin. repeat (case_match; cbn [fst]; try apply files_grow_refl).
    unfold admin_action.
    repeat (case_match; cbn [fst]; try apply files_grow_refl).
    apply (files_grow_broadcast "global" "admin" _ (update_slot i (with_admin true) st)).
Qed.

Lemma files_accept st e : files (fst (accept_and_spawn st e)) = files st.
Proof. unfold accept_and_spawn. by repeat case_match. Qed.

(** X9: the log files are append-only.  Whatever message is served, every
    log file is still there afterwards with its previous contents as a
    prefix; hence in every reachable state each file found on disk at
    startup still begins with the bytes it had then. *)
Theorem logs_are_append_only disk st :
  reachable disk st ->
  files_grow disk (files st) /\
  (forall i data, files_grow (files st) (files (fst (serve_slot st i data)))) /\
  (forall e, files (fst (accept_and_spawn st e)) = files st).
Proof.
  intros Hreach. split; [|split].
  - induction Hreach as [|st e _ IH|st i data _ IH Hi Hc].
    + unfold init_server. rewrite add_room_files. apply files_grow_refl.
    + by rewrite files_accept.
    + eapply files_grow_trans; [exact IH|]. rewrite serve_slot_decode.
      apply files_grow_execute.
  - intros i data. rewrite serve_slot_decode. apply files_grow_execute.
  - apply files_accept.
Qed.

Lemma read_loop_chunks fuel content :
  Forall (fun chunk => 0 < strlen chunk <= 1024) (read_loop fuel content).
Proof.
  revert content. induction fuel as [|fuel IH]; intros content; [constructor|].
  cbn [read_loop]. destruct (nonempty content) eqn:Hne; [|constructor].
  constructor; [|apply IH]. split; [|by apply strlen_strn].
  destruct content as [|c content]; [done|]. cbn [strn].
  change (0 <? 1024) with true. cbn iota. unfold strlen. cbn [String.length]. lia.
Qed.

(** X10: HISTORY of a room whose log file exists streams the whole file,
    whatever it holds (also lines of an earlier run): the writes go to the
    requester only, each carries between 1 and 1024 bytes, together they
    are the file byte for byte, and nothing is written for an empty file.
    The broker state is unchanged. *)
Theorem history_streams_the_file st i data r content :
  decode data = History r -> files st !! log_path r = Some content ->
  exists chunks,
    serve_slot st i data = (st, map (Write (to_child_fd (slot st i))) chunks) /\
    join chunks = content /\
    Forall (fun chunk => 0 < strlen chunk <= 1024) chunks /\
    (content = "" -> chunks = []).
Proof.
  intros Hd Hfile. exists (read_file content).
  rewrite serve_slot_decode, Hd. cbn [execute]. unfold do_HISTORY. rewrite Hfile.
  split; [done|]. split; [apply read_file_join|]. split; [apply read_loop_chunks|].
  by intros ->.
Qed.

(** X11: a chat line is logged as it is delivered.  After a MSG from a slot
    that is not muted, with the log of its room openable, a HISTORY of that
    room streams the previous contents of the log followed by exactly the
    line that was written to the room, and a newline. *)
Theorem message_shows_in_history st i j dmsg dhist uname r text :
  decode dmsg = Msg uname r text -> muted (slot st i) = false ->
  open_append (log_path r) = true -> decode dhist = History r ->
  let st' := fst (serve_slot st i dmsg) in
  let delivered := broadcast_line r uname text in
  snd (serve_slot st i dmsg)
  = map (fun c => writef (to_child_fd c) (delivered +:+ String LF "")) (audience r st) /\
  exists chunks,
    serve_slot st' j dhist = (st', map (Write (to_child_fd (slot st' j))) chunks) /\
    join chunks
    = default "" (files st !! log_path r) +:+ delivered +:+ String LF "".
Proof.
  intros Hmsg Hmuted Hopen Hhist st' delivered.
  assert (serve_slot st i dmsg = broadcast_to_room r uname text st) as Hserve.
  { rewrite serve_slot_decode, Hmsg. cbn [execute]. unfold do_MSG. by rewrite Hmuted. }
  split.
  - rewrite Hserve. unfold broadcast_to_room. cbn [snd]. f_equal.
    apply audience_clients. by rewrite append_log_clients, add_room_clients.
  - assert (files st' !! log_path r
            = Some (default "" (files st !! log_path r) +:+ delivered +:+ String LF ""))
      as Hfile.
    { unfold st'. rewrite Hserve, broadcast_state. unfold append_room_log.
      rewrite Hopen. cbn [files set_files]. rewrite lookup_insert_eq.
      by rewrite add_room_files. }
    exists (read_file (default "" (files st !! log_path r) +:+ delivered +:+ String LF "")).
    rewrite serve_slot_decode, Hhist. cbn [execute]. unfold do_HISTORY. rewrite Hfile.
    split; [done|apply read_file_join].
Qed.

(** *** accept_and_spawn *)

(** X12: accept_and_spawn either changes nothing or connects exactly one
    client.  A failed accept does nothing at all; with a free slot, a
    failing pipe() or fork() only closes the new socket; on success the
    connected count grows by one and the parent closes its two unused pipe
    ends, writes the greeting into the pipe of the new slot and closes the
    socket, in that order. *)
Theorem accept_connects_one_or_none st e k :
  find_free_slot st = Some k ->
  (ns e < 0 -> accept_and_spawn st e = (st, [])) /\
  (0 <= ns e -> pipes e = None \/ child e = None ->
     accept_and_spawn st e = (st, [Close (ns e)])) /\
  (forall p2c0 p2c1 c2p0 c2p1 cpid,
     0 <= ns e -> pipes e = Some (p2c0, p2c1, c2p0, c2p1) -> child e = Some cpid ->
     connected_count (fst (accept_and_spawn st e)) = S (connected_count st) /\
     snd (accept_and_spawn st e)
     = [Close p2c0; Close c2p1;
        Write p2c1 ("Welcome to MultiChat! Use /nick, /join, /pm, /rooms" +:+ String LF "");
        Close (ns e)]).
Proof.
  intros Hfree. unfold accept_and_spawn. split; [|split].
  - intros Hns. by apply Z.ltb_lt in Hns as ->.
  - intros Hns Hfail. apply Z.ltb_ge in Hns. rewrite Hns, Hfree.
    destruct Hfail as [-> | ->]; [done|]. by destruct (pipes e) as [[[[? ?] ?] ?]|].
  - intros p2c0 p2c1 c2p0 c2p1 cpid Hns Hp Hc. apply Z.ltb_ge in Hns.
    rewrite Hns, Hfree, Hp, Hc. cbn [fst snd]. split; [|done].
    unfold find_free_slot in Hfree.
    apply find_index_Some in Hfree as [[c [Hlook Hoff]] _].
    unfold connected_count. cbn [clients update_slot set_clients].
    apply (count_alter_on _ _ _ _ c); [done| |done].
    by apply negb_true_iff in Hoff.
Qed.

(** *** add_room_if_missing *)

Lemma existsb_eqb_In r (l : list string) :
  existsb (fun x => String.eqb x r) l = true <-> In r l.
Proof.
  rewrite existsb_exists. split.
  - intros [x [Hin Heq]]. apply String.eqb_eq in Heq. by subst.
  - intros Hin. exists r. by rewrite String.eqb_refl.
Qed.

Lemma existsb_eqb_long r (l : list string) :
  Forall (fun x => nonempty x = true /\ name_fits x) l -> 63 < strlen r ->
  existsb (fun x => String.eqb x r) l = false.
Proof.
  intros Hl Hlong. destruct (existsb _ l) eqn:E; [|done].
  apply existsb_eqb_In in E. apply list_elem_of_In in E.
  pose proof (proj1 (Forall_forall _ _) Hl r E) as [_ Hfit]. unfold name_fits in Hfit. lia.
Qed.

(** X13: a non-empty room name of at most 63 bytes is registered once: while
    the table has room, add_room_if_missing leaves the name in the table,
    appends it only when it was absent, and a second call changes
    nothing.  A name longer than 63 bytes is stored as its first 63 bytes
    and never matches the stored copy, so every further reference appends
    the same 63 bytes again until the table is full. *)
Theorem room_registration st r :
  within_bounds st -> nonempty r = true ->
  (strlen r <= 63 ->
     add_room_if_missing r (add_room_if_missing r st) = add_room_if_missing r st /\
     (In r (rooms st) -> add_room_if_missing r st = st) /\
     (~ In r (rooms st) -> (room_count st < MAX_ROOMS)%nat ->
        rooms (add_room_if_missing r st) = rooms st ++ [r])) /\
  (63 < strlen r -> (room_count st + 2 <= MAX_ROOMS)%nat ->
     rooms (add_room_if_missing r (add_room_if_missing r st))
     = rooms st ++ [strn 63 r; strn 63 r]).
Proof.
  intros Hb Hne. split.
  - intros Hshort.
    assert (In r (rooms st) -> add_room_if_missing r st = st) as Hpresent.
    { intros Hin. unfold add_room_if_missing. rewrite Hne. cbn [negb].
      by rewrite (proj2 (existsb_eqb_In r (rooms st)) Hin). }
    assert (~ In r (rooms st) -> (room_count st < MAX_ROOMS)%nat ->
            add_room_if_missing r st = set_rooms (rooms st ++ [r]) st) as Habsent.
    { intros Hnot Hroom. unfold add_room_if_missing. rewrite Hne. cbn [negb].
      destruct (existsb _ (rooms st)) eqn:E; [by apply existsb_eqb_In in E|].
      apply Nat.ltb_lt in Hroom. by rewrite Hroom, strn_all. }
    split; [|split; [done|]].
    + destruct (in_dec string_dec r (rooms st)) as [Hin|Hnot].
      { by rewrite !(Hpresent Hin). }
      destruct (decide (room_count st < MAX_ROOMS)%nat) as [Hroom|Hfull].
      * rewrite (Habsent Hnot Hroom). unfold add_room_if_missing at 1.
        rewrite Hne. cbn [negb rooms set_rooms].
        assert (existsb (fun x => String.eqb x r) (rooms st ++ [r]) = true) as ->; [|done].
        apply existsb_eqb_In, in_app_iff. right. by left.
      * rewrite (add_room_full r st) by lia. apply add_room_full. lia.
    + intros Hnot Hroom. by rewrite (Habsent Hnot Hroom).
  - intros Hlong Hroom.
    assert (forall s, within_bounds s -> (room_count s < MAX_ROOMS)%nat ->
              add_room_if_missing r s = set_rooms (rooms s ++ [strn 63 r]) s) as Hadd.
    { intros s (_ & Hr & _) Hlt. unfold add_room_if_missing. rewrite Hne. cbn [negb].
      rewrite existsb_eqb_long by done. by apply Nat.ltb_lt in Hlt as ->. }
    rewrite (Hadd st Hb) by lia. rewrite Hadd.
    + cbn [rooms set_rooms]. by rewrite <- app_assoc.
    + rewrite <- (Hadd st Hb) by lia. by apply within_bounds_add_room.
    + unfold room_count in *. cbn [rooms set_rooms]. rewrite length_app. cbn [length]. lia.
Qed.

(** *** One pass of handle_parent_messages *)

Lemma serve_all_app ready l1 l2 st :
  serve_all ready (l1 ++ l2) st
  = let '(st1, out1) := serve_all ready l1 st in
    let '(st2, out2) := serve_all ready l2 st1 in (st2, out1 ++ out2).
Proof.
  revert st. induction l1 as [|i l1 IH]; intros st.
  - cbn [app serve_all]. by destruct (serve_all ready l2 st).
  - cbn [app serve_all]. destruct (connected (slot st i)); [|apply IH].
    destruct (ready i) as [data|]; [|apply IH].
    destruct (serve_slot st i data) as [st1 out1]. rewrite IH.
    destruct (serve_all ready l1 st1) as [st2 out2].
    destruct (serve_all ready l2 st2) as [st3 out3]. by rewrite app_assoc.
Qed.

Lemma serve_all_idle ready l st :
  Forall (fun k => ready k = None) l -> serve_all ready l st = (st, []).
Proof.
  induction 1 as [|k l Hk _ IH]; [done|]. cbn [serve_all]. rewrite Hk, IH.
  by destruct (connected (slot st k)).
Qed.

Lemma serve_all_one ready i st data :
  ready i = Some data -> connected (slot st i) = true ->
  serve_all ready [i] st = serve_slot st i data.
Proof.
  intros Hr Hc. cbn [serve_all]. rewrite Hc, Hr.
  destruct (serve_slot st i data) as [st1 out1]. by rewrite app_nil_r.
Qed.

Lemma seq_split_two a j n :
  (a < j)%nat -> (j < n)%nat ->
  seq 0 n = seq 0 a ++ [a] ++ seq (S a) (j - S a) ++ [j] ++ seq (S j) (n - S j).
Proof.
  intros Haj Hjn.
  replace n with (a + (1 + ((j - S a) + (1 + (n - S j)))))%nat at 1 by lia.
  rewrite !seq_app. cbn [seq app Nat.add].
  replace (0 + a)%nat with a by lia.
  replace (a + 1)%nat with (S a) by lia.
  replace (S a + (j - S a))%nat with j by lia.
  by replace (j + 1)%nat with (S j) by lia.
Qed.

Lemma serve_admin_kick st a data u j :
  admin_command data "KICK" u -> find_client_by_name u st = Some j ->
  fst (serve_slot st a data)
  = update_slot j (with_connected false) (update_slot a (with_admin true) st).
Proof.
  intros (save & rq & Hd & Hp & Hpw & Hw & Hop) Hj.
  rewrite serve_slot_decode, Hd. cbn [execute]. unfold do_ADMIN. rewrite Hp.
  unfold run_admin. rewrite Hpw, String.eqb_refl, Hw. cbn [negb].
  unfold admin_action. change (String.eqb "KICK" "KICK") with true. cbn iota.
  by rewrite Hop, find_client_update, Hj.
Qed.

(** X14: one pass of handle_parent_messages serves the ready slots in slot
    order and tests the connected flag when it reaches a slot.  With
    exactly two ready, connected slots a < j: a is served first, and j is
    served in the resulting state only if it is still connected there; so
    when a's message is an authenticated KICK that resolves to j, the
    message waiting from j is never served. *)
Theorem pass_serves_in_slot_order st ready a j da dj u :
  (a < j)%nat -> (j < MAX_CLIENTS)%nat ->
  connected (slot st a) = true ->
  ready a = Some da -> ready j = Some dj ->
  (forall k, k <> a -> k <> j -> ready k = None) ->
  handle_parent_messages st ready
  = (let '(st1, out1) := serve_slot st a da in
     if connected (slot st1 j)
     then let '(st2, out2) := serve_slot st1 j dj in (st2, out1 ++ out2)
     else (st1, out1)) /\
  (admin_command da "KICK" u -> find_client_by_name u st = Some j ->
   handle_parent_messages st ready = serve_slot st a da).
Proof.
  intros Haj Hj Hca Hra Hrj Hidle.
  assert (forall lo n, (forall k, In k (seq lo n) -> k <> a /\ k <> j) ->
            Forall (fun k => ready k = None) (seq lo n)) as Hquiet.
  { intros lo n Hk. apply Forall_forall. intros k Hin%list_elem_of_In.
    destruct (Hk k Hin). by apply Hidle. }
  assert (handle_parent_messages st ready
          = (let '(st1, out1) := serve_slot st a da in
             if connected (slot st1 j)
             then let '(st2, out2) := serve_slot st1 j dj in (st2, out1 ++ out2)
             else (st1, out1))) as Hpass.
  { unfold handle_parent_messages. rewrite (seq_split_two a j MAX_CLIENTS Haj Hj).
    rewrite serve_all_app, serve_all_idle
      by (apply Hquiet; intros k Hin%in_seq; lia).
    rewrite serve_all_app, (serve_all_one ready a st da Hra Hca).
    destruct (serve_slot st a da) as [st1 out1].
    rewrite serve_all_app, serve_all_idle
      by (apply Hquiet; intros k Hin%in_seq; lia).
    rewrite serve_all_app.
    cbn [serve_all]. rewrite Hrj. destruct (connected (slot st1 j)).
    - destruct (serve_slot st1 j dj) as [st2 out2].
      rewrite serve_all_idle by (apply Hquiet; intros k Hin%in_seq; lia).
      cbn [app]. by rewrite !app_nil_r.
    - rewrite serve_all_idle by (apply Hquiet; intros k Hin%in_seq; lia).
      cbn [app]. by rewrite app_nil_r. }
  split; [exact Hpass|]. intros Hkick Hfind. rewrite Hpass.
  pose proof (serve_admin_kick st a da u j Hkick Hfind) as Hst1.
  destruct (serve_slot st a da) as [st1 out1]. cbn [fst] in Hst1.
  assert (connected (slot st1 j) = false) as ->; [|done].
  rewrite Hst1. rewrite slot_update_same; [done|].
  cbn [clients update_slot set_clients]. rewrite length_alter.
  by apply find_index_lt in Hfind.
Qed.

(** *** Control messages: what is written is what is decoded *)

Lemma trim_line s :
  free_of ends_line s = true -> trim_newline (c_string (s +:+ String LF "")) = s.
Proof.
  intros Hfree. unfold c_string. rewrite cut_at_free.
  - unfold trim_newline. apply cut_at_stop; [|done].
    revert Hfree. apply free_of_weaken. intros c. unfold ends_line. by intros ->.
  - rewrite free_of_app. apply andb_true_iff. split; [|done].
    revert Hfree. apply free_of_weaken. intros c. unfold ends_line. intros ->.
    apply orb_true_r.
Qed.

Lemma nonempty_app_l a b : nonempty a = true -> nonempty (a +:+ b) = true.
Proof. by destruct a. Qed.

Lemma decode_join_line u r :
  is_field u -> is_field r ->
  decode ("JOIN|" +:+ u +:+ "|" +:+ r +:+ String LF "") = Join u r.
Proof.
  intros Hu Hr. unfold decode.
  change (negb (nonempty ("JOIN|" +:+ u +:+ "|" +:+ r +:+ String LF ""))) with false.
  cbn iota.
  assert (trim_newline (c_string ("JOIN|" +:+ u +:+ "|" +:+ r +:+ String LF ""))
          = "JOIN|" +:+ u +:+ "|" +:+ r) as ->.
  { rewrite <- (trim_line ("JOIN|" +:+ u +:+ "|" +:+ r)).
    - by rewrite !append_assoc.
    - rewrite !free_of_app.
      by rewrite (field_no_line_end u), (field_no_line_end r). }
  assert (strtok_r is_pipe ("JOIN|" +:+ u +:+ "|" +:+ r) = (Some "JOIN", u +:+ "|" +:+ r))
    as -> by (by apply (strtok_r_stop is_pipe "JOIN" "|")).
  change (String.eqb "JOIN" "JOIN") with true. cbn iota.
  rewrite append_char.
  rewrite (strtok_r_stop is_pipe u) by (try apply field_no_pipe; by try apply Hu).
  by rewrite (strtok_r_end is_pipe r) by (try apply field_no_pipe; by try apply Hr).
Qed.

Lemma decode_msg_line u r m :
  is_field u -> is_field r -> is_field m ->
  decode ("MSG|" +:+ u +:+ "|" +:+ r +:+ "|" +:+ m +:+ String LF "") = Msg u r m.
Proof.
  intros Hu Hr Hm. unfold decode.
  change (negb (nonempty ("MSG|" +:+ u +:+ "|" +:+ r +:+ "|" +:+ m +:+ String LF "")))
    with false.
  cbn iota.
  assert (trim_newline (c_string ("MSG|" +:+ u +:+ "|" +:+ r +:+ "|" +:+ m +:+ String LF ""))
          = "MSG|" +:+ u +:+ "|" +:+ r +:+ "|" +:+ m) as ->.
  { rewrite <- (trim_line ("MSG|" +:+ u +:+ "|" +:+ r +:+ "|" +:+ m)).
    - by rewrite !append_assoc.
    - rewrite !free_of_app.
      by rewrite (field_no_line_end u), (field_no_line_end r), (field_no_line_end m). }
  assert (strtok_r is_pipe ("MSG|" +:+ u +:+ "|" +:+ r +:+ "|" +:+ m)
          = (Some "MSG", u +:+ "|" +:+ r +:+ "|" +:+ m))
    as -> by (by apply (strtok_r_stop is_pipe "MSG" "|")).
  change (String.eqb "MSG" "JOIN") with false.
  change (String.eqb "MSG" "MSG") with true. cbn iota.
  rewrite !append_char.
  rewrite (strtok_r_stop is_pipe u) by (try apply field_no_pipe; by try apply Hu).
  rewrite (strtok_r_stop is_pipe r) by (try apply field_no_pipe; by try apply Hr).
  by rewrite (strtok_r_end is_pipe m) by (try apply field_no_pipe; by try apply Hm).
Qed.

Lemma decode_pm_line u t m :
  is_field u -> is_field t -> is_field m ->
  decode ("PM|" +:+ u +:+ "|" +:+ t +:+ "|" +:+ m +:+ String LF "") = Pm u t m.
Proof.
  intros Hu Ht Hm. unfold decode.
  change (negb (nonempty ("PM|" +:+ u +:+ "|" +:+ t +:+ "|" +:+ m +:+ String LF "")))
    with false.
  cbn iota.
  assert (trim_newline (c_string ("PM|" +:+ u +:+ "|" +:+ t +:+ "|" +:+ m +:+ String LF ""))
          = "PM|" +:+ u +:+ "|" +:+ t +:+ "|" +:+ m) as ->.
  { rewrite <- (trim_line ("PM|" +:+ u +:+ "|" +:+ t +:+ "|" +:+ m)).
    - by rewrite !append_assoc.
    - rewrite !free_of_app.
      by rewrite (field_no_line_end u), (field_no_line_end t), (field_no_line_end m). }
  assert (strtok_r is_pipe ("PM|" +:+ u +:+ "|" +:+ t +:+ "|" +:+ m)
          = (Some "PM", u +:+ "|" +:+ t +:+ "|" +:+ m))
    as -> by (by apply (strtok_r_stop is_pipe "PM" "|")).
  change (String.eqb "PM" "JOIN") with false.
  change (String.eqb "PM" "MSG") with false.
  change (String.eqb "PM" "PM") with true. cbn iota.
  rewrite !append_char.
  rewrite (strtok_r_stop is_pipe u) by (try apply field_no_pipe; by try apply Hu).
  rewrite (strtok_r_stop is_pipe t) by (try apply field_no_pipe; by try apply Ht).
  by rewrite (strtok_r_end is_pipe m) by (try apply field_no_pipe; by try apply Hm).
Qed.

(** *** The session worker *)

Lemma snprintf_fits s : strlen s < BUF -> snprintf BUF s = s.
Proof. intros H. unfold snprintf. apply strn_all. lia. Qed.

Lemma strn_app n a b :
  strlen a <= n -> strn n (a +:+ b) = a +:+ strn (n - strlen a) b.
Proof.
  revert n. induction a as [|c a IH]; intros n Hn.
  - change ("" +:+ b) with b. by replace (n - strlen "") with n by (unfold strlen; simpl; lia).
  - change (String c a +:+ b) with (String c (a +:+ b)). cbn [strn].
    unfold strlen in *. cbn [String.length] in *.
    destruct (0 <? n) eqn:E; [|apply Z.ltb_ge in E; lia].
    change (String c a +:+ strn (n - Z.of_nat (S (String.length a))) b)
      with (String c (a +:+ strn (n - Z.of_nat (S (String.length a))) b)).
    f_equal. rewrite IH by lia. f_equal. f_equal. lia.
Qed.

Lemma cut_at_app stop a b :
  free_of stop a = true -> cut_at stop (a +:+ b) = a +:+ cut_at stop b.
Proof.
  induction a as [|c a IH]; [done|]. cbn [free_of].
  rewrite andb_true_iff, negb_true_iff. intros [Hc Ha].
  change (String c a +:+ b) with (String c (a +:+ b)). cbn [cut_at]. rewrite Hc.
  change (String c a +:+ cut_at stop b) with (String c (a +:+ cut_at stop b)).
  by rewrite IH.
Qed.

(* the command word of a message that starts with a literal word and a pipe *)
Lemma command_word cmd rest :
  nonempty cmd = true -> free_of (fun c => is_pipe c || ends_line c) cmd = true ->
  exists save,
    strtok_r is_pipe (trim_newline (c_string (cmd +:+ String "|" rest))) = (Some cmd, save).
Proof.
  intros Hne Hfree.
  assert (free_of is_nul cmd = true) as Hnul.
  { revert Hfree. apply free_of_weaken. intros c Hc. unfold ends_line.
    by rewrite Hc, !orb_true_r. }
  assert (free_of is_crlf cmd = true) as Hcr.
  { revert Hfree. apply free_of_weaken. intros c Hc. unfold ends_line.
    by rewrite Hc, orb_true_r. }
  assert (free_of is_pipe cmd = true) as Hpipe.
  { revert Hfree. apply free_of_weaken. by intros c ->. }
  unfold c_string, trim_newline. rewrite cut_at_app by done.
  change (cut_at is_nul (String "|" rest)) with (String "|" (cut_at is_nul rest)).
  rewrite cut_at_app by done.
  change (cut_at is_crlf (String "|" (cut_at is_nul rest)))
    with (String "|" (cut_at is_crlf (cut_at is_nul rest))).
  eexists. by apply strtok_r_stop.
Qed.

Lemma decode_msg_headed rest :
  match decode ("MSG|" +:+ rest) with
  | Msg _ _ _ | Dropped => True
  | _ => False
  end.
Proof.
  unfold decode. change (negb (nonempty ("MSG|" +:+ rest))) with false. cbn iota.
  destruct (command_word "MSG" rest) as [save Hsave]; [done|done|].
  change ("MSG" +:+ String "|" rest) with ("MSG|" +:+ rest) in Hsave. rewrite Hsave.
  change (String.eqb "MSG" "JOIN") with false.
  change (String.eqb "MSG" "MSG") with true. cbn iota.
  by repeat (match goal with
             | |- context [strtok_r ?d ?x] => destruct (strtok_r d x) as [[?|] ?]
             end).
Qed.

(** X15: a line that does not start with a slash always leaves the worker
    as exactly one control message, shorter than BUF bytes.  When the
    broker's read returns that message whole, the broker decodes it as a
    MSG or drops it, and as no other command, whatever bytes were typed
    (pipes, line ends, NULs).  The statement is about the message decoded
    as one read; a message that the pipe delivers over two reads is not
    covered.  The worker's name and room are unchanged. *)
Theorem chat_line_stays_chat w data :
  nonempty data = true ->
  starts_with "/" (trim_newline (c_string data)) = false ->
  exists m,
    worker_socket w data = (w, [ToBroker m], true) /\
    strlen m < BUF /\
    match decode m with
    | Msg _ _ _ | Dropped => True
    | _ => False
    end.
Proof.
  intros Hne Hchat. unfold worker_socket. rewrite Hne, Hchat. cbn [negb].
  eexists. split; [reflexivity|]. split.
  - unfold snprintf. pose proof (strlen_strn (BUF - 1) ("MSG|" +:+ w_username w +:+ "|"
      +:+ w_room w +:+ "|" +:+ msg_trunc (trim_newline (c_string data)) +:+ String LF "")
      ltac:(unfold BUF; lia)). lia.
  - unfold snprintf.
    rewrite (strn_app (BUF - 1) "MSG|") by (by vm_compute).
    apply decode_msg_headed.
Qed.

(** X16: the chat round trip.  For a worker whose name and room are clean
    fields and a chat line that is a clean field, does not start with a
    slash, is shorter than BUF - 128 bytes and fits the BUF-byte message
    buffer with its envelope, the broker decodes the worker's control
    message as MSG with exactly that name, room and text, and serves it as
    such. *)
Theorem chat_line_round_trip w text st i :
  is_field (w_username w) -> is_field (w_room w) -> is_field text ->
  starts_with "/" text = false ->
  strlen text < BUF - 128 ->
  strlen (w_username w) + strlen (w_room w) + strlen text + 7 < BUF ->
  exists m,
    worker_socket w (text +:+ String LF "") = (w, [ToBroker m], true) /\
    decode m = Msg (w_username w) (w_room w) text /\
    serve_slot st i m = do_MSG st i (w_username w) (w_room w) text.
Proof.
  intros Hu Hr Ht Hchat Hshort Hfits.
  exists ("MSG|" +:+ w_username w +:+ "|" +:+ w_room w +:+ "|" +:+ text +:+ String LF "").
  assert (decode ("MSG|" +:+ w_username w +:+ "|" +:+ w_room w +:+ "|" +:+ text
                    +:+ String LF "") = Msg (w_username w) (w_room w) text) as Hd
    by (by apply decode_msg_line).
  split; [|split; [done|by rewrite serve_slot_decode, Hd]].
  unfold worker_socket.
  rewrite (nonempty_app_l text) by apply Ht. cbn [negb].
  rewrite trim_line by (by apply field_no_line_end). rewrite Hchat.
  unfold msg_trunc. assert ((BUF - 128 <=? strlen text) = false) as ->
    by (apply Z.leb_gt; lia).
  rewrite snprintf_fits; [done|].
  rewrite !strlen_app. change (strlen "MSG|") with 4. change (strlen "|") with 1.
  change (strlen (String LF "")) with 1. lia.
Qed.

Lemma starts_with_app p s : starts_with p (p +:+ s) = true.
Proof.
  unfold starts_with. induction p as [|c p IH]; [by destruct s|].
  change (String c p +:+ s) with (String c (p +:+ s)). cbn [String.prefix].
  by destruct (ascii_dec c c).
Qed.

Lemma strdrop_app p s n : n = strlen p -> strdrop n (p +:+ s) = s.
Proof.
  intros ->. induction p as [|c p IH].
  - change ("" +:+ s) with s. by destruct s.
  - change (String c p +:+ s) with (String c (p +:+ s)). cbn [strdrop].
    unfold strlen in *. cbn [String.length].
    destruct (0 <? Z.of_nat (S (String.length p))) eqn:E; [|apply Z.ltb_ge in E; lia].
    by replace (Z.of_nat (S (String.length p)) - 1) with (Z.of_nat (String.length p)) by lia.
Qed.

Lemma free_of_strn bad n s : free_of bad s = true -> free_of bad (strn n s) = true.
Proof.
  revert n. induction s as [|c s IH]; intros n; [done|]. cbn [free_of strn].
  rewrite andb_true_iff. intros [Hc Hs]. destruct (0 <? n); [|done].
  cbn [free_of]. by rewrite Hc, IH.
Qed.

Lemma is_field_strn n s : 0 < n -> is_field s -> is_field (strn n s).
Proof.
  intros Hn [Hne Hfree]. split; [by rewrite nonempty_strn|by apply free_of_strn].
Qed.

Lemma strn_idem n s : 0 <= n -> strn n (strn n s) = strn n s.
Proof. intros Hn. apply strn_all. by apply strlen_strn. Qed.

Lemma join_message_fits u r :
  name_fits u -> name_fits r ->
  snprintf BUF ("JOIN|" +:+ u +:+ "|" +:+ r +:+ String LF "")
  = "JOIN|" +:+ u +:+ "|" +:+ r +:+ String LF "".
Proof.
  unfold name_fits. intros Hu Hr. apply snprintf_fits.
  rewrite !strlen_app. change (strlen "JOIN|") with 5. change (strlen "|") with 1.
  change (strlen (String LF "")) with 1. unfold BUF. lia.
Qed.

Lemma join_served_slot st i u r :
  (i < length (clients st))%nat -> name_fits u -> name_fits r ->
  decode ("JOIN|" +:+ u +:+ "|" +:+ r +:+ String LF "") = Join u r ->
  username (slot (fst (serve_slot st i ("JOIN|" +:+ u +:+ "|" +:+ r +:+ String LF ""))) i) = u /\
  room (slot (fst (serve_slot st i ("JOIN|" +:+ u +:+ "|" +:+ r +:+ String LF ""))) i) = r.
Proof.
  intros Hi Hu Hr Hd. rewrite serve_slot_decode, Hd. cbn [execute].
  rewrite (slot_of_clients (joined i u r st)) by (by rewrite do_JOIN_clients).
  unfold joined. rewrite slot_update_same by done. cbn.
  by rewrite !strn_all.
Qed.

(** X17: /nick and /join keep the worker and the broker in step.  For a
    worker whose name and room are clean fields of at most 63 bytes and an
    argument that is a clean field, the worker keeps the first 63 bytes of
    the argument as its new name (or room), the broker decodes the control
    message as JOIN with the worker's new name and room, and after serving
    it the slot of that worker holds exactly the worker's name and room. *)
Theorem nick_and_join_keep_broker_in_step w st i arg :
  is_field (w_username w) -> is_field (w_room w) ->
  name_fits (w_username w) -> name_fits (w_room w) ->
  is_field arg -> (i < length (clients st))%nat ->
  (exists m,
     worker_socket w ("/nick " +:+ arg +:+ String LF "")
       = (mk_worker (strn 63 arg) (w_room w), [ToBroker m], true) /\
     decode m = Join (strn 63 arg) (w_room w) /\
     username (slot (fst (serve_slot st i m)) i) = strn 63 arg /\
     room (slot (fst (serve_slot st i m)) i) = w_room w) /\
  (exists m,
     worker_socket w ("/join " +:+ arg +:+ String LF "")
       = (mk_worker (w_username w) (strn 63 arg), [ToBroker m], true) /\
     decode m = Join (w_username w) (strn 63 arg) /\
     username (slot (fst (serve_slot st i m)) i) = w_username w /\
     room (slot (fst (serve_slot st i m)) i) = strn 63 arg).
Proof.
  intros Hu Hr Fu Fr Harg Hi.
  pose proof (is_field_strn 63 arg ltac:(lia) Harg) as Hcut.
  assert (name_fits (strn 63 arg)) as Fcut by (by apply strlen_strn).
  assert (forall head, free_of ends_line head = true ->
            trim_newline (c_string (head +:+ arg +:+ String LF "")) = head +:+ arg) as Htrim.
  { intros head Hhead. rewrite <- append_assoc. apply trim_line.
    by rewrite free_of_app, Hhead, (field_no_line_end arg). }
  split.
  - exists ("JOIN|" +:+ strn 63 arg +:+ "|" +:+ w_room w +:+ String LF "").
    pose proof (decode_join_line _ _ Hcut Hr) as Hd.
    split; [|split; [done|by apply join_served_slot]].
    unfold worker_socket.
    change (negb (nonempty ("/nick " +:+ arg +:+ String LF ""))) with false. cbn iota.
    rewrite (Htrim "/nick ") by done.
    change (starts_with "/" ("/nick " +:+ arg)) with true.
    rewrite (starts_with_app "/nick " arg).
    rewrite (strdrop_app "/nick " arg 6) by done. cbn [w_username w_room].
    by rewrite join_message_fits.
  - exists ("JOIN|" +:+ w_username w +:+ "|" +:+ strn 63 arg +:+ String LF "").
    pose proof (decode_join_line _ _ Hu Hcut) as Hd.
    split; [|split; [done|by apply join_served_slot]].
    unfold worker_socket.
    change (negb (nonempty ("/join " +:+ arg +:+ String LF ""))) with false. cbn iota.
    rewrite (Htrim "/join ") by done.
    change (starts_with "/" ("/join " +:+ arg)) with true.
    change (starts_with "/nick " ("/join " +:+ arg)) with false.
    rewrite (starts_with_app "/join " arg).
    rewrite (strdrop_app "/join " arg 6) by done. cbn [w_username w_room].
    by rewrite join_message_fits.
Qed.

(** X18: /pm.  With a recipient word and a text that are clean fields, and a
    message that fits the buffer, "/pm <to> <text>" leaves the worker as a
    control message that the broker decodes as PM from the worker's name to
    that recipient with that text (the text may contain spaces).  When no
    space follows the recipient, nothing is sent to the broker: the worker
    answers on the socket with the usage line, 25 bytes of it, the last
    being the string's terminating NUL. *)
Theorem pm_line_round_trip w to text :
  is_field (w_username w) -> is_word to -> is_field text ->
  strlen (w_username w) + strlen to + strlen text + 6 < BUF ->
  (exists m,
     worker_socket w ("/pm " +:+ to +:+ " " +:+ text +:+ String LF "")
       = (w, [ToBroker m], true) /\
     decode m = Pm (w_username w) to text) /\
  worker_socket w ("/pm " +:+ to +:+ String LF "")
  = (w, [ToSocket ("Usage: /pm <user> <msg>" +:+ String LF (String NUL ""))], true).
Proof.
  intros Hu [Hto Hnosp] Htext Hfits. split.
  - exists ("PM|" +:+ w_username w +:+ "|" +:+ to +:+ "|" +:+ text +:+ String LF "").
    split; [|by apply decode_pm_line].
    unfold worker_socket.
    change (negb (nonempty ("/pm " +:+ to +:+ " " +:+ text +:+ String LF ""))) with false.
    cbn iota.
    assert (trim_newline (c_string ("/pm " +:+ to +:+ " " +:+ text +:+ String LF ""))
            = "/pm " +:+ to +:+ " " +:+ text) as ->.
    { rewrite <- (trim_line ("/pm " +:+ to +:+ " " +:+ text)).
      - by rewrite !append_assoc.
      - rewrite !free_of_app.
        by rewrite (field_no_line_end to), (field_no_line_end text). }
    change (starts_with "/" ("/pm " +:+ to +:+ " " +:+ text)) with true.
    change (starts_with "/nick " ("/pm " +:+ to +:+ " " +:+ text)) with false.
    change (starts_with "/join " ("/pm " +:+ to +:+ " " +:+ text)) with false.
    change (String.eqb ("/pm " +:+ to +:+ " " +:+ text) "/rooms") with false.
    change (String.eqb ("/pm " +:+ to +:+ " " +:+ text) "/history") with false.
    rewrite (starts_with_app "/pm " (to +:+ " " +:+ text)).
    rewrite (strdrop_app "/pm " (to +:+ " " +:+ text) 4) by done.
    rewrite append_char, (split_space_stop to text) by done.
    rewrite snprintf_fits; [done|].
    rewrite !strlen_app. change (strlen "PM|") with 3. change (strlen "|") with 1.
    change (strlen (String LF "")) with 1. lia.
  - unfold worker_socket.
    change (negb (nonempty ("/pm " +:+ to +:+ String LF ""))) with false. cbn iota.
    assert (trim_newline (c_string ("/pm " +:+ to +:+ String LF "")) = "/pm " +:+ to) as ->.
    { rewrite <- (trim_line ("/pm " +:+ to)).
      - by rewrite !append_assoc.
      - by rewrite free_of_app, (field_no_line_end to). }
    change (starts_with "/" ("/pm " +:+ to)) with true.
    change (starts_with "/nick " ("/pm " +:+ to)) with false.
    change (starts_with "/join " ("/pm " +:+ to)) with false.
    change (String.eqb ("/pm " +:+ to) "/rooms") with false.
    change (String.eqb ("/pm " +:+ to) "/history") with false.
    rewrite (starts_with_app "/pm " to).
    rewrite (strdrop_app "/pm " to 4) by done.
    by rewrite (split_space_none to).
Qed.

(** X19: the worker never overruns its buffers.  Whatever bytes arrive on
    the socket, the worker's name and room stay within 63 bytes, and every
    control message it writes to the broker is shorter than BUF bytes, so
    the broker's read() of BUF - 1 bytes can take it whole. *)
Theorem worker_stays_within_buffers w data :
  name_fits (w_username w) -> name_fits (w_room w) ->
  name_fits (w_username (fst (fst (worker_socket w data)))) /\
  name_fits (w_room (fst (fst (worker_socket w data)))) /\
  Forall (fun m => strlen m < BUF) (to_broker (snd (fst (worker_socket w data)))).
Proof.
  intros Hu Hr.
  assert (forall s, strlen (snprintf BUF s) < BUF) as Hsn.
  { intros s. unfold snprintf.
    pose proof (strlen_strn (BUF - 1) s ltac:(unfold BUF; lia)). lia. }
  assert (forall s, name_fits (strn 63 s)) as Hcut by (intros s; by apply strlen_strn).
  unfold worker_socket.
  repeat (case_match; cbn [fst snd w_username w_room to_broker flat_map app];
          try (split; [done|split; [done|]]);
          try (by repeat constructor)).
Qed.

(** *** The admin client *)

Lemma decode_admin_headed rest : exists save, decode ("ADMIN|" +:+ rest) = Admin save.
Proof.
  unfold decode. change (negb (nonempty ("ADMIN|" +:+ rest))) with false. cbn iota.
  destruct (command_word "ADMIN" rest) as [save Hsave]; [done|done|].
  change ("ADMIN" +:+ String "|" rest) with ("ADMIN|" +:+ rest) in Hsave. rewrite Hsave.
  by exists save.
Qed.

Lemma worker_forwards_admin w rest :
  exists m save,
    worker_socket w ("/admin " +:+ rest) = (w, [ToBroker m], true) /\
    decode m = Admin save.
Proof.
  destruct (decode_admin_headed
              (strn (BUF - 1 - strlen "ADMIN|")
                 (w_username w +:+ "|"
                  +:+ strdrop 7 (trim_newline (c_string ("/admin " +:+ rest)))
                  +:+ String LF ""))) as [save Hsave].
  eexists _, save. split; [|exact Hsave].
  unfold worker_socket.
  change (negb (nonempty ("/admin " +:+ rest))) with false. cbn iota.
  assert (trim_newline (c_string ("/admin " +:+ rest))
          = "/admin " +:+ trim_newline (c_string rest)) as Hbuf.
  { unfold trim_newline, c_string. by rewrite !cut_at_app. }
  rewrite Hbuf.
  change (starts_with "/" ("/admin " +:+ trim_newline (c_string rest))) with true.
  change (starts_with "/nick " ("/admin " +:+ trim_newline (c_string rest))) with false.
  change (starts_with "/join " ("/admin " +:+ trim_newline (c_string rest))) with false.
  change (String.eqb ("/admin " +:+ trim_newline (c_string rest)) "/rooms") with false.
  change (String.eqb ("/admin " +:+ trim_newline (c_string rest)) "/history") with false.
  change (starts_with "/pm " ("/admin " +:+ trim_newline (c_string rest))) with false.
  change (starts_with "/appeal " ("/admin " +:+ trim_newline (c_string rest))) with false.
  rewrite (starts_with_app "/admin " (trim_newline (c_string rest))).
  cbn iota. unfold snprintf. by rewrite (strn_app (BUF - 1) "ADMIN|") by (by vm_compute).
Qed.

(** X20: whatever the admin types and whatever the password is, a line that
    the admin client sends is shorter than BUF bytes, leaves the worker as
    exactly one control message, and the broker decodes that message as an
    ADMIN command: an admin's input can never become chat or any other
    command. *)
Theorem admin_line_is_always_an_admin_command pwd typed bytes w :
  admin_line pwd typed = AdminSend bytes ->
  strlen bytes < BUF /\
  exists m save,
    worker_socket w bytes = (w, [ToBroker m], true) /\ decode m = Admin save.
Proof.
  unfold admin_line.
  destruct (negb (nonempty _)); [done|]. destruct (_ || _); [done|].
  destruct (admin_split _) as [act args].
  destruct (BUF <=? strlen _) eqn:Hlen; [done|]. apply Z.leb_gt in Hlen.
  intros [= <-]. split; [done|].
  destruct (nonempty args); apply worker_forwards_admin.
Qed.

Lemma skip_delims_none d s :
  match s with
  | EmptyString => True
  | String c _ => d c = false
  end -> skip_delims d s = s.
Proof. destruct s as [|c s]; [done|]. cbn [skip_delims]. by intros ->. Qed.

Lemma is_space_tolower c : is_space (tolower c) = is_space c.
Proof.
  destruct c as [b0 b1 b2 b3 b4 b5 b6 b7].
  by destruct b0, b1, b2, b3, b4, b5, b6, b7.
Qed.

Lemma free_of_space_lowercase s : free_of is_space (lowercase s) = free_of is_space s.
Proof.
  induction s as [|c s IH]; [done|]. cbn [lowercase free_of].
  by rewrite is_space_tolower, IH.
Qed.

Lemma not_a_bare_word s word :
  free_of is_space s = false -> free_of is_space word = true ->
  strcasecmp_eq s word = false.
Proof.
  intros Hs Hw. unfold strcasecmp_eq. apply String.eqb_neq. intros Heq.
  apply (f_equal (free_of is_space)) in Heq.
  rewrite !free_of_space_lowercase in Heq. congruence.
Qed.

(** X21: from the admin's keyboard to the broker.  When the admin types an
    action word and an argument (clean fields, the action without white
    space and of at most 255 bytes, the argument not starting with a
    space) and the lines fit the buffers, the admin client sends
    "/admin <pwd>|<action>|<args>", the worker turns it into one control
    message, and the broker parses that message to the worker's name, the
    password, the action word and the argument; with the right password it
    is an authenticated command for that action and argument. *)
Theorem admin_keyboard_to_broker w pwd action args :
  is_field (w_username w) -> is_field pwd ->
  is_field action -> free_of isspace action = true -> strlen action <= 255 ->
  is_field args -> skip_delims is_space args = args ->
  strlen (w_username w) + strlen pwd + strlen action + strlen args + 10 < BUF ->
  let sent := "/admin " +:+ pwd +:+ "|" +:+ action +:+ "|" +:+ args +:+ String LF "" in
  let m := admin_wire (pipe_form (w_username w) pwd action args) in
  admin_line pwd (action +:+ " " +:+ args +:+ String LF "") = AdminSend sent /\
  worker_socket w sent = (w, [ToBroker m], true) /\
  (exists rq,
     decode m = Admin (pipe_form (w_username w) pwd action args) /\
     parse_admin (pipe_form (w_username w) pwd action args) = Some rq /\
     admin_tuple rq = (w_username w, pwd, Some action, Some args)) /\
  (pwd = ADMIN_PASSWORD -> admin_command m action args).
Proof.
  intros Hu Hp Ha Hanosp Halen Hargs Hargs0 Hfits sent m.
  pose proof (strlen_nonneg (w_username w)) as Nu.
  pose proof (strlen_nonneg pwd) as Np.
  pose proof (strlen_nonneg action) as Na.
  pose proof (strlen_nonneg args) as Nargs.
  assert (free_of is_space action = true) as Haspace.
  { revert Hanosp. apply free_of_weaken. intros c. unfold isspace. by intros ->. }
  assert (is_word action) as Hword by done.
  (* the admin client *)
  assert (admin_line pwd (action +:+ " " +:+ args +:+ String LF "") = AdminSend sent) as Hline.
  { unfold admin_line.
    assert (trim_newline (c_string (action +:+ " " +:+ args +:+ String LF ""))
            = action +:+ " " +:+ args) as ->.
    { rewrite <- (trim_line (action +:+ " " +:+ args)).
      - by rewrite !append_assoc.
      - rewrite !free_of_app.
        by rewrite (field_no_line_end action), (field_no_line_end args). }
    rewrite skip_delims_none.
    2:{ destruct action as [|c a]; [by destruct Ha|].
        change (String c a +:+ " " +:+ args) with (String c (a +:+ " " +:+ args)).
        cbn [free_of] in Hanosp. apply andb_true_iff in Hanosp as [Hc _].
        by apply negb_true_iff in Hc. }
    rewrite (nonempty_app_l action) by apply Ha. cbn [negb].
    assert (free_of is_space (action +:+ " " +:+ args) = false) as Hsp.
    { rewrite free_of_app, Haspace. by rewrite append_char. }
    rewrite !not_a_bare_word by done. cbn [orb].
    unfold admin_split. rewrite append_char, (split_space_stop action args) by done.
    rewrite Hargs0. rewrite (strn_all 255) by done.
    rewrite (strn_all (BUF - 1)) by lia.
    destruct Hargs as [-> _].
    unfold sent. destruct (BUF <=? strlen _) eqn:Hlen; [|done].
    apply Z.leb_le in Hlen. revert Hlen. rewrite !strlen_app.
    change (strlen "/admin ") with 7. change (strlen "|") with 1.
    change (strlen (String LF "")) with 1. lia. }
  (* the worker *)
  assert (worker_socket w sent = (w, [ToBroker m], true)) as Hworker.
  { unfold worker_socket, sent.
    change (negb (nonempty ("/admin " +:+ pwd +:+ "|" +:+ action +:+ "|" +:+ args
                              +:+ String LF ""))) with false.
    cbn iota.
    assert (trim_newline (c_string ("/admin " +:+ pwd +:+ "|" +:+ action +:+ "|" +:+ args
                                      +:+ String LF ""))
            = "/admin " +:+ pwd +:+ "|" +:+ action +:+ "|" +:+ args) as ->.
    { rewrite <- (trim_line ("/admin " +:+ pwd +:+ "|" +:+ action +:+ "|" +:+ args)).
      - by rewrite !append_assoc.
      - rewrite !free_of_app.
        by rewrite (field_no_line_end pwd), (field_no_line_end action),
             (field_no_line_end args). }
    set (rest := pwd +:+ "|" +:+ action +:+ "|" +:+ args).
    change (starts_with "/" ("/admin " +:+ rest)) with true.
    change (starts_with "/nick " ("/admin " +:+ rest)) with false.
    change (starts_with "/join " ("/admin " +:+ rest)) with false.
    change (String.eqb ("/admin " +:+ rest) "/rooms") with false.
    change (String.eqb ("/admin " +:+ rest) "/history") with false.
    change (starts_with "/pm " ("/admin " +:+ rest)) with false.
    change (starts_with "/appeal " ("/admin " +:+ rest)) with false.
    rewrite (starts_with_app "/admin " rest). cbn iota.
    rewrite (strdrop_app "/admin " rest 7) by done.
    rewrite snprintf_fits.
    { unfold m, admin_wire, pipe_form, rest. by rewrite !append_assoc. }
    unfold rest. rewrite !strlen_app.
    change (strlen "ADMIN|") with 6. change (strlen "|") with 1.
    change (strlen (String LF "")) with 1. lia. }
  (* the broker *)
  assert (decode m = Admin (pipe_form (w_username w) pwd action args)) as Hd.
  { apply decode_admin_wire. unfold pipe_form. rewrite !free_of_app.
    by rewrite (field_no_line_end (w_username w)), (field_no_line_end pwd),
         (field_no_line_end action), (field_no_line_end args). }
  pose proof (parse_pipe_form (w_username w) pwd action args Hu Hp Hword) as Hparse.
  assert (admin_operand (mk_admin (w_username w) pwd (Some action) None args) = Some args)
    as Hop.
  { unfold admin_operand. cbn [adm_args adm_save].
    rewrite (strtok_r_end is_pipe args); [done|apply Hargs|by apply field_no_pipe]. }
  split; [done|]. split; [done|]. split.
  - eexists. split; [done|]. split; [exact Hparse|].
    unfold admin_tuple. by rewrite Hop.
  - intros Hpw. eexists _, _. split; [exact Hd|]. split; [exact Hparse|].
    cbn [adm_password adm_word]. by rewrite Hop.
Qed.

(** *** The plain client *)

Lemma worker_socket_buffer w data data' :
  nonempty data = true -> nonempty data' = true ->
  trim_newline (c_string data) = trim_newline (c_string data') ->
  worker_socket w data = worker_socket w data'.
Proof. intros H H' Hbuf. unfold worker_socket. by rewrite H, H', Hbuf. Qed.

(** X22: the client sends the typed line, cut at its first line end or NUL,
    with one newline, in less than BUF bytes, and the worker handles those
    bytes exactly as it would handle the typed line itself.  The client
    leaves on any line that starts with "/quit", but the worker takes only
    the exact line "/quit" for a quit: for "/quit" followed by more text
    the client exits while the worker answers "Unknown command", sends
    nothing to the broker and goes on until it sees the socket closed. *)
Theorem client_line_reaches_worker w typed bytes stop extra :
  client_line typed = ClientSend bytes stop ->
  (strlen bytes < BUF /\
   trim_newline (c_string bytes) = trim_newline (c_string typed) /\
   (nonempty typed = true -> worker_socket w bytes = worker_socket w typed)) /\
  (nonempty extra = true -> free_of ends_line extra = true ->
   strlen extra + 6 < BUF ->
   client_line ("/quit" +:+ extra +:+ String LF "")
     = ClientSend ("/quit" +:+ extra +:+ String LF "") true /\
   worker_socket w ("/quit" +:+ extra +:+ String LF "")
     = (w, [ToSocket ("Unknown command" +:+ String LF "")], true) /\
   worker_socket w "" = (w, [ToBroker ("QUIT|" +:+ String LF "")], false)).
Proof.
  intros Hsend. split.
  - unfold client_line in Hsend.
    destruct (BUF - 1 <=? strlen _) eqn:Hlen; [done|]. apply Z.leb_gt in Hlen.
    injection Hsend as <- <-.
    pose proof (trim_line _ (buffer_is_one_line typed)) as Htrim.
    split; [|split; [done|]].
    + rewrite strlen_app. change (strlen (String LF "")) with 1. lia.
    + intros Hne. apply worker_socket_buffer; [|done|done].
      by destruct (trim_newline (c_string typed)).
  - intros Hne Hfree Hlen.
    assert (trim_newline (c_string ("/quit" +:+ extra +:+ String LF "")) = "/quit" +:+ extra)
      as Hbuf.
    { rewrite <- (trim_line ("/quit" +:+ extra)).
      - by rewrite !append_assoc.
      - by rewrite free_of_app, Hfree. }
    split; [|split; [|done]].
    + unfold client_line. rewrite Hbuf.
      assert ((BUF - 1 <=? strlen ("/quit" +:+ extra)) = false) as ->.
      { apply Z.leb_gt. rewrite strlen_app. change (strlen "/quit") with 5. lia. }
      rewrite append_assoc. by rewrite (starts_with_app "/quit").
    + unfold worker_socket.
      change (negb (nonempty ("/quit" +:+ extra +:+ String LF ""))) with false. cbn iota.
      rewrite Hbuf.
      change (starts_with "/" ("/quit" +:+ extra)) with true.
      change (starts_with "/nick " ("/quit" +:+ extra)) with false.
      change (starts_with "/join " ("/quit" +:+ extra)) with false.
      change (String.eqb ("/quit" +:+ extra) "/rooms") with false.
      change (String.eqb ("/quit" +:+ extra) "/history") with false.
      change (starts_with "/pm " ("/quit" +:+ extra)) with false.
      change (starts_with "/appeal " ("/quit" +:+ extra)) with false.
      change (starts_with "/admin " ("/quit" +:+ extra)) with false.
      cbn iota.
      assert (String.eqb ("/quit" +:+ extra) "/quit" = false) as ->; [|done].
      apply String.eqb_neq. intros Heq.
      apply (f_equal strlen) in Heq. rewrite strlen_app in Heq.
      destruct extra as [|c extra]; [done|]. unfold strlen in Heq.
      cbn [String.length] in Heq. lia.
Qed.

Lemma strtok_r_skip d c s : d c = true -> strtok_r d (String c s) = strtok_r d s.
Proof. intros Hc. unfold strtok_r. cbn [skip_delims]. by rewrite Hc. Qed.

(** X23: an empty name silences a client.  "/nick " with nothing after it
    empties the worker's name; the JOIN it sends then has an empty field,
    which the tokeniser skips, so the broker drops it and keeps the old
    name; and from then on every chat line of that worker that holds no
    pipe is sent with an empty name field and is dropped by the broker as
    well, with no reply to anyone.  A chat line "a|b" is not dropped: with
    the empty field skipped the broker takes the worker's room for the
    sender's name and a for the room, and serves it as a MSG from that
    name to room a with text b. *)
Theorem empty_name_silences_the_worker w text st i :
  is_field (w_room w) -> name_fits (w_room w) -> is_field text ->
  starts_with "/" text = false -> strlen text < BUF - 128 ->
  let w0 := mk_worker "" (w_room w) in
  (exists m,
     worker_socket w ("/nick " +:+ String LF "") = (w0, [ToBroker m], true) /\
     decode m = Dropped /\ serve_slot st i m = (st, [])) /\
  (exists m,
     worker_socket w0 (text +:+ String LF "") = (w0, [ToBroker m], true) /\
     decode m = Dropped /\ serve_slot st i m = (st, [])) /\
  (forall a b,
     is_field a -> is_field b -> starts_with "/" a = false ->
     strlen a + strlen b + 1 < BUF - 128 ->
     exists m,
       worker_socket w0 ((a +:+ "|" +:+ b) +:+ String LF "") = (w0, [ToBroker m], true) /\
       decode m = Msg (w_room w) a b /\
       serve_slot st i m = do_MSG st i (w_room w) a b).
Proof.
  intros Hr Fr Ht Hchat Hshort w0.
  pose proof (field_no_pipe _ Hr) as Pr. pose proof (field_no_pipe _ Ht) as Pt.
  pose proof (field_no_line_end _ Hr) as Lr. pose proof (field_no_line_end _ Ht) as Lt.
  unfold name_fits in Fr. pose proof (strlen_nonneg (w_room w)) as Nr.
  split; [|split].
  - exists ("JOIN|" +:+ "" +:+ "|" +:+ w_room w +:+ String LF "").
    assert (decode ("JOIN|" +:+ "" +:+ "|" +:+ w_room w +:+ String LF "") = Dropped) as Hd.
    { unfold decode.
      change (negb (nonempty ("JOIN|" +:+ "" +:+ "|" +:+ w_room w +:+ String LF "")))
        with false. cbn iota.
      assert (trim_newline (c_string ("JOIN|" +:+ "" +:+ "|" +:+ w_room w +:+ String LF ""))
              = "JOIN||" +:+ w_room w) as ->.
      { rewrite <- (trim_line ("JOIN||" +:+ w_room w)); [done|].
        by rewrite free_of_app, Lr. }
      assert (strtok_r is_pipe ("JOIN||" +:+ w_room w)
              = (Some "JOIN", String "|" (w_room w))) as ->
        by (by apply (strtok_r_stop is_pipe "JOIN" "|")).
      change (String.eqb "JOIN" "JOIN") with true. cbn iota.
      rewrite strtok_r_skip by done.
      by rewrite (strtok_r_end is_pipe (w_room w)) by (by try apply Hr). }
    split; [|split; [done|by rewrite serve_slot_decode, Hd]].
    unfold worker_socket.
    change (negb (nonempty ("/nick " +:+ String LF ""))) with false. cbn iota.
    change (trim_newline (c_string ("/nick " +:+ String LF ""))) with "/nick ".
    change (starts_with "/" "/nick ") with true.
    change (starts_with "/nick " "/nick ") with true. cbn iota.
    change (strn 63 (strdrop 6 "/nick ")) with "". fold w0. cbn [w_username w_room w0].
    rewrite snprintf_fits; [done|].
    rewrite !strlen_app. change (strlen "JOIN|") with 5. change (strlen "") with 0.
    change (strlen "|") with 1. change (strlen (String LF "")) with 1. unfold BUF. lia.
  - exists ("MSG|" +:+ "" +:+ "|" +:+ w_room w +:+ "|" +:+ text +:+ String LF "").
    assert (decode ("MSG|" +:+ "" +:+ "|" +:+ w_room w +:+ "|" +:+ text +:+ String LF "")
            = Dropped) as Hd.
    { unfold decode.
      change (negb (nonempty ("MSG|" +:+ "" +:+ "|" +:+ w_room w +:+ "|" +:+ text
                                +:+ String LF ""))) with false. cbn iota.
      assert (trim_newline (c_string ("MSG|" +:+ "" +:+ "|" +:+ w_room w +:+ "|" +:+ text
                                        +:+ String LF ""))
              = "MSG||" +:+ w_room w +:+ "|" +:+ text) as ->.
      { rewrite <- (trim_line ("MSG||" +:+ w_room w +:+ "|" +:+ text)).
        - by rewrite !append_assoc.
        - by rewrite !free_of_app, Lr, Lt. }
      assert (strtok_r is_pipe ("MSG||" +:+ w_room w +:+ "|" +:+ text)
              = (Some "MSG", String "|" (w_room w +:+ "|" +:+ text))) as ->
        by (by apply (strtok_r_stop is_pipe "MSG" "|")).
      change (String.eqb "MSG" "JOIN") with false.
      change (String.eqb "MSG" "MSG") with true. cbn iota.
      rewrite strtok_r_skip by done. rewrite append_char.
      rewrite (strtok_r_stop is_pipe (w_room w)) by (by try apply Hr).
      by rewrite (strtok_r_end is_pipe text) by (by try apply Ht). }
    split; [|split; [done|by rewrite serve_slot_decode, Hd]].
    unfold worker_socket.
    rewrite (nonempty_app_l text) by apply Ht. cbn [negb].
    rewrite trim_line by done. rewrite Hchat.
    unfold msg_trunc. assert ((BUF - 128 <=? strlen text) = false) as ->
      by (apply Z.leb_gt; lia).
    cbn [w_username w_room w0].
    rewrite snprintf_fits; [done|].
    rewrite !strlen_app. change (strlen "MSG|") with 4. change (strlen "") with 0.
    change (strlen "|") with 1. change (strlen (String LF "")) with 1.
    unfold BUF in *. lia.
  - intros a b Ha Hb Hchat_a Hlen.
    pose proof (field_no_pipe _ Ha) as Pa. pose proof (field_no_pipe _ Hb) as Pb.
    pose proof (field_no_line_end _ Ha) as La. pose proof (field_no_line_end _ Hb) as Lb.
    pose proof (strlen_nonneg a) as Na. pose proof (strlen_nonneg b) as Nb.
    exists ("MSG|" +:+ "" +:+ "|" +:+ w_room w +:+ "|" +:+ (a +:+ "|" +:+ b) +:+ String LF "").
    assert (decode ("MSG|" +:+ "" +:+ "|" +:+ w_room w +:+ "|" +:+ (a +:+ "|" +:+ b)
                      +:+ String LF "") = Msg (w_room w) a b) as Hd.
    { unfold decode.
      change (negb (nonempty ("MSG|" +:+ "" +:+ "|" +:+ w_room w +:+ "|" +:+ (a +:+ "|" +:+ b)
                                +:+ String LF ""))) with false. cbn iota.
      assert (trim_newline (c_string ("MSG|" +:+ "" +:+ "|" +:+ w_room w +:+ "|"
                                        +:+ (a +:+ "|" +:+ b) +:+ String LF ""))
              = "MSG||" +:+ w_room w +:+ "|" +:+ a +:+ "|" +:+ b) as ->.
      { rewrite <- (trim_line ("MSG||" +:+ w_room w +:+ "|" +:+ a +:+ "|" +:+ b)).
        - by rewrite !append_assoc.
        - by rewrite !free_of_app, Lr, La, Lb. }
      assert (strtok_r is_pipe ("MSG||" +:+ w_room w +:+ "|" +:+ a +:+ "|" +:+ b)
              = (Some "MSG", String "|" (w_room w +:+ "|" +:+ a +:+ "|" +:+ b))) as ->
        by (by apply (strtok_r_stop is_pipe "MSG" "|")).
      change (String.eqb "MSG" "JOIN") with false.
      change (String.eqb "MSG" "MSG") with true. cbn iota.
      rewrite strtok_r_skip by done. rewrite !append_char.
      rewrite (strtok_r_stop is_pipe (w_room w)) by (by try apply Hr).
      rewrite (strtok_r_stop is_pipe a) by (by try apply Ha).
      by rewrite (strtok_r_end is_pipe b) by (by try apply Hb). }
    split; [|split; [done|by rewrite serve_slot_decode, Hd]].
    assert (nonempty (a +:+ "|" +:+ b) = true) as Hne by (apply nonempty_app_l, Ha).
    assert (starts_with "/" (a +:+ "|" +:+ b) = false) as Hchat'.
    { destruct a as [|c a']; [by destruct Ha|].
      change (String c a' +:+ "|" +:+ b) with (String c (a' +:+ "|" +:+ b)).
      unfold starts_with in *. cbn [String.prefix] in *.
      destruct (ascii_dec "/" c); [|done]. by destruct a'. }
    unfold worker_socket.
    rewrite (nonempty_app_l (a +:+ "|" +:+ b)) by done. cbn [negb].
    rewrite trim_line by (by rewrite !free_of_app, La, Lb). rewrite Hchat'.
    unfold msg_trunc. assert ((BUF - 128 <=? strlen (a +:+ "|" +:+ b)) = false) as ->.
    { apply Z.leb_gt. rewrite !strlen_app. change (strlen "|") with 1. lia. }
    cbn [w_username w_room w0].
    rewrite snprintf_fits; [done|].
    rewrite !strlen_app. change (strlen "MSG|") with 4. change (strlen "") with 0.
    change (strlen "|") with 1. change (strlen (String LF "")) with 1.
    unfold BUF in *. lia.
Qed.

End Broker.


(** ** Examples: the theorems at concrete inputs, and the inputs on which the
    stated claims fail *)

Lemma two_bobs_reachable : reachable echo writable ∅ (two_bobs echo writable).
Proof. apply run_reachable; [apply accepted_reachable|]. by vm_compute. Qed.

Lemma admin_and_guest_reachable :
  reachable echo writable ∅ (admin_and_guest echo writable).
Proof. apply run_reachable; [apply accepted_reachable|]. by vm_compute. Qed.

Lemma full_rooms_reachable : reachable echo writable ∅ (full_rooms echo writable).
Proof. apply run_reachable; [apply accepted_reachable|]. by vm_compute. Qed.

(** C10 at the state with two clients in the lobby. *)
Lemma lobby_always_registered_witness :
  reachable echo writable ∅ (two_bobs echo writable) /\
  In "lobby" (rooms (two_bobs echo writable)) /\
  room_count (two_bobs echo writable) <> 0%nat.
Proof.
  split; [exact two_bobs_reachable|].
  pose proof (lobby_always_registered echo writable ∅ _ two_bobs_reachable)
    as (_ & Hin & Hcount & _).
  split; [exact Hin|exact Hcount].
Defined.

(** C9, counterexample: with the room table full, a JOIN naming a room that
    is not in the table is not rejected.  The requester gets the usual
    welcome and join notice and no other message, its slot moves to the new
    room, and the notice is appended to a new log file; only the room table
    stays as it was. *)
Lemma join_past_room_capacity_goes_through :
  let st := full_rooms echo writable in
  let res := serve_slot echo writable st 0 (line "JOIN|bob|extra") in
  reachable echo writable ∅ st /\
  room_count st = MAX_ROOMS /\
  existsb (String.eqb "extra") (rooms st) = false /\
  snd res = [Write 4 (line "Welcome bob to extra");
             Write 4 (line "[extra] server: a new user has joined")] /\
  room (slot st 0) = "r127" /\ room (slot (fst res) 0) = "extra" /\
  files st !! "logs/extra.log" = None /\
  files (fst res) !! "logs/extra.log"
    = Some (line "[extra] server: a new user has joined") /\
  fst res <> st.
Proof.
  split; [exact full_rooms_reachable|].
  repeat (split; [by vm_compute|]).
  intros H. apply (f_equal (fun s => room (slot s 0))) in H.
  vm_compute in H. discriminate H.
Qed.

(** C9 (as the code has it) at the full room table. *)
Lemma full_room_table_is_frozen_witness :
  room_count (full_rooms echo writable) = MAX_ROOMS /\
  rooms (fst (serve_slot echo writable (full_rooms echo writable) 0 (line "JOIN|bob|extra")))
  = rooms (full_rooms echo writable).
Proof.
  assert (room_count (full_rooms echo writable) = MAX_ROOMS) as H by (by vm_compute).
  split; [exact H|].
  apply (proj1 (proj2 (full_room_table_is_frozen echo writable _ H))).
Defined.

(** C5 at the registry with all 128 slots taken. *)
Lemma registry_capacity_witness :
  well_formed (accepted 128 ∅) /\ 0 <= ns (conn 128) /\
  connected_count (accepted 128 ∅) = MAX_CLIENTS /\
  accept_and_spawn (accepted 128 ∅) (conn 128)
  = (accepted 128 ∅, [Write 228 (line "Server full"); Close 228]).
Proof.
  assert (well_formed (accepted 128 ∅)) as Hwf by (split; by vm_compute).
  assert (0 <= ns (conn 128)) as Hns by (by vm_compute).
  assert (connected_count (accepted 128 ∅) = MAX_CLIENTS) as Hfull by (by vm_compute).
  split; [exact Hwf|]. split; [exact Hns|]. split; [exact Hfull|].
  exact (proj1 (proj1 (registry_capacity _ _ Hwf Hns) Hfull)).
Defined.

(** C1 at a wrong password and at the right password without an action. *)
Lemma admin_authentication_witness :
  let st := accepted 2 ∅ in
  (1 < length (clients st))%nat /\
  decode (line "ADMIN|unnamed|letmein KICK bob") = Admin "unnamed|letmein KICK bob" /\
  serve_slot echo writable st 1 (line "ADMIN|unnamed|letmein KICK bob")
  = (st, [reply st 1 (line "Admin auth failed")]).
Proof.
  intros st.
  assert (1 < length (clients st))%nat as Hi by (vm_compute; lia).
  assert (decode (line "ADMIN|unnamed|letmein KICK bob") = Admin "unnamed|letmein KICK bob")
    as Hd by (by vm_compute).
  split; [exact Hi|]. split; [exact Hd|].
  pose proof (admin_authentication echo writable st 1 _ _ Hi Hd) as H.
  assert (parse_admin "unnamed|letmein KICK bob"
          = Some (mk_admin "unnamed" "letmein" (Some "KICK") (Some "bob") "")) as Hp
    by (by vm_compute).
  rewrite Hp in H. destruct H as [H _]. apply H. by vm_compute.
Defined.

(** C4 at an authenticated BROADCAST: both connected clients receive the
    line, the second one without ever having joined a room. *)
Lemma broadcast_fan_out_witness :
  let st := admin_and_guest echo writable in
  let data := line "ADMIN|unnamed|admin123 BROADCAST hi" in
  room (slot st 0) = "" /\ room (slot st 1) = "" /\
  snd (serve_slot echo writable st 1 data)
  = [Write 4 (line "[global] admin: hi"); Write 14 (line "[global] admin: hi")].
Proof.
  intros st data. split; [by vm_compute|]. split; [by vm_compute|].
  pose (rq := mk_admin "unnamed" "admin123" (Some "BROADCAST") (Some "hi") "").
  assert (decode data = Admin "unnamed|admin123 BROADCAST hi") as Hd by (by vm_compute).
  assert (parse_admin "unnamed|admin123 BROADCAST hi" = Some rq) as Hp by (by vm_compute).
  assert (adm_password rq = ADMIN_PASSWORD) as Hpw by reflexivity.
  assert (adm_word rq = Some "BROADCAST") as Hw by reflexivity.
  pose proof (proj2 (proj2 (broadcast_fan_out echo writable st "global" "admin" "hi"))
                1%nat data _ rq Hd Hp Hpw Hw) as [_ H].
  etransitivity; [apply H; by vm_compute|]. by vm_compute.
Defined.

(** C8 at a PM to "bob" with two clients of that name: slot 0 alone gets it. *)
Lemma private_message_routing_witness :
  let st := two_bobs echo writable in
  decode (line "PM|carol|bob|hello") = Pm "carol" "bob" "hello" /\
  serve_slot echo writable st 2 (line "PM|carol|bob|hello")
  = (st, [Write 4 (line "[PM] carol -> you: hello"); Write 24 (line "PM sent to bob")]).
Proof.
  intros st.
  assert (decode (line "PM|carol|bob|hello") = Pm "carol" "bob" "hello") as Hd
    by (by vm_compute).
  split; [exact Hd|].
  pose proof (private_message_routing echo writable st 2 _ _ _ _ Hd) as H.
  assert (find_client_by_name "bob" st = Some 0%nat) as Hk by (by vm_compute).
  rewrite Hk in H. destruct H as [_ H].
  etransitivity; [exact H|]. by vm_compute.
Defined.

(** C7 at two messages logged for "lobby". *)
Lemma history_round_trip_witness :
  let st := accepted 1 ∅ in
  let msgs := ["[lobby] ann: one"; "[lobby] ann: two"] in
  let st' := append_entries writable (map (pair "lobby") msgs) st in
  writable (log_path "lobby") = true /\
  files st !! log_path "lobby" = None /\
  decode (line "HISTORY|lobby") = History "lobby" /\
  exists chunks,
    serve_slot echo writable st' 0 (line "HISTORY|lobby")
    = (st', map (Write (to_child_fd (slot st' 0))) chunks) /\
    join chunks = log_text msgs.
Proof.
  intros st msgs st'.
  assert (writable (log_path "lobby") = true) as Hopen by reflexivity.
  assert (files st !! log_path "lobby" = None) as Hnone by (by vm_compute).
  assert (decode (line "HISTORY|lobby") = History "lobby") as Hd by (by vm_compute).
  split; [exact Hopen|]. split; [exact Hnone|]. split; [exact Hd|].
  exact (history_round_trip echo writable st 0 "lobby" msgs _ Hopen Hnone Hd).
Defined.

(** C2 at the failing input: a client that has not sent JOIN types
    "/appeal help" twice while one admin is online.  Its worker sends
    "APPEAL|unnamed|help" each time; the name resolves to no slot, and both
    appeals are forwarded to the admin and answered by the receipt. *)
Lemma appeal_from_unresolved_name_is_forwarded_again_witness :
  let st := admin_and_guest echo writable in
  let data := line "APPEAL|unnamed|help" in
  let forwarded :=
    [Write 14 (line "[APPEAL] unnamed: help");
     Printf (line "Forwarded APPEAL from 'unnamed' to admin slot 1 (user='(unnamed)', room='(none)')");
     Write 4 (line "Your appeal was sent to 1 admin(s).")] in
  decode data = Appeal "unnamed" "help" /\
  find_client_by_name "unnamed" st = None /\
  reachable echo writable ∅ st /\
  connected (slot st 0) = true /\ to_child_fd (slot st 0) = 4 /\
  connected (slot st 1) = true /\ is_admin (slot st 1) = true /\
  to_child_fd (slot st 1) = 14 /\
  worker_socket worker_start (line "/appeal help") = (worker_start, [ToBroker data], true) /\
  serve_slot echo writable st 0 data = (st, forwarded) /\
  serve_slot echo writable (fst (serve_slot echo writable st 0 data)) 0 data
  = (st, forwarded).
Proof.
  intros st data forwarded.
  assert (decode data = Appeal "unnamed" "help") as Hd by (by vm_compute).
  assert (find_client_by_name "unnamed" st = None) as Hs by (by vm_compute).
  split; [exact Hd|]. split; [exact Hs|].
  split; [exact admin_and_guest_reachable|].
  do 6 (split; [by vm_compute|]).
  pose proof (appeal_from_unresolved_name_is_forwarded_again echo writable st 0 data
                "unnamed" "help" Hd Hs) as (Hfirst & Hagain & _).
  assert (appeal_forwards "unnamed" "help" (admins_online st)
          ++ [appeal_receipt st 0 (length (admins_online st))] = forwarded) as Hout
    by (by vm_compute).
  rewrite Hout in Hfirst, Hagain. split; [exact Hfirst|exact Hagain].
Defined.

(** X24 at a client that has joined as "alice". *)
Lemma appeal_dedup_for_resolved_sender_witness :
  let st := run echo writable (admin_and_guest echo writable)
              [(0%nat, line "JOIN|alice|lobby")] in
  let data := line "APPEAL|alice|help" in
  let st1 := fst (serve_slot echo writable st 0 data) in
  well_formed st /\ decode data = Appeal "alice" "help" /\
  find_client_by_name "alice" st = Some 0%nat /\
  "help" <> "" /\ strlen "help" <= 511 /\
  snd (serve_slot echo writable st 0 data)
  = [Write 14 (line "[APPEAL] alice: help");
     Printf (line "Forwarded APPEAL from 'alice' to admin slot 1 (user='(unnamed)', room='(none)')");
     Write 4 (line "Your appeal was sent to 1 admin(s).")] /\
  serve_slot echo writable st1 0 data = (st1, [appeal_refusal st1 0]).
Proof.
  intros st data st1.
  assert (well_formed st) as Hwf by (split; by vm_compute).
  assert (decode data = Appeal "alice" "help") as Hd by (by vm_compute).
  assert (find_client_by_name "alice" st = Some 0%nat) as Hs by (by vm_compute).
  assert ("help" <> "") as Hne by discriminate.
  assert (strlen "help" <= 511) as Hlen by (by vm_compute).
  split; [exact Hwf|]. split; [exact Hd|]. split; [exact Hs|].
  split; [exact Hne|]. split; [exact Hlen|].
  pose proof (appeal_dedup_for_resolved_sender echo writable st 0 data "alice" "help" 0
                Hwf Hd Hs Hne Hlen) as (Hfwd & _ & _ & Hagain & _).
  split; [|exact Hagain].
  rewrite Hfwd; by vm_compute.
Defined.

(** C3, counterexample: two connected clients bear the name "bob".  An
    authenticated MUTE bob mutes slot 0, the first of them; a MSG from the
    other, slot 1, is still logged and written to the room. *)
Lemma second_bob_not_muted :
  let st := two_bobs echo writable in
  let st1 := fst (serve_slot echo writable st 2 (line "ADMIN|unnamed|admin123 MUTE bob")) in
  let res := serve_slot echo writable st1 1 (line "MSG|bob|lobby|hi") in
  reachable echo writable ∅ st /\
  connected (slot st 1) = true /\ username (slot st 1) = "bob" /\
  snd (serve_slot echo writable st 2 (line "ADMIN|unnamed|admin123 MUTE bob"))
    = [Write 4 (line "You are muted by admin")] /\
  muted (slot st1 0) = true /\ muted (slot st1 1) = false /\
  snd res = [Write 4 (line "[lobby] bob: hi"); Write 14 (line "[lobby] bob: hi")] /\
  files (fst res) !! "logs/lobby.log"
    = Some (default "" (files st1 !! "logs/lobby.log") +:+ line "[lobby] bob: hi").
Proof.
  split; [exact two_bobs_reachable|].
  repeat (split; [by vm_compute|]). by vm_compute.
Qed.

(** C3 (as the code has it) at the two clients named "bob": the first is
    muted and unmuted, the second is left as it was. *)
Lemma mute_then_unmute_first_named_witness :
  let st := two_bobs echo writable in
  let dmute := line "ADMIN|unnamed|admin123 MUTE bob" in
  let dunmute := line "ADMIN|unnamed|admin123|UNMUTE|bob" in
  let dmsg := line "MSG|bob|lobby|hi" in
  let st1 := fst (serve_slot echo writable st 2 dmute) in
  let st2 := fst (serve_slot echo writable st1 2 dunmute) in
  find_client_by_name "bob" st = Some 0%nat /\
  admin_command dmute "MUTE" "bob" /\ admin_command dunmute "UNMUTE" "bob" /\
  decode dmsg = Msg "bob" "lobby" "hi" /\
  serve_slot echo writable st1 0 dmsg = (st1, [reply st1 0 (line "You are muted.")]) /\
  muted (slot st2 0) = false /\
  slot st1 1 = slot st 1.
Proof.
  intros st dmute dunmute dmsg st1 st2.
  assert (find_client_by_name "bob" st = Some 0%nat) as Hj by (by vm_compute).
  assert (admin_command dmute "MUTE" "bob") as Hm.
  { exists "unnamed|admin123 MUTE bob",
      (mk_admin "unnamed" "admin123" (Some "MUTE") (Some "bob") "").
    repeat split; by vm_compute. }
  assert (admin_command dunmute "UNMUTE" "bob") as Hu.
  { exists "unnamed|admin123|UNMUTE|bob",
      (mk_admin "unnamed" "admin123" (Some "UNMUTE") None "bob").
    repeat split; by vm_compute. }
  assert (decode dmsg = Msg "bob" "lobby" "hi") as Hd by (by vm_compute).
  split; [exact Hj|]. split; [exact Hm|]. split; [exact Hu|]. split; [exact Hd|].
  pose proof (mute_then_unmute_first_named echo writable st 2 2 0 "bob"
                dmute dunmute dmsg "bob" "lobby" "hi" Hj Hm Hu Hd)
    as (_ & Hmuted & Hunmuted & _ & _ & _ & Hother & _).
  split; [exact Hmuted|]. split; [exact Hunmuted|].
  apply Hother; discriminate.
Defined.

(** C6, counterexample: with the argument string "a|b" the two payloads do
    not parse to the same tuple and are not served alike.  The
    pipe-delimited one authenticates and broadcasts "a"; in the hybrid one
    the pipe ends the third field, the password becomes
    "admin123 BROADCAST a", and the command is refused. *)
Lemma admin_forms_disagree_on_pipe_in_args :
  let st := admin_and_guest echo writable in
  let piped := pipe_form "root" "admin123" "BROADCAST" "a|b" in
  let hybrid := hybrid_form "root" "admin123" "BROADCAST" "a|b" in
  piped = "root|admin123|BROADCAST|a|b" /\
  hybrid = "root|admin123 BROADCAST a|b" /\
  option_map admin_tuple (parse_admin piped)
    = Some ("root", "admin123", Some "BROADCAST", Some "a") /\
  option_map admin_tuple (parse_admin hybrid)
    = Some ("root", "admin123 BROADCAST a", Some "b", None) /\
  snd (serve_slot echo writable st 1 (admin_wire piped))
    = [Write 4 (line "[global] admin: a"); Write 14 (line "[global] admin: a")] /\
  snd (serve_slot echo writable st 1 (admin_wire hybrid))
    = [Write 14 (line "Admin auth failed")] /\
  serve_slot echo writable st 1 (admin_wire piped)
    <> serve_slot echo writable st 1 (admin_wire hybrid).
Proof.
  repeat (split; [by vm_compute|]).
  intros H. apply (f_equal snd) in H. vm_compute in H. discriminate H.
Qed.

(** C6 (as the code has it) at KICK with an operand that contains a space. *)
Lemma admin_wire_forms_agree_witness :
  let st := two_bobs echo writable in
  is_field "root" /\ is_word "admin123" /\ is_word "KICK" /\ is_field "bob smith" /\
  serve_slot echo writable st 2 (admin_wire (pipe_form "root" "admin123" "KICK" "bob smith"))
  = serve_slot echo writable st 2 (admin_wire (hybrid_form "root" "admin123" "KICK" "bob smith")).
Proof.
  intros st.
  assert (is_field "root") as Hn by (split; reflexivity).
  assert (is_word "admin123") as Hp by (repeat split; reflexivity).
  assert (is_word "KICK") as Ha by (repeat split; reflexivity).
  assert (is_field "bob smith") as Hargs by (split; reflexivity).
  split; [exact Hn|]. split; [exact Hp|]. split; [exact Ha|]. split; [exact Hargs|].
  exact (proj1 (proj2 (admin_wire_forms_agree echo writable st 2 _ _ _ _ Hn Hp Ha Hargs))).
Defined.


(** ** Examples for the further properties *)

(** X2 at the state with two clients in the lobby. *)
Lemma tables_stay_within_bounds_witness :
  reachable echo writable ∅ (two_bobs echo writable) /\
  within_bounds (two_bobs echo writable).
Proof.
  split; [exact two_bobs_reachable|].
  exact (proj1 (tables_stay_within_bounds echo writable ∅ _ two_bobs_reachable)).
Defined.

(** X3 at a room name of 64 bytes. *)
Lemma long_room_name_reaches_nobody_witness :
  reachable echo writable ∅ (two_bobs echo writable) /\ 63 < strlen long_name /\
  snd (broadcast_to_room echo writable long_name "bob" "hi" (two_bobs echo writable)) = [].
Proof.
  assert (63 < strlen long_name) as Hlong by (by vm_compute).
  split; [exact two_bobs_reachable|]. split; [exact Hlong|].
  exact (proj1 (long_room_name_reaches_nobody echo writable ∅ _ _
                  two_bobs_reachable Hlong) "bob" "hi").
Defined.

(** X4 at two JOINs from slot 0. *)
Lemma join_is_last_write_wins_witness :
  let st := accepted 2 ∅ in
  let st2 := run echo writable st [(0%nat, line "JOIN|ann|lobby"); (0%nat, line "JOIN|annie|dev")] in
  (0 < length (clients st))%nat /\
  decode (line "JOIN|ann|lobby") = Join "ann" "lobby" /\
  decode (line "JOIN|annie|dev") = Join "annie" "dev" /\
  slot st2 0 = with_name_room "annie" "dev" (slot st 0).
Proof.
  intros st st2.
  assert (0 < length (clients st))%nat as Hi by (vm_compute; lia).
  assert (decode (line "JOIN|ann|lobby") = Join "ann" "lobby") as H1 by (by vm_compute).
  assert (decode (line "JOIN|annie|dev") = Join "annie" "dev") as H2 by (by vm_compute).
  split; [exact Hi|]. split; [exact H1|]. split; [exact H2|].
  exact (proj1 (proj2 (join_is_last_write_wins echo writable st 0 _ _ _ _ _ _ Hi H1 H2))).
Defined.

(** X5 at the slot an admin has left: the next client accepted into it is
    an admin. *)
Lemma admin_flag_is_never_cleared_witness :
  let st := admin_left echo writable in
  is_admin (slot st 1) = true /\ connected (slot st 1) = false /\
  find_free_slot st = Some 1%nat /\
  slot (fst (accept_and_spawn st (conn 7))) 1 = mk_client 1007 74 75 "" "" true false true.
Proof.
  intros st.
  assert (is_admin (slot st 1) = true) as Hadm by (by vm_compute).
  assert (find_free_slot st = Some 1%nat) as Hfree by (by vm_compute).
  split; [exact Hadm|]. split; [by vm_compute|]. split; [exact Hfree|].
  refine (proj1 (proj2 (proj2 (admin_flag_is_never_cleared echo writable st 1 Hadm))
                  (conn 7) 73 74 75 76 1007 _ eq_refl eq_refl Hfree)).
  by vm_compute.
Defined.

(** X6 at the end of file on the pipe of the second client named bob. *)
Lemma end_of_file_frees_the_slot_witness :
  let st := two_bobs echo writable in
  decode "" = Hangup /\
  (1 < length (clients st))%nat /\ connected (slot st 1) = true /\
  snd (serve_slot echo writable st 1 "") = [Close 15; Close 14] /\
  connected_count st = S (connected_count (fst (serve_slot echo writable st 1 ""))).
Proof.
  intros st.
  assert (decode "" = Hangup) as Hd by reflexivity.
  assert (1 < length (clients st))%nat as Hi by (vm_compute; lia).
  assert (connected (slot st 1) = true) as Hc by (by vm_compute).
  split; [exact Hd|]. split; [exact Hi|]. split; [exact Hc|].
  pose proof (end_of_file_frees_the_slot echo writable st 1 _ Hd Hi Hc)
    as (Hout & _ & _ & _ & _ & _ & Hcount & _).
  split; [|exact Hcount].
  rewrite Hout. by vm_compute.
Defined.

(** X7 at a KICK of "bob" with two clients of that name. *)
Lemma kick_disconnects_first_named_witness :
  let st := two_bobs echo writable in
  let data := line "ADMIN|unnamed|admin123 KICK bob" in
  admin_command data "KICK" "bob" /\
  snd (serve_slot echo writable st 2 data)
  = [Write 4 (line "You have been kicked by admin"); Close 5; Close 4] /\
  find_client_by_name "bob" (fst (serve_slot echo writable st 2 data)) = Some 1%nat.
Proof.
  intros st data.
  assert (admin_command data "KICK" "bob") as Hk.
  { exists "unnamed|admin123 KICK bob",
      (mk_admin "unnamed" "admin123" (Some "KICK") (Some "bob") "").
    repeat split; by vm_compute. }
  split; [exact Hk|].
  pose proof (kick_disconnects_first_named echo writable st 2 data "bob" Hk) as H.
  assert (find_client_by_name "bob" st = Some 0%nat) as Hj by (by vm_compute).
  cbv zeta in H. rewrite Hj in H. destruct H as (Hserve & _ & _).
  split.
  - rewrite Hserve. by vm_compute.
  - rewrite Hserve. by vm_compute.
Defined.

(** X8 at a MSG from the muted bob. *)
Lemma only_room_traffic_is_logged_witness :
  let st := bob_muted echo writable in
  decode (line "MSG|bob|lobby|hi") = Msg "bob" "lobby" "hi" /\
  muted (slot st 0) = true /\
  fst (serve_slot echo writable st 0 (line "MSG|bob|lobby|hi")) = st.
Proof.
  intros st.
  assert (decode (line "MSG|bob|lobby|hi") = Msg "bob" "lobby" "hi") as Hd by (by vm_compute).
  assert (muted (slot st 0) = true) as Hm by (by vm_compute).
  split; [exact Hd|]. split; [exact Hm|].
  pose proof (only_room_traffic_is_logged echo writable st 0 (line "MSG|bob|lobby|hi")) as H.
  cbv zeta in H. rewrite Hd in H. exact (H Hm).
Defined.

(** X9 at a broker started on a disk that already holds a lobby log. *)
Lemma logs_are_append_only_witness :
  reachable echo writable old_disk (second_day echo writable) /\
  old_disk !! "logs/lobby.log" = Some (line "[lobby] ann: yesterday") /\
  exists more,
    files (second_day echo writable) !! "logs/lobby.log"
    = Some (line "[lobby] ann: yesterday" +:+ more).
Proof.
  assert (reachable echo writable old_disk (second_day echo writable)) as Hr.
  { apply run_reachable; [apply accepted_reachable|]. by vm_compute. }
  assert (old_disk !! "logs/lobby.log" = Some (line "[lobby] ann: yesterday")) as Hold
    by (by vm_compute).
  split; [exact Hr|]. split; [exact Hold|].
  exact (proj1 (logs_are_append_only echo writable old_disk _ Hr) _ _ Hold).
Defined.

(** X10 at the lobby log written by the two JOINs. *)
Lemma history_streams_the_file_witness :
  let st := two_bobs echo writable in
  let content := line "[lobby] server: a new user has joined"
                 +:+ line "[lobby] server: a new user has joined" in
  decode (line "HISTORY|lobby") = History "lobby" /\
  files st !! log_path "lobby" = Some content /\
  exists chunks,
    serve_slot echo writable st 2 (line "HISTORY|lobby")
    = (st, map (Write (to_child_fd (slot st 2))) chunks) /\
    join chunks = content.
Proof.
  intros st content.
  assert (decode (line "HISTORY|lobby") = History "lobby") as Hd by (by vm_compute).
  assert (files st !! log_path "lobby" = Some content) as Hf by (by vm_compute).
  split; [exact Hd|]. split; [exact Hf|].
  destruct (history_streams_the_file echo writable st 2 _ _ _ Hd Hf)
    as (chunks & Hserve & Hjoin & _).
  by exists chunks.
Defined.

(** X11 at a chat line of the second bob. *)
Lemma message_shows_in_history_witness :
  let st := two_bobs echo writable in
  let st' := fst (serve_slot echo writable st 1 (line "MSG|bob|lobby|hi")) in
  decode (line "MSG|bob|lobby|hi") = Msg "bob" "lobby" "hi" /\
  muted (slot st 1) = false /\ writable (log_path "lobby") = true /\
  decode (line "HISTORY|lobby") = History "lobby" /\
  exists chunks,
    serve_slot echo writable st' 0 (line "HISTORY|lobby")
    = (st', map (Write (to_child_fd (slot st' 0))) chunks) /\
    join chunks
    = default "" (files st !! log_path "lobby")
      +:+ broadcast_line echo "lobby" "bob" "hi" +:+ String LF "".
Proof.
  intros st st'.
  assert (decode (line "MSG|bob|lobby|hi") = Msg "bob" "lobby" "hi") as Hd by (by vm_compute).
  assert (muted (slot st 1) = false) as Hm by (by vm_compute).
  assert (decode (line "HISTORY|lobby") = History "lobby") as Hh by (by vm_compute).
  split; [exact Hd|]. split; [exact Hm|]. split; [reflexivity|]. split; [exact Hh|].
  exact (proj2 (message_shows_in_history echo writable st 1 0 _ _ _ _ _
                  Hd Hm eq_refl Hh)).
Defined.

(** X12 at the third connection. *)
Lemma accept_connects_one_or_none_witness :
  find_free_slot (accepted 2 ∅) = Some 2%nat /\
  connected_count (fst (accept_and_spawn (accepted 2 ∅) (conn 2)))
  = S (connected_count (accepted 2 ∅)).
Proof.
  assert (find_free_slot (accepted 2 ∅) = Some 2%nat) as Hfree by (by vm_compute).
  split; [exact Hfree|].
  refine (proj1 (proj2 (proj2 (accept_connects_one_or_none (accepted 2 ∅) (conn 2) 2 Hfree))
                   23 24 25 26 1002 _ eq_refl eq_refl)).
  by vm_compute.
Defined.

(** X13 at the initial room table, for a short and for a long name. *)
Lemma room_registration_witness :
  within_bounds (init_server ∅) /\ nonempty long_name = true /\
  rooms (add_room_if_missing long_name (add_room_if_missing long_name (init_server ∅)))
  = ["lobby"; strn 63 long_name; strn 63 long_name].
Proof.
  assert (within_bounds (init_server ∅)) as Hb by apply within_bounds_init.
  assert (nonempty long_name = true) as Hne by reflexivity.
  split; [exact Hb|]. split; [exact Hne|].
  refine (proj2 (room_registration (init_server ∅) long_name Hb Hne) _ _).
  - by vm_compute.
  - vm_compute. lia.
Defined.

(** X14 at a pass in which slot 0 kicks carol while carol's chat line is
    waiting in slot 2. *)
Lemma pass_serves_in_slot_order_witness :
  let st := carol_joined echo writable in
  let kick := line "ADMIN|unnamed|admin123 KICK carol" in
  let chat := line "MSG|carol|lobby|hello" in
  connected (slot st 0) = true /\ connected (slot st 2) = true /\
  admin_command kick "KICK" "carol" /\ find_client_by_name "carol" st = Some 2%nat /\
  handle_parent_messages echo writable st (two_ready kick chat)
  = serve_slot echo writable st 0 kick.
Proof.
  intros st kick chat.
  assert (connected (slot st 0) = true) as Hc by (by vm_compute).
  assert (admin_command kick "KICK" "carol") as Hk.
  { exists "unnamed|admin123 KICK carol",
      (mk_admin "unnamed" "admin123" (Some "KICK") (Some "carol") "").
    repeat split; by vm_compute. }
  assert (find_client_by_name "carol" st = Some 2%nat) as Hf by (by vm_compute).
  assert (forall k, k <> 0%nat -> k <> 2%nat -> two_ready kick chat k = None) as Hidle.
  { intros [|[|[|k]]] H0 H2; done. }
  split; [exact Hc|]. split; [by vm_compute|]. split; [exact Hk|]. split; [exact Hf|].
  refine (proj2 (pass_serves_in_slot_order echo writable st (two_ready kick chat) 0 2
                   kick chat "carol" _ _ Hc eq_refl eq_refl Hidle) Hk Hf).
  - lia.
  - unfold MAX_CLIENTS. lia.
Defined.

(** X15 at a chat line that carries pipes and the word ADMIN. *)
Lemma chat_line_stays_chat_witness :
  nonempty (line "x|ADMIN|unnamed|admin123 KICK bob") = true /\
  starts_with "/" (trim_newline (c_string (line "x|ADMIN|unnamed|admin123 KICK bob"))) = false /\
  exists m,
    worker_socket worker_start (line "x|ADMIN|unnamed|admin123 KICK bob")
    = (worker_start, [ToBroker m], true) /\
    match decode m with
    | Msg _ _ _ | Dropped => True
    | _ => False
    end.
Proof.
  assert (nonempty (line "x|ADMIN|unnamed|admin123 KICK bob") = true) as Hne by reflexivity.
  assert (starts_with "/"
            (trim_newline (c_string (line "x|ADMIN|unnamed|admin123 KICK bob"))) = false)
    as Hchat by (by vm_compute).
  split; [exact Hne|]. split; [exact Hchat|].
  destruct (chat_line_stays_chat worker_start _ Hne Hchat) as (m & Hw & _ & Hd).
  by exists m.
Defined.

(** X16 at the first chat line of a new client. *)
Lemma chat_line_round_trip_witness :
  is_field "unnamed" /\ is_field "lobby" /\ is_field "hello there" /\
  exists m,
    worker_socket worker_start (line "hello there") = (worker_start, [ToBroker m], true) /\
    decode m = Msg "unnamed" "lobby" "hello there".
Proof.
  assert (is_field "unnamed") as Hu by (split; reflexivity).
  assert (is_field "lobby") as Hr by (split; reflexivity).
  assert (is_field "hello there") as Ht by (split; reflexivity).
  split; [exact Hu|]. split; [exact Hr|]. split; [exact Ht|].
  destruct (chat_line_round_trip echo writable worker_start "hello there" (accepted 1 ∅) 0
              Hu Hr Ht eq_refl) as (m & Hw & Hd & _).
  - by vm_compute.
  - by vm_compute.
  - by exists m.
Defined.

(** X17 at a new client that picks a name. *)
Lemma nick_and_join_keep_broker_in_step_witness :
  let st := accepted 1 ∅ in
  is_field "ann" /\ (0 < length (clients st))%nat /\
  exists m,
    worker_socket worker_start (line "/nick ann") = (mk_worker "ann" "lobby", [ToBroker m], true) /\
    username (slot (fst (serve_slot echo writable st 0 m)) 0) = "ann" /\
    room (slot (fst (serve_slot echo writable st 0 m)) 0) = "lobby".
Proof.
  intros st.
  assert (is_field "ann") as Ha by (split; reflexivity).
  assert (0 < length (clients st))%nat as Hi by (vm_compute; lia).
  split; [exact Ha|]. split; [exact Hi|].
  destruct (proj1 (nick_and_join_keep_broker_in_step echo writable worker_start st 0 "ann"
                     ltac:(split; reflexivity) ltac:(split; reflexivity)
                     ltac:(by vm_compute) ltac:(by vm_compute) Ha Hi))
    as (m & Hw & _ & Hu & Hr).
  exists m. split; [exact Hw|]. split; [exact Hu|exact Hr].
Defined.

(** X18 at a private message whose text contains spaces. *)
Lemma pm_line_round_trip_witness :
  is_field "unnamed" /\ is_word "bob" /\ is_field "see you at five" /\
  exists m,
    worker_socket worker_start (line "/pm bob see you at five")
    = (worker_start, [ToBroker m], true) /\
    decode m = Pm "unnamed" "bob" "see you at five".
Proof.
  assert (is_field "unnamed") as Hu by (split; reflexivity).
  assert (is_word "bob") as Hto by (repeat split; reflexivity).
  assert (is_field "see you at five") as Ht by (split; reflexivity).
  split; [exact Hu|]. split; [exact Hto|]. split; [exact Ht|].
  refine (proj1 (pm_line_round_trip worker_start "bob" "see you at five" Hu Hto Ht _)).
  by vm_compute.
Defined.

(** X19 at a /nick with a name of 64 bytes. *)
Lemma worker_stays_within_buffers_witness :
  name_fits (w_username worker_start) /\ name_fits (w_room worker_start) /\
  name_fits (w_username (fst (fst (worker_socket worker_start
                                     (line ("/nick " +:+ long_name)))))).
Proof.
  assert (name_fits (w_username worker_start)) as Hu by (by vm_compute).
  assert (name_fits (w_room worker_start)) as Hr by (by vm_compute).
  split; [exact Hu|]. split; [exact Hr|].
  exact (proj1 (worker_stays_within_buffers worker_start _ Hu Hr)).
Defined.

(** X20 at a line with leading blanks and a pipe in its argument. *)
Lemma admin_line_is_always_an_admin_command_witness :
  admin_line "admin123" (line "  BROADCAST a|b")
  = AdminSend (line "/admin admin123|BROADCAST|a|b") /\
  exists m save,
    worker_socket worker_start (line "/admin admin123|BROADCAST|a|b")
    = (worker_start, [ToBroker m], true) /\ decode m = Admin save.
Proof.
  assert (admin_line "admin123" (line "  BROADCAST a|b")
          = AdminSend (line "/admin admin123|BROADCAST|a|b")) as Hline by (by vm_compute).
  split; [exact Hline|].
  exact (proj2 (admin_line_is_always_an_admin_command _ _ _ worker_start Hline)).
Defined.

(** X21 at MUTE bob typed by an admin who knows the password. *)
Lemma admin_keyboard_to_broker_witness :
  is_field "unnamed" /\ is_field "admin123" /\ is_field "MUTE" /\
  free_of isspace "MUTE" = true /\ is_field "bob" /\
  admin_line "admin123" (line "MUTE bob") = AdminSend (line "/admin admin123|MUTE|bob") /\
  worker_socket worker_start (line "/admin admin123|MUTE|bob")
  = (worker_start, [ToBroker (line "ADMIN|unnamed|admin123|MUTE|bob")], true) /\
  admin_command (line "ADMIN|unnamed|admin123|MUTE|bob") "MUTE" "bob".
Proof.
  assert (is_field "unnamed") as Hu by (split; reflexivity).
  assert (is_field "admin123") as Hp by (split; reflexivity).
  assert (is_field "MUTE") as Ha by (split; reflexivity).
  assert (free_of isspace "MUTE" = true) as Hs by reflexivity.
  assert (is_field "bob") as Hargs by (split; reflexivity).
  split; [exact Hu|]. split; [exact Hp|]. split; [exact Ha|]. split; [exact Hs|].
  split; [exact Hargs|].
  pose proof (admin_keyboard_to_broker worker_start "admin123" "MUTE" "bob"
                Hu Hp Ha Hs ltac:(by vm_compute) Hargs eq_refl ltac:(by vm_compute))
    as (Hline & Hworker & _ & Hcmd).
  split; [exact Hline|]. split; [exact Hworker|]. exact (Hcmd eq_refl).
Defined.

(** X22 at a typed line that ends in CR LF. *)
Lemma client_line_reaches_worker_witness :
  client_line ("hello" +:+ String CR (String LF "")) = ClientSend (line "hello") false /\
  worker_socket worker_start (line "hello")
  = worker_socket worker_start ("hello" +:+ String CR (String LF "")) /\
  worker_socket worker_start (line "/quitting")
  = (worker_start, [ToSocket (line "Unknown command")], true).
Proof.
  assert (client_line ("hello" +:+ String CR (String LF "")) = ClientSend (line "hello") false)
    as Hsend by (by vm_compute).
  split; [exact Hsend|].
  pose proof (client_line_reaches_worker worker_start _ _ _ "ting" Hsend)
    as [(_ & _ & Hsame) Hquit].
  split; [exact (Hsame eq_refl)|].
  exact (proj1 (proj2 (Hquit eq_refl eq_refl ltac:(by vm_compute)))).
Defined.

(** X23 at a new client that sends "/nick " and then a chat line without
    a pipe, which is dropped, and the chat line "dev|hi", which is served
    as a MSG from "lobby" to room "dev". *)
Lemma empty_name_silences_the_worker_witness :
  let st := accepted 1 ∅ in
  is_field "lobby" /\ is_field "anyone there?" /\
  (exists m,
     worker_socket (mk_worker "" "lobby") (line "anyone there?")
     = (mk_worker "" "lobby", [ToBroker m], true) /\
     serve_slot echo writable st 0 m = (st, [])) /\
  (exists m,
     worker_socket (mk_worker "" "lobby") (line "dev|hi")
     = (mk_worker "" "lobby", [ToBroker m], true) /\
     decode m = Msg "lobby" "dev" "hi").
Proof.
  intros st.
  assert (is_field "lobby") as Hr by (split; reflexivity).
  assert (is_field "anyone there?") as Ht by (split; reflexivity).
  assert (is_field "dev") as Ha by (split; reflexivity).
  assert (is_field "hi") as Hb by (split; reflexivity).
  split; [exact Hr|]. split; [exact Ht|].
  pose proof (empty_name_silences_the_worker echo writable worker_start
                "anyone there?" st 0 Hr ltac:(by vm_compute) Ht eq_refl
                ltac:(by vm_compute)) as (_ & Hdropped & Hpiped).
  split.
  - destruct Hdropped as (m & Hw & _ & Hs). by exists m.
  - destruct (Hpiped "dev" "hi" Ha Hb eq_refl ltac:(by vm_compute))
      as (m & Hw & Hd & _).
    by exists m.
Defined.
